(** * dbot: the purchase fulfilment pipeline, its ledger and its remote client

    A shallow embedding of the economy core of the Discord bot:
    - [src/models/database.py]: the rows and their CHECK constraints,
    - [src/minecraft_integration.py]: status query and RCON execution,
    - [src/discord_bot_slash.py]: the slash-command bot (earning, buy, gift,
      the fulfilment worker),
    - [src/discord_bot.py]: the older prefix-command bot (earning, buy, the
      fulfilment worker), whose [User] objects leave their session,
    - [src/routes/api.py]: the administrative coin adjustment and the item
      and purchase endpoints.

    The committed database is a value of type [Store]; a unit of work either
    commits a new store or raises and leaves the committed one as it was.
    Rows come back from a query in the order of their keys, and a number
    written to an INTEGER column has to fit its 64 bits. Everything outside
    the process (Discord, the game server) is an oracle threaded through a
    world state. *)

From Stdlib Require Import ZArith String Ascii List Lia Bool.
From stdpp Require Import base option list gmap strings pretty sorting.

Local Open Scope string_scope.
Local Open Scope list_scope.
Local Open Scope Z_scope.

(** ** Python values the code relies on *)

Module Py.

(** Exceptions, all of them subclasses of [Exception]: what [except
    Exception] catches. *)
Inductive exn : Type :=
| TimeoutError
| ConnectionError (msg : string)
| IntegrityError (constraint : string)
| AttributeError (attr : string)
| NotFound
| Forbidden
| RuntimeError (msg : string)
| DetachedInstanceError
| OverflowError
| OtherError (msg : string).

(** The result of evaluating an expression or a call. *)
Inductive outcome (A : Type) : Type :=
| Returned (a : A)
| Raised (e : exn).
Arguments Returned {A} a.
Arguments Raised {A} e.

Definition bind {A B} (m : outcome A) (k : A -> outcome B) : outcome B :=
  match m with
  | Returned a => k a
  | Raised e => Raised e
  end.

Definition raises {A} (m : outcome A) : bool :=
  match m with Returned _ => false | Raised _ => true end.

(** Truth value of an optional string column: [None] and [''] are falsy. *)
Definition truthy (s : option string) : bool :=
  match s with
  | None => false
  | Some EmptyString => false
  | Some (String _ _) => true
  end.

(** [a or b] on an optional string and a string. *)
Definition or_else (a : option string) (b : string) : string :=
  match a with
  | Some (String c s) => String c s
  | _ => b
  end.

(** [prefix p s]: does [s] start with [p]. *)
Fixpoint starts_with (p s : string) : bool :=
  match p, s with
  | EmptyString, _ => true
  | String a p', String b s' => if Ascii.eqb a b then starts_with p' s' else false
  | String _ _, EmptyString => false
  end.

(** [s.replace(old, new)] for a non-empty [old]: every non-overlapping
    occurrence, leftmost first. [skip] counts the characters of an
    occurrence that are still to be dropped. *)
Fixpoint replace_from (old new s : string) (skip : nat) : string :=
  match s with
  | EmptyString => EmptyString
  | String c s' =>
      match skip with
      | S k => replace_from old new s' k
      | O =>
          if starts_with old s
          then new +:+ replace_from old new s' (String.length old - 1)%nat
          else String c (replace_from old new s' O)
      end
  end.

Definition replace (s old new : string) : string := replace_from old new s O.

(** What an f-string prints for a primary key: [None] before the row has
    been flushed, the decimal number afterwards. *)
Definition fmt_id (i : option Z) : string :=
  match i with
  | None => "None"
  | Some k => pretty k
  end.

End Py.

Export Py.

(** [outcome] is the error monad of the development; stdpp's
    [x ← m; k] is its sequencing. *)
#[export] Instance outcome_ret : MRet Py.outcome := @Py.Returned.
#[export] Instance outcome_bind : MBind Py.outcome :=
  fun A B k m => Py.bind m k.

(** ** src/models/database.py *)

Module Database.

Record User : Type := mkUser {
  discord_id : string;
  username : string;
  minecraft_uuid : option string;
  coins : Z;
  is_admin : bool;
  user_is_active : bool
}.

Record Transaction : Type := mkTransaction {
  t_user_id : Z;
  transaction_type : string;
  amount : Z;
  description : string;
  t_status : string;
  created_at : Z;
  reference_id : option string
}.

Record Item : Type := mkItem {
  name : string;
  price : Z;
  category : string;
  item_type : string;
  discord_role_id : option string;
  minecraft_command_template : option string;
  is_available : bool
}.

Record Purchase : Type := mkPurchase {
  p_user_id : Z;
  p_item_id : Z;
  quantity : Z;
  total_cost : Z;
  status : string;
  fulfilled_at : option Z;
  minecraft_command : option string;
  discord_role_assigned : bool
}.

Record Gift : Type := mkGift {
  sender_id : Z;
  recipient_id : Z;
  g_amount : Z;
  message : option string;
  g_status : string;
  processed_at : option Z
}.

(** The committed database. Tables are keyed by primary key; the ledger is
    kept in insertion order. *)
Record Store : Type := mkStore {
  users : gmap Z User;
  items : gmap Z Item;
  purchases : gmap Z Purchase;
  gifts : gmap Z Gift;
  transactions : list Transaction
}.

Definition empty_store : Store := mkStore ∅ ∅ ∅ ∅ [].

(** Column defaults of [User(discord_id=..., username=...)]. *)
Definition new_User (did uname : string) : User :=
  mkUser did uname None 0 false true.

(** Column defaults of [Transaction(...)]: [status='completed'], and
    [created_at] is the clock at the moment of the unit of work. Timestamps
    are microseconds since the epoch. *)
Definition new_Transaction (now uid : Z) (ty : string) (amt : Z) (descr : string)
    (ref : option string) : Transaction :=
  mkTransaction uid ty amt descr "completed" now ref.

(** Column defaults of [Purchase(...)]. *)
Definition new_Purchase (uid iid qty cost : Z) (st : string) : Purchase :=
  mkPurchase uid iid qty cost st None None false.

(** A mapped object: its primary key is [None] until the row is flushed. *)
Record Obj (A : Type) : Type := mkObj { pk : option Z; row : A }.
Arguments mkObj {A} pk row.
Arguments pk {A} o.
Arguments row {A} o.

Definition transient {A} (a : A) : Obj A := mkObj None a.

(** The key an INTEGER PRIMARY KEY column gets on insert: one more than the
    largest key in use, [1] in an empty table. *)
Definition next_key {A} (m : gmap Z A) : Z :=
  map_fold (fun k _ acc => Z.max (k + 1) acc) 1 m.

(** *** The width of an INTEGER column

    With SQLite, the default [DATABASE_URL], an INTEGER holds 64 bits: a
    Python int outside that range is refused with [OverflowError] when it is
    bound to the statement, before any constraint is looked at. The keys of
    stored rows were handed out by the database and fit; what is checked
    below are the numbers a unit of work writes. *)

Definition integer_min : Z := -9223372036854775808.
Definition integer_max : Z := 9223372036854775807.

Definition fits_integer (z : Z) : bool := (integer_min <=? z) && (z <=? integer_max).

(** *** CHECK constraints *)

Definition check_coins_non_negative (u : User) : bool := 0 <=? coins u.

Definition transaction_types : list string :=
  ["earn"; "spend"; "purchase"; "admin_add"; "admin_remove"; "refund";
   "gift_sent"; "gift_received"].

Definition transaction_statuses : list string :=
  ["pending"; "completed"; "failed"; "cancelled"].

Definition purchase_statuses : list string :=
  ["pending"; "processing"; "fulfilled"; "failed"; "refunded"].

Definition gift_statuses : list string := ["pending"; "completed"; "cancelled"].

Definition mem (s : string) (l : list string) : bool :=
  existsb (String.eqb s) l.

Definition check_transaction (t : Transaction) : bool :=
  mem (transaction_type t) transaction_types && mem (t_status t) transaction_statuses.

Definition check_purchase (p : Purchase) : bool :=
  (0 <? quantity p) && (0 <? total_cost p) && mem (status p) purchase_statuses.

Definition check_gift (g : Gift) : bool :=
  (0 <? g_amount g) && mem (g_status g) gift_statuses
  && negb (sender_id g =? recipient_id g).

(** *** Writing rows: each write is checked against the table's constraints *)

Definition set_users (s : Store) (us : gmap Z User) : Store :=
  mkStore us (items s) (purchases s) (gifts s) (transactions s).
Definition set_purchases (s : Store) (ps : gmap Z Purchase) : Store :=
  mkStore (users s) (items s) ps (gifts s) (transactions s).
Definition set_gifts (s : Store) (gs : gmap Z Gift) : Store :=
  mkStore (users s) (items s) (purchases s) gs (transactions s).
Definition set_transactions (s : Store) (ts : list Transaction) : Store :=
  mkStore (users s) (items s) (purchases s) (gifts s) ts.

Definition write_user (k : Z) (u : User) (s : Store) : outcome Store :=
  if negb (fits_integer (coins u)) then Raised OverflowError
  else if check_coins_non_negative u
  then Returned (set_users s (<[k := u]> (users s)))
  else Raised (IntegrityError "check_coins_non_negative").

Definition insert_user (u : User) (s : Store) : outcome (Z * Store) :=
  let k := next_key (users s) in
  s' ← write_user k u s; Returned (k, s').

Definition insert_transaction (t : Transaction) (s : Store) : outcome Store :=
  if negb (fits_integer (amount t)) then Raised OverflowError
  else if check_transaction t
  then Returned (set_transactions s (transactions s ++ [t]))
  else Raised (IntegrityError "check_transaction").

Definition write_purchase (k : Z) (p : Purchase) (s : Store) : outcome Store :=
  if negb (fits_integer (quantity p) && fits_integer (total_cost p))
  then Raised OverflowError
  else if check_purchase p
  then Returned (set_purchases s (<[k := p]> (purchases s)))
  else Raised (IntegrityError "check_purchase").

Definition insert_purchase (p : Purchase) (s : Store) : outcome (Z * Store) :=
  let k := next_key (purchases s) in
  s' ← write_purchase k p s; Returned (k, s').

Definition insert_gift (g : Gift) (s : Store) : outcome (Z * Store) :=
  let k := next_key (gifts s) in
  if negb (fits_integer (g_amount g)) then Raised OverflowError
  else if check_gift g
  then Returned (k, set_gifts s (<[k := g]> (gifts s)))
  else Raised (IntegrityError "check_gift").

(** *** Queries *)

(** The rows of a table as a query without ORDER BY returns them: the
    table is scanned in the order of its primary key. *)
Definition key_le {A} (a b : Z * A) : Prop := a.1 <= b.1.

#[export] Instance key_le_dec {A} (a b : Z * A) : Decision (key_le a b) :=
  Z_le_dec a.1 b.1.

Definition rows {A} (m : gmap Z A) : list (Z * A) :=
  merge_sort key_le (map_to_list m).

(** [User.query.filter_by(discord_id=d).first()] *)
Definition user_by_discord_id (s : Store) (d : string) : option (Z * User) :=
  List.find (fun kv => String.eqb (discord_id kv.2) d) (rows (users s)).

(** [Purchase.query.filter_by(status='pending').all()] *)
Definition pending_purchases (s : Store) : list (Z * Purchase) :=
  List.filter (fun kv => String.eqb (status kv.2) "pending") (rows (purchases s)).

(** [balance_of]: the cached counter. *)
Definition balance_of (s : Store) (uid : Z) : Z :=
  match users s !! uid with
  | Some u => coins u
  | None => 0
  end.

(** The sum of the ledger entries of one user. *)
Definition ledger_of (uid : Z) (log : list Transaction) : list Transaction :=
  List.filter (fun t => t_user_id t =? uid) log.

Definition sum_amounts (log : list Transaction) : Z :=
  fold_right (fun t acc => amount t + acc) 0 log.

Definition ledger_sum (s : Store) (uid : Z) : Z :=
  sum_amounts (ledger_of uid (transactions s)).

End Database.

Export Database.

(** ** The world outside the process *)

Module World.

(** A blocking call handed to a worker thread: the time it needs, in
    milliseconds ([None]: it never comes back), and what it yields. *)
Record call (A : Type) : Type := mkCall { elapsed : option N; result : outcome A }.
Arguments mkCall {A} elapsed result.
Arguments elapsed {A} c.
Arguments result {A} c.

(** [asyncio.wait_for(asyncio.to_thread(f), timeout)]: the result of the
    call when it is there in time, [TimeoutError] otherwise. *)
Definition wait_for {A} (c : call A) (timeout : N) : outcome A :=
  match elapsed c with
  | Some t => if (t <=? timeout)%N then result c else Raised TimeoutError
  | None => Raised TimeoutError
  end.

(** What [server.status()] answers. *)
Record StatusResponse : Type := mkStatusResponse {
  r_players_online : Z;
  r_max_players : Z;
  r_version : string;
  r_description : string;
  r_latency : Z
}.

(** The collaborators, over a world state [W] that every call may change.
    - [lookup]: [JavaServer.lookup(address)];
    - [server_status]: [server.status()], run in a thread;
    - [rcon]: [_execute_rcon_command(command, host, port, password)], one
      session opened, one command sent, session closed, run in a thread;
    - [add_roles]: the body of [assign_discord_role], the scan of the
      guilds for the member and the role and [member.add_roles]: [true]
      when the role was added, [false] when no guild has both;
    - [get_user]: [self.get_user(int(discord_id))], whether the buyer is in
      the client's cache;
    - [send_dm]: [discord_user.send(embed=...)];
    - [utcnow]: the clock, in microseconds.

    Two facts about the process itself: [app] says whether the slash bot
    was given the Flask application ([self.app], set by [set_flask_app]);
    [current_app] says whether an application context is active where the
    older bot runs, which is what its [flask.current_app] needs. *)
Record Env (W : Type) : Type := mkEnv {
  app : bool;
  current_app : bool;
  default_host : string;
  default_port : Z;
  default_rcon_host : string;
  default_rcon_port : Z;
  default_rcon_password : string;
  lookup : W -> string -> outcome unit * W;
  server_status : W -> string -> call StatusResponse * W;
  rcon : W -> string -> string -> Z -> string -> call string * W;
  add_roles : W -> string -> string -> outcome bool * W;
  get_user : W -> string -> outcome bool;
  send_dm : W -> string -> outcome unit * W;
  utcnow : W -> Z
}.
Arguments app {W} e.
Arguments current_app {W} e.
Arguments default_host {W} e.
Arguments default_port {W} e.
Arguments default_rcon_host {W} e.
Arguments default_rcon_port {W} e.
Arguments default_rcon_password {W} e.
Arguments lookup {W} e.
Arguments server_status {W} e.
Arguments rcon {W} e.
Arguments add_roles {W} e.
Arguments get_user {W} e.
Arguments send_dm {W} e.
Arguments utcnow {W} e.

End World.

Export World.

(** ** src/minecraft_integration.py *)

Module MinecraftIntegration.

(** The dictionary [get_server_status] returns; keys that a branch does not
    set are [None]. *)
Record StatusDict : Type := mkStatusDict {
  online : bool;
  players_online : option Z;
  max_players : option Z;
  version : option string;
  latency : option Z;
  error : option string;
  host : string;
  port : Z
}.

Definition status_timeout : N := 10000.
Definition command_timeout : N := 30000.

Definition exn_str (e : exn) : string :=
  match e with
  | TimeoutError => ""
  | ConnectionError m => m
  | IntegrityError c => c
  | AttributeError a => a
  | NotFound => "404 Not Found"
  | Forbidden => "403 Forbidden"
  | RuntimeError m => m
  | DetachedInstanceError => "Instance is not bound to a Session"
  | OverflowError => "Python int too large to convert to SQLite INTEGER"
  | OtherError m => m
  end.

(** [host or self.default_host] *)
Definition str_or (a : option string) (b : string) : string := Py.or_else a b.

(** [port or self.default_port]: [None] and [0] are falsy. *)
Definition int_or (a : option Z) (b : Z) : Z :=
  match a with
  | Some 0 => b
  | Some p => p
  | None => b
  end.

Section Client.
Context {W : Type} (env : Env W).

(** The body of the [try] block of [get_server_status]. *)
Definition get_server_status_try (w : W) (h : string) (p : Z)
    : outcome StatusDict * W :=
  let address := h +:+ ":" +:+ pretty p in
  let '(l, w1) := lookup env w address in
  match l with
  | Raised e => (Raised e, w1)
  | Returned _ =>
      let '(c, w2) := server_status env w1 address in
      (st ← wait_for c status_timeout;
       Returned (mkStatusDict true (Some (r_players_online st))
                   (Some (r_max_players st)) (Some (r_version st))
                   (Some (r_latency st)) None h p), w2)
  end.

Definition get_server_status (w : W) (host_arg : option string)
    (port_arg : option Z) : outcome StatusDict * W :=
  let h := str_or host_arg (default_host env) in
  let p := int_or port_arg (default_port env) in
  let '(r, w') := get_server_status_try w h p in
  match r with
  | Returned d => (Returned d, w')
  | Raised TimeoutError =>
      (Returned (mkStatusDict false None None None None (Some "Timeout") h p), w')
  | Raised e =>
      (Returned (mkStatusDict false None None None None (Some (exn_str e)) h p), w')
  end.

(** [execute_command]: [true] only when the RCON call came back in time
    without raising; without a password no session is opened. *)
Definition execute_command (w : W) (command : string)
    (rcon_host : option string) (rcon_port : option Z)
    (rcon_password : option string) : outcome bool * W :=
  let h := str_or rcon_host (default_rcon_host env) in
  let p := int_or rcon_port (default_rcon_port env) in
  let pw := str_or rcon_password (default_rcon_password env) in
  if negb (Py.truthy (Some pw)) then (Returned false, w)
  else
    let '(c, w') := rcon env w command h p pw in
    match wait_for c command_timeout with
    | Returned _ => (Returned true, w')
    | Raised TimeoutError => (Returned false, w')
    | Raised _ => (Returned false, w')
    end.

End Client.

End MinecraftIntegration.

(** ** What a run of the bot leaves behind *)

Module Runtime.

(** Observable steps of a worker: a commit shows the purchases table as it
    is committed from then on; the other events are the calls made on
    behalf of purchase [pid] to the collaborators: [assign_discord_role],
    [execute_command] of the remote-execution client, and the direct
    message to the buyer. [EvRcon] stands for a call of [execute_command]
    that has come back, whatever it answered: without a password, or when the
    session is refused, no command reaches the game server. *)
Inductive Event : Type :=
| EvCommit (ps : gmap Z Purchase)
| EvGrantRole (pid : Z) (discord_id role_id : string)
| EvRcon (pid : Z) (command : string)
| EvNotify (pid : Z) (discord_id : string).

Record Sys (W : Type) : Type := mkSys {
  db : Store;
  world : W;
  trace : list Event
}.
Arguments mkSys {W} db world trace.
Arguments db {W} s.
Arguments world {W} s.
Arguments trace {W} s.

Definition set_status (st : string) (p : Purchase) : Purchase :=
  mkPurchase (p_user_id p) (p_item_id p) (quantity p) (total_cost p) st
    (fulfilled_at p) (minecraft_command p) (discord_role_assigned p).
Definition set_fulfilled_at (t : option Z) (p : Purchase) : Purchase :=
  mkPurchase (p_user_id p) (p_item_id p) (quantity p) (total_cost p) (status p)
    t (minecraft_command p) (discord_role_assigned p).
Definition set_minecraft_command (c : option string) (p : Purchase) : Purchase :=
  mkPurchase (p_user_id p) (p_item_id p) (quantity p) (total_cost p) (status p)
    (fulfilled_at p) c (discord_role_assigned p).
Definition set_discord_role_assigned (b : bool) (p : Purchase) : Purchase :=
  mkPurchase (p_user_id p) (p_item_id p) (quantity p) (total_cost p) (status p)
    (fulfilled_at p) (minecraft_command p) b.
Definition set_coins (c : Z) (u : User) : User :=
  mkUser (discord_id u) (username u) (minecraft_uuid u) c (is_admin u)
    (user_is_active u).

(** [db.session.commit()] after attribute writes [f] on the purchase with
    key [k]: an UPDATE of the written columns of that row. The statuses the
    workers write are all admitted by [check_purchase_status] and the other
    checked columns are not written. *)
Definition commit_purchase {W} (k : Z) (f : Purchase -> Purchase) (s : Sys W) : Sys W :=
  let ps := alter f k (purchases (db s)) in
  mkSys (set_purchases (db s) ps) (world s) (trace s ++ [EvCommit ps]).

Definition log {W} (e : Event) (s : Sys W) : Sys W :=
  mkSys (db s) (world s) (trace s ++ [e]).

Definition set_world {W} (w : W) (s : Sys W) : Sys W :=
  mkSys (db s) w (trace s).

End Runtime.

Export Runtime.

(** ** src/discord_bot_slash.py *)

Module Slash.

Inductive Reply : Type :=
| NotConfigured
| QuantityMustBePositive
| AmountMustBePositive
| CannotGiftYourself
| CannotGiftBots
| NoAccount
| ItemNotAvailable
| InsufficientCoins (need have : Z)
| PurchaseSuccessful (remaining : Z) (purchase_id : Z)
| GiftSent (remaining : Z) (gift_id : Z)
| ErrorOccurred.

(** The three values [process_coin_earning] loads from [BotConfig] (or
    their defaults 1, 60, 100 when loading fails). *)
Record EarnConfig : Type := mkEarnConfig {
  coins_per_message : Z;
  message_cooldown : Z;
  max_daily_coins : Z
}.

Definition microseconds : Z := 1000000.
Definition day : Z := 86400 * microseconds.

(** [now.replace(hour=0, minute=0, second=0, microsecond=0)] *)
Definition today_start (now : Z) : Z := now - now mod day.

Definition is_earn_of (uid : Z) (t : Transaction) : bool :=
  (t_user_id t =? uid) && String.eqb (transaction_type t) "earn".

(** [created_at] of the latest [earn] entry of the user, if there is one. *)
Definition last_earn (uid : Z) (log : list Transaction) : option Z :=
  fold_right (fun t acc =>
                if is_earn_of uid t
                then Some (match acc with
                           | Some m => Z.max m (created_at t)
                           | None => created_at t
                           end)
                else acc) None log.

(** [sum(amount)] of the [earn] entries of the user since [since]. *)
Definition sum_earned_since (uid since : Z) (log : list Transaction) : Z :=
  sum_amounts (List.filter (fun t => is_earn_of uid t && (since <=? created_at t)) log).

(** [item.item_type in ['discord', 'both'] and item.discord_role_id] *)
Definition wants_role (item : Item) : bool :=
  mem (item_type item) ["discord"; "both"] && Py.truthy (discord_role_id item).

(** [item.item_type in ['minecraft', 'both'] and item.minecraft_command_template] *)
Definition wants_command (item : Item) : bool :=
  mem (item_type item) ["minecraft"; "both"] && Py.truthy (minecraft_command_template item).

(** The three [replace] calls on the command template. *)
Definition resolve_command (template : string) (user : User) : string :=
  let c1 := Py.replace template "{username}" (username user) in
  let c2 := Py.replace c1 "{discord_id}" (discord_id user) in
  Py.replace c2 "{minecraft_uuid}" (Py.or_else (minecraft_uuid user) (username user)).

(** The get-or-create step that [process_coin_earning] (lines 84-92) and
    [gift_command] (lines 546-555) write out in their own unit of work, under
    a name for the proofs: the row is found, or it is added and the unit of
    work goes on with it, in the same session. *)
Definition find_or_add (d n : string) (s : Store) : outcome (Z * User * Store) :=
  match user_by_discord_id s d with
  | Some (uid, u) => Returned (uid, u, s)
  | None =>
      '(uid, s1) ← insert_user (new_User d n) s;
      Returned (uid, new_User d n, s1)
  end.

Section Bot.
Context {W : Type} (env : Env W).

Definition process_coin_earning (cfg : EarnConfig) (now : Z)
    (author display_name channel : string) (s : Store) : Store :=
  if negb (app env) then s
  else
    let found :=
      match user_by_discord_id s author with
      | Some (uid, u) => Returned (uid, u, s)
      | None =>
          '(uid, s1) ← insert_user (new_User author display_name) s;
          Returned (uid, new_User author display_name, s1)
      end in
    match found with
    | Raised _ => s
    | Returned (uid, user, s1) =>
        let cooling :=
          match last_earn uid (transactions s1) with
          | Some t => now - t <? message_cooldown cfg * microseconds
          | None => false
          end in
        if cooling then s1
        else
          let today_earnings := sum_earned_since uid (today_start now) (transactions s1) in
          if max_daily_coins cfg <=? today_earnings then s1
          else
            let coins_to_award :=
              Z.min (coins_per_message cfg) (max_daily_coins cfg - today_earnings) in
            let user' := set_coins (coins user + coins_to_award) user in
            let transaction :=
              new_Transaction now uid "earn" coins_to_award
                ("Earned from message in #" +:+ channel) None in
            match (s2 ← write_user uid user' s1; insert_transaction transaction s2) with
            | Returned s3 => s3
            | Raised _ => s1
            end
    end.

(** [assign_discord_role]: any exception becomes [False]. *)
Definition assign_discord_role (k : Z) (user : User) (role_id : string)
    (s : Sys W) : bool * Sys W :=
  let '(r, w) := add_roles env (world s) (discord_id user) role_id in
  let s' := log (EvGrantRole k (discord_id user) role_id) (set_world w s) in
  match r with
  | Returned b => (b, s')
  | Raised _ => (false, s')
  end.

(** [execute_minecraft_command]: the attribute write on the purchase is
    returned as a function to be applied at the next commit. *)
Definition execute_minecraft_command (k : Z) (user : User) (item : Item)
    (s : Sys W) : bool * (Purchase -> Purchase) * Sys W :=
  match minecraft_command_template item with
  | None => (false, id, s)
  | Some template =>
      let command := resolve_command template user in
      let '(r, w) :=
        MinecraftIntegration.execute_command env (world s) command None None None in
      let s2 := log (EvRcon k command) (set_world w s) in
      match r with
      | Returned true => (true, set_minecraft_command (Some command), s2)
      | Returned false => (false, id, s2)
      | Raised _ => (false, id, s2)
      end
  end.

Definition fulfill_purchase (k : Z) (item : Item) (user : User) (s : Sys W)
    : bool * (Purchase -> Purchase) * Sys W :=
  let '(success1, f1, s1) :=
    if wants_role item then
      let '(discord_success, s') :=
        assign_discord_role k user (default "" (discord_role_id item)) s in
      if discord_success then (true, set_discord_role_assigned true, s')
      else (false, id, s')
    else (true, id, s) in
  let '(success2, f2, s2) :=
    if wants_command item then
      let '(minecraft_success, f, s') := execute_minecraft_command k user item s1 in
      if minecraft_success then (success1, f, s') else (false, f, s')
    else (success1, id, s1) in
  (success2, f2 ∘ f1, s2).

(** The first two statements of the loop body: the claim. *)
Definition claim_purchase (k : Z) (s : Sys W) : Sys W :=
  commit_purchase k (set_status "processing") s.

(** The rest of the loop body. *)
Definition settle_purchase (k : Z) (p : Purchase) (s : Sys W) : Sys W :=
  match items (db s) !! p_item_id p, users (db s) !! p_user_id p with
  | Some item, Some user =>
      let '(success, f, s1) := fulfill_purchase k item user s in
      if success
      then commit_purchase k
             (set_fulfilled_at (Some (utcnow env (world s1))) ∘ set_status "fulfilled" ∘ f) s1
      else commit_purchase k (set_status "failed" ∘ f) s1
  | _, _ => commit_purchase k (set_status "failed") s
  end.

Definition process_purchase (kp : Z * Purchase) (s : Sys W) : Sys W :=
  settle_purchase kp.1 kp.2 (claim_purchase kp.1 s).

Fixpoint sweep (pending : list (Z * Purchase)) (s : Sys W) : Sys W :=
  match pending with
  | [] => s
  | kp :: rest => sweep rest (process_purchase kp s)
  end.

Definition process_pending_purchases (s : Sys W) : Sys W :=
  if negb (app env) then s
  else sweep (pending_purchases (db s)) s.

Definition buy_command (now : Z) (buyer : string) (item_id quantity : Z)
    (s : Store) : Reply * Store :=
  if negb (app env) then (NotConfigured, s)
  else if quantity <=? 0 then (QuantityMustBePositive, s)
  else
    match user_by_discord_id s buyer with
    | None => (NoAccount, s)
    | Some (uid, user) =>
        match items s !! item_id with
        | None => (ItemNotAvailable, s)
        | Some item =>
            if negb (is_available item) then (ItemNotAvailable, s)
            else
              let total_cost := price item * quantity in
              if coins user <? total_cost
              then (InsufficientCoins total_cost (coins user), s)
              else
                let user' := set_coins (coins user - total_cost) user in
                let purchase :=
                  transient (new_Purchase uid item_id quantity total_cost "pending") in
                let transaction :=
                  new_Transaction now uid "purchase" (- total_cost)
                    ("Purchased " +:+ pretty quantity +:+ "x " +:+ name item)
                    (Some ("purchase_" +:+ Py.fmt_id (pk purchase))) in
                match (s1 ← write_user uid user' s;
                       '(pid, s2) ← insert_purchase (row purchase) s1;
                       s3 ← insert_transaction transaction s2;
                       Returned (pid, s3)) with
                | Returned (pid, s3) => (PurchaseSuccessful (coins user') pid, s3)
                | Raised _ => (ErrorOccurred, s)
                end
        end
    end.

Definition gift_command (now : Z) (giver giver_name : string)
    (recipient recipient_name : string) (recipient_is_bot : bool)
    (amt : Z) (msg : option string) (s : Store) : Reply * Store :=
  if negb (app env) then (NotConfigured, s)
  else if amt <=? 0 then (AmountMustBePositive, s)
  else if String.eqb recipient giver then (CannotGiftYourself, s)
  else if recipient_is_bot then (CannotGiftBots, s)
  else
    match user_by_discord_id s giver with
    | None => (NoAccount, s)
    | Some (sid, sender) =>
        if coins sender <? amt then (InsufficientCoins amt (coins sender), s)
        else
          let found :=
            match user_by_discord_id s recipient with
            | Some (rid, r) => Returned (rid, r, s)
            | None =>
                '(rid, s1) ← insert_user (new_User recipient recipient_name) s;
                Returned (rid, new_User recipient recipient_name, s1)
            end in
          let unit_of_work :=
            '(rid, recipient_user, s1) ← found;
            let gift := transient (mkGift sid rid amt msg "completed" (Some now)) in
            let sender' := set_coins (coins sender - amt) sender in
            let recipient' := set_coins (coins recipient_user + amt) recipient_user in
            let sender_transaction :=
              new_Transaction now sid "gift_sent" (- amt)
                ("Gift sent to " +:+ recipient_name)
                (Some ("gift_" +:+ Py.fmt_id (pk gift))) in
            let recipient_transaction :=
              new_Transaction now rid "gift_received" amt
                ("Gift received from " +:+ giver_name)
                (Some ("gift_" +:+ Py.fmt_id (pk gift))) in
            s2 ← write_user sid sender' s1;
            s3 ← write_user rid recipient' s2;
            '(gid, s4) ← insert_gift (row gift) s3;
            s5 ← insert_transaction sender_transaction s4;
            s6 ← insert_transaction recipient_transaction s5;
            Returned (coins sender', gid, s6) in
          match unit_of_work with
          | Returned (remaining, gid, s') => (GiftSent remaining gid, s')
          | Raised _ => (ErrorOccurred, s)
          end
    end.

End Bot.

End Slash.

(** ** src/discord_bot.py *)

Module Legacy.

Inductive Reply : Type :=
| ItemNotFound
| QuantityMustBePositive
| InsufficientCoins (need have : Z)
| PurchaseSuccessful (remaining : Z)
| ErrorOccurred.

(** [item.is_active] on the [Item] class of [database.py], which declares
    [is_available] and no [is_active]. *)
Definition database_is_active (i : Item) : outcome bool :=
  Raised (AttributeError "is_active").

(** A [User] object outside the [with] block that produced it. The session
    of the block goes with its application context, so the object is
    detached: the attributes that were loaded stay readable, and a write
    stays on the object, where no session sees it. An object that was
    committed in the block was expired by the commit: every attribute access
    tries to load it again and raises [DetachedInstanceError]. *)
Inductive Detached : Type :=
| Loaded (uid : Z) (u : User)
| Expired.

(** [user.id] *)
Definition id_of (o : Detached) : outcome Z :=
  match o with
  | Loaded uid _ => Returned uid
  | Expired => Raised DetachedInstanceError
  end.

(** [user.coins] *)
Definition coins_of (o : Detached) : outcome Z :=
  match o with
  | Loaded _ u => Returned (coins u)
  | Expired => Raised DetachedInstanceError
  end.

(** What [process_coin_earning] gets from [BotConfig] through
    [get_config_value]: each value as [int(...)] makes it, an exception
    when the stored text is no number. *)
Record Config : Type := mkConfig {
  cooldown : outcome Z;
  daily_limit : outcome Z;
  per_message : outcome Z
}.

(** [self.user_message_timestamps]: the time of the last message that
    passed the cooldown, by author. *)
Definition Timestamps : Type := gmap string Z.

Section Bot.
Context {W : Type} (env : Env W).
(** [item.is_active], and [template.format(username=...)]. *)
Context (is_active : Item -> outcome bool).
Context (format : string -> string -> outcome string).

(** [with current_app.app_context():] the proxy [current_app] raises
    [RuntimeError] when no application context is active. *)
Definition app_context : outcome unit :=
  if current_app env then Returned tt
  else Raised (RuntimeError "Working outside of application context.").

(** [int(await self.get_config_value(key, default))] *)
Definition config_value (v : outcome Z) : outcome Z :=
  _ ← app_context; v.

(** [get_or_create_user]: the object it returns has left its session. A
    user that was found is returned as it was loaded; a user that was
    created has been committed, and comes back expired. The store is the
    committed one either way. *)
Definition get_or_create_user (author display_name : string) (s : Store)
    : outcome Detached * Store :=
  match app_context with
  | Raised e => (Raised e, s)
  | Returned _ =>
      match user_by_discord_id s author with
      | Some (uid, u) => (Returned (Loaded uid u), s)
      | None =>
          match insert_user (new_User author display_name) s with
          | Returned (_, s1) => (Returned Expired, s1)
          | Raised e => (Raised e, s)
          end
      end
  end.

(** [award_coins]: [user.coins += amount] reads and writes the detached
    object; the session of this block holds the new [Transaction] and
    nothing else, and that is what the commit writes. *)
Definition award_coins (now : Z) (user : Detached) (amt : Z) (descr : string)
    (s : Store) : outcome Store :=
  _ ← app_context;
  _ ← coins_of user;
  uid ← id_of user;
  insert_transaction (new_Transaction now uid "earn" amt descr None) s.

(** [get_daily_coins_earned]: the sum of the [earn] entries of the user
    whose [created_at] falls on the day of [now]. *)
Definition get_daily_coins_earned (now uid : Z) (s : Store) : outcome Z :=
  _ ← app_context;
  Returned
    (sum_amounts
       (List.filter
          (fun t => Slash.is_earn_of uid t
                    && (Slash.today_start (created_at t) =? Slash.today_start now))
          (transactions s))).

(** [process_coin_earning]: the cooldown is kept in memory, by author; an
    exception anywhere is logged and leaves what was committed before it. *)
Definition process_coin_earning (cfg : Config) (now : Z)
    (author display_name : string) (ts : Timestamps) (s : Store)
    : Timestamps * Store :=
  let cooling : outcome bool :=
    match ts !! author with
    | Some last =>
        c ← config_value (cooldown cfg);
        Returned (now - last <? c * Slash.microseconds)
    | None => Returned false
    end in
  match cooling with
  | Raised _ => (ts, s)
  | Returned true => (ts, s)
  | Returned false =>
      let ts' := <[author := now]> ts in
      let '(r, s0) := get_or_create_user author display_name s in
      let unit_of_work : outcome Store :=
        user ← r;
        _ ← app_context;
        uid ← id_of user;
        coins_today ← get_daily_coins_earned now uid s0;
        limit ← daily_limit cfg;
        if limit <=? coins_today then Returned s0
        else
          coins_to_award ← config_value (per_message cfg);
          award_coins now user coins_to_award "Message activity" s0 in
      match unit_of_work with
      | Returned s1 => (ts', s1)
      | Raised _ => (ts', s0)
      end
  end.

(** [buy]: the user may be created and committed before anything else;
    [s0] below is the store after that. [user.coins -= total_cost] is a
    write on the detached object: the unit of work that is committed holds
    the purchase and the entry. An exception anywhere leaves the last
    committed store. *)
Definition buy (now : Z) (author display_name : string) (item_id qty : Z)
    (s : Store) : Reply * Store :=
  match app_context with
  | Raised _ => (ErrorOccurred, s)
  | Returned _ =>
      let '(r, s0) := get_or_create_user author display_name s in
      match r with
      | Raised _ => (ErrorOccurred, s0)
      | Returned user =>
          let available : outcome (option Item) :=
            match items s0 !! item_id with
            | None => Returned None
            | Some item =>
                a ← is_active item; Returned (if a : bool then Some item else None)
            end in
          match available with
          | Raised _ => (ErrorOccurred, s0)
          | Returned None => (ItemNotFound, s0)
          | Returned (Some item) =>
              if qty <=? 0 then (QuantityMustBePositive, s0)
              else
                let total_cost := price item * qty in
                match user with
                | Expired => (ErrorOccurred, s0)
                | Loaded uid u =>
                    if coins u <? total_cost
                    then (InsufficientCoins total_cost (coins u), s0)
                    else
                      let remaining := coins u - total_cost in
                      let purchase :=
                        transient (new_Purchase uid item_id qty total_cost "pending") in
                      let transaction :=
                        new_Transaction now uid "purchase" (- total_cost)
                          ("Purchased " +:+ pretty qty +:+ "x " +:+ name item)
                          (Some ("purchase_" +:+ Py.fmt_id (pk purchase))) in
                      match ('(pid, s1) ← insert_purchase (row purchase) s0;
                             insert_transaction transaction s1) with
                      | Returned s2 => (PurchaseSuccessful remaining, s2)
                      | Raised _ => (ErrorOccurred, s0)
                      end
                end
          end
      end
  end.

(** The session of one sweep: attribute writes waiting for the single
    commit at the end of [process_pending_purchases]. *)
Definition Session : Type := list (Z * (Purchase -> Purchase)).

Definition flush (session : Session) (ps : gmap Z Purchase) : gmap Z Purchase :=
  fold_left (fun m kf => alter kf.2 kf.1 m) session ps.

(** The notification inside the [if success:] branch: [true] when the
    branch ran to its end, [false] when it raised. *)
Definition notify (k : Z) (user : User) (s : Sys W) : bool * Sys W :=
  match get_user env (world s) (discord_id user) with
  | Raised _ => (false, s)
  | Returned false => (true, s)
  | Returned true =>
      let '(r, w) := send_dm env (world s) (discord_id user) in
      let s' := log (EvNotify k (discord_id user)) (set_world w s) in
      match r with
      | Returned _ => (true, s')
      | Raised _ => (false, s')
      end
  end.

(** [item.minecraft_command_template.format(username=user.minecraft_uuid
    or user.username)]; a template that is [None] has no [format]. *)
Definition format_command (item : Item) (user : User) : outcome string :=
  match minecraft_command_template item with
  | None => Raised (AttributeError "format")
  | Some template =>
      format template (Py.or_else (minecraft_uuid user) (username user))
  end.

(** The loop body: [None] when the purchase is skipped by [continue]. *)
Definition process_purchase (kp : Z * Purchase) (s : Sys W)
    : option (Purchase -> Purchase) * Sys W :=
  let '(k, p) := kp in
  match users (db s) !! p_user_id p, items (db s) !! p_item_id p with
  | Some user, Some item =>
      match format_command item user with
      | Raised _ => (Some (set_status "failed"), s)
      | Returned minecraft_command =>
          let '(r, w) :=
            MinecraftIntegration.execute_command env (world s) minecraft_command
              None None None in
          let s2 := log (EvRcon k minecraft_command) (set_world w s) in
          match r with
          | Returned true =>
              let f := set_minecraft_command (Some minecraft_command)
                       ∘ set_fulfilled_at (Some (utcnow env (world s2)))
                       ∘ set_status "fulfilled" in
              let '(completed, s3) := notify k user s2 in
              if completed then (Some f, s3)
              else (Some (set_status "failed" ∘ f), s3)
          | Returned false => (Some (set_status "failed"), s2)
          | Raised _ => (Some (set_status "failed"), s2)
          end
      end
  | _, _ => (None, s)
  end.

Fixpoint sweep (pending : list (Z * Purchase)) (session : Session) (s : Sys W)
    : Session * Sys W :=
  match pending with
  | [] => (session, s)
  | kp :: rest =>
      let '(f, s') := process_purchase kp s in
      match f with
      | Some f => sweep rest (session ++ [(kp.1, f)])%list s'
      | None => sweep rest session s'
      end
  end.

(** [process_pending_purchases]: outside an application context the first
    statement of the [try] block raises, which is logged. *)
Definition process_pending_purchases (s : Sys W) : Sys W :=
  match app_context with
  | Raised _ => s
  | Returned _ =>
      let '(session, s') := sweep (pending_purchases (db s)) [] s in
      let ps := flush session (purchases (db s')) in
      mkSys (set_purchases (db s') ps) (world s') (trace s' ++ [EvCommit ps])
  end.

End Bot.

End Legacy.

(** ** src/routes/api.py *)

Module Api.

Inductive Body : Type :=
| CoinsUpdated (new_balance : Z)
| Error (msg : string).

Definition Response : Type := Z * Body.

(** The reply [send_gift] of [routes/gifts.py] gives to a sender who cannot
    afford the gift: the API's way of saying insufficient funds. *)
Definition insufficient_coins : Response := (400, Error "Insufficient coins").

Definition internal_server_error : Response := (500, Error "Internal server error").

(** [POST /users/<user_id>/coins] with body [{amount, description}]. *)
Definition update_user_coins (now user_id amt : Z) (descr : string) (s : Store)
    : Response * Store :=
  let unit_of_work :=
    user ← (match users s !! user_id with
            | Some u => Returned u
            | None => Raised NotFound
            end);
    let user' := set_coins (coins user + amt) user in
    let transaction :=
      new_Transaction now user_id
        (if 0 <? amt then "admin_add" else "admin_remove") amt descr None in
    s1 ← write_user user_id user' s;
    s2 ← insert_transaction transaction s1;
    Returned (coins user', s2) in
  match unit_of_work with
  | Returned (new_balance, s') => ((200, CoinsUpdated new_balance), s')
  | Raised _ => (internal_server_error, s)
  end.

End Api.

Example replace_username :
  Py.replace "give {username} diamond_sword 1" "{username}" "A" = "give A diamond_sword 1".
Proof. reflexivity. Qed.

Example replace_twice :
  Py.replace "tp {username} {username}" "{username}" "Bo" = "tp Bo Bo".
Proof. reflexivity. Qed.

Example fmt_id_examples : Py.fmt_id None = "None" /\ Py.fmt_id (Some 12) = "12".
Proof. split; reflexivity. Qed.

(** ** Concrete stores and worlds *)

Module Demo.

(** A world without state whose collaborators always answer the same. *)
Definition scripted (role : outcome bool) (session : call string)
    (cached : outcome bool) (dm : outcome unit) : Env unit :=
  mkEnv unit true true "localhost" 25565 "localhost" 25575 "secret"
    (fun w _ => (Returned tt, w))
    (fun w _ => (mkCall (Some 40%N)
                   (Returned (mkStatusResponse 3 20 "1.20.4" "demo" 12)), w))
    (fun w _ _ _ _ => (session, w))
    (fun w _ _ => (role, w))
    (fun _ _ => cached)
    (fun w _ => (dm, w))
    (fun _ => 1700000000000000).

Definition answered : call string := mkCall (Some 80%N) (Returned "done").
Definition refused : call string :=
  mkCall (Some 5%N) (Raised (ConnectionError "Connection refused")).
Definition silent : call string := mkCall None (Returned "").

(** Everything works. *)
Definition all_up : Env unit :=
  scripted (Returned true) answered (Returned true) (Returned tt).
(** The role can be granted, the game server refuses the RCON session. *)
Definition rcon_down : Env unit :=
  scripted (Returned true) refused (Returned true) (Returned tt).
(** The role cannot be granted, the game server answers. *)
Definition role_missing : Env unit :=
  scripted (Returned false) answered (Returned true) (Returned tt).
(** Everything works but the buyer does not accept direct messages. *)
Definition dm_closed : Env unit :=
  scripted (Returned true) answered (Returned true) (Raised Forbidden).

Definition alice : User := mkUser "111" "A" None 100 false true.
Definition bob : User := mkUser "222" "B" None 0 false true.

Definition diamond_sword : Item :=
  mkItem "Diamond Sword" 50 "weapons" "minecraft" None
    (Some "give {username} diamond_sword 1") true.
Definition vip : Item :=
  mkItem "VIP Rank" 500 "ranks" "both" (Some "900")
    (Some "lp user {username} parent set vip") true.

(** Alice (100 coins) and Bob (0 coins); the ledger holds what they own. *)
Definition shop : Store :=
  mkStore {[ 1 := alice; 2 := bob ]} {[ 1 := diamond_sword; 2 := vip ]} ∅ ∅
    [new_Transaction 0 1 "admin_add" 100 "Welcome" None].

(** Three pending purchases of Alice: a VIP rank, a sword, and one whose
    item row is gone. *)
Definition queue : Store :=
  set_purchases shop
    {[ 1 := new_Purchase 1 2 1 500 "pending";
       2 := new_Purchase 1 1 1 50 "pending";
       3 := new_Purchase 1 99 1 10 "pending" ]}.

(** [template.format(username=u)] on the templates of the shop, whose only
    braces are [{username}] fields. *)
Definition format_username (template u : string) : outcome string :=
  Returned (Py.replace template "{username}" u).

Definition boot {W} (s : Store) (w : W) : Sys W := mkSys s w [].

Definition status_of {W} (k : Z) (s : Sys W) : option string :=
  status <$> purchases (db s) !! k.

End Demo.

(** ** What the worker observes of its collaborators *)

Module Observed.

Section Observed.
Context {W : Type} (env : Env W).

Definition is_call (e : Event) : bool :=
  match e with
  | EvCommit _ => false
  | _ => true
  end.

(** The calls to collaborators in a trace, commits left out. *)
Definition external_calls (tr : list Event) : list Event := List.filter is_call tr.

Definition role_of (item : Item) : string := default "" (discord_role_id item).

(** What [assign_discord_role] answers in world [w]. *)
Definition role_granted (w : W) (user : User) (item : Item) : bool :=
  match (add_roles env w (discord_id user) (role_of item)).1 with
  | Returned b => b
  | Raised _ => false
  end.

(** The world once the role step of [fulfill_purchase] is over. *)
Definition after_role (w : W) (user : User) (item : Item) : W :=
  if Slash.wants_role item
  then (add_roles env w (discord_id user) (role_of item)).2
  else w.

(** The command the slash worker sends for this item and buyer. *)
Definition command_of (user : User) (item : Item) : string :=
  Slash.resolve_command (default "" (minecraft_command_template item)) user.

(** What [execute_command] answers to that command once the role step is
    over. *)
Definition command_succeeded (w : W) (user : User) (item : Item) : bool :=
  match (MinecraftIntegration.execute_command env (after_role w user item)
           (command_of user item) None None None).1 with
  | Returned b => b
  | Raised _ => false
  end.

(** The world once both steps of [fulfill_purchase] are over. *)
Definition after_fulfill (w : W) (user : User) (item : Item) : W :=
  if Slash.wants_command item
  then (MinecraftIntegration.execute_command env (after_role w user item)
          (command_of user item) None None None).2
  else after_role w user item.

(** Every side effect the item asks for succeeded. *)
Definition all_succeeded (w : W) (user : User) (item : Item) : bool :=
  implb (Slash.wants_role item) (role_granted w user item)
  && implb (Slash.wants_command item) (command_succeeded w user item).

(** The calls the slash worker makes for one purchase, in order. *)
Definition calls_for (k : Z) (user : User) (item : Item) : list Event :=
  (if Slash.wants_role item
   then [EvGrantRole k (discord_id user) (role_of item)] else [])
  ++ (if Slash.wants_command item
      then [EvRcon k (command_of user item)] else []).

(** The attribute writes [fulfill_purchase] leaves on the purchase. *)
Definition writes_for (w : W) (user : User) (item : Item) : Purchase -> Purchase :=
  (if Slash.wants_command item && command_succeeded w user item
   then set_minecraft_command (Some (command_of user item)) else id)
  ∘ (if Slash.wants_role item && role_granted w user item
     then set_discord_role_assigned true else id).

(** A call awaited under a timeout fails when it never answers, answers
    after the timeout, or raises. *)
Definition call_fails {A} (c : call A) (timeout : N) : Prop :=
  match elapsed c with
  | None => True
  | Some t => (timeout < t)%N \/ Py.raises (result c) = true
  end.

(** The status query fails when the lookup raises or the awaited
    [server.status()] fails within [MinecraftIntegration.status_timeout]. *)
Definition status_query_fails (w : W) (host_arg : option string)
    (port_arg : option Z) : Prop :=
  let address :=
    MinecraftIntegration.str_or host_arg (default_host env) +:+ ":"
    +:+ pretty (MinecraftIntegration.int_or port_arg (default_port env)) in
  Py.raises (lookup env w address).1 = true
  \/ call_fails (server_status env (lookup env w address).2 address).1 MinecraftIntegration.status_timeout.

(** The RCON call fails when the awaited session fails within
    [MinecraftIntegration.command_timeout]. *)
Definition rcon_fails (w : W) (command : string) (rcon_host : option string)
    (rcon_port : option Z) (rcon_password : option string) : Prop :=
  call_fails
    (rcon env w command
       (MinecraftIntegration.str_or rcon_host (default_rcon_host env))
       (MinecraftIntegration.int_or rcon_port (default_rcon_port env))
       (MinecraftIntegration.str_or rcon_password (default_rcon_password env))).1
    MinecraftIntegration.command_timeout.

(** The row the slash worker leaves for a purchase whose buyer and item
    exist. *)
Definition settled_row (w : W) (user : User) (item : Item) (row : Purchase) : Purchase :=
  let written := writes_for w user item (set_status "processing" row) in
  if all_succeeded w user item
  then set_fulfilled_at (Some (utcnow env (after_fulfill w user item)))
         (set_status "fulfilled" written)
  else set_status "failed" written.

(** The older worker: whether the formatted command was sent and came back
    with success in world [w], and the world after it. *)
Definition legacy_command_succeeded (format : string -> string -> outcome string)
    (w : W) (user : User) (item : Item) : bool :=
  match Legacy.format_command format item user with
  | Returned c =>
      match (MinecraftIntegration.execute_command env w c None None None).1 with
      | Returned b => b
      | Raised _ => false
      end
  | Raised _ => false
  end.

Definition legacy_after_command (format : string -> string -> outcome string)
    (w : W) (user : User) (item : Item) : W :=
  match Legacy.format_command format item user with
  | Returned c => (MinecraftIntegration.execute_command env w c None None None).2
  | Raised _ => w
  end.

End Observed.

End Observed.

Export Observed.

(** ** Reading a trace *)

Module Traces.

(** The purchase an event is about. *)
Definition about (k : Z) (e : Event) : bool :=
  match e with
  | EvCommit _ => false
  | EvGrantRole j _ _ => j =? k
  | EvRcon j _ => j =? k
  | EvNotify j _ => j =? k
  end.

Definition calls_about (k : Z) (tr : list Event) : list Event :=
  List.filter (about k) tr.

Definition is_notify (e : Event) : bool :=
  match e with
  | EvNotify _ _ => true
  | _ => false
  end.

(** The purchases table as committed at the end of a trace that starts
    from the committed table [ps]. *)
Fixpoint replay (ps : gmap Z Purchase) (tr : list Event) : gmap Z Purchase :=
  match tr with
  | [] => ps
  | EvCommit ps' :: tr' => replay ps' tr'
  | _ :: tr' => replay ps tr'
  end.

Definition committed_status (ps : gmap Z Purchase) (k : Z) : option string :=
  status <$> ps !! k.

(** Every call in the trace is made for a purchase that the committed
    table shows as [processing] at that moment. *)
Fixpoint claimed_before_calls (ps : gmap Z Purchase) (tr : list Event) : Prop :=
  match tr with
  | [] => True
  | EvCommit ps' :: tr' => claimed_before_calls ps' tr'
  | EvGrantRole k _ _ :: tr' | EvRcon k _ :: tr' | EvNotify k _ :: tr' =>
      committed_status ps k = Some "processing" /\ claimed_before_calls ps tr'
  end.

(** The same, as a test. *)
Fixpoint claimed_before_callsb (ps : gmap Z Purchase) (tr : list Event) : bool :=
  match tr with
  | [] => true
  | EvCommit ps' :: tr' => claimed_before_callsb ps' tr'
  | EvGrantRole k _ _ :: tr' | EvRcon k _ :: tr' | EvNotify k _ :: tr' =>
      match committed_status ps k with
      | Some st => String.eqb st "processing"
      | None => false
      end && claimed_before_callsb ps tr'
  end.

(** A purchase has reached the end of its life cycle. *)
Definition terminal (st : string) : Prop := st = "fulfilled" \/ st = "failed".

(** What one turn of the loop body does to the store and to the trace. *)
Record turn_ok {W : Type} (k : Z) (s s' : Sys W) (new : list Event) : Prop := mkTurn {
  turn_trace : trace s' = trace s ++ new;
  turn_claimed : claimed_before_calls (purchases (db s)) new;
  turn_replay : replay (purchases (db s)) new = purchases (db s');
  turn_others : forall j, j <> k ->
    purchases (db s') !! j = purchases (db s) !! j /\ calls_about j new = [];
  turn_terminal : exists row',
    purchases (db s') !! k = Some row' /\ terminal (status row');
  turn_users : users (db s') = users (db s);
  turn_items : items (db s') = items (db s);
  turn_silent : Forall (fun e => is_notify e = false) new
}.

(** What a sweep over the selected purchases does. *)
Record sweep_ok {W : Type} (l : list (Z * Purchase)) (s s' : Sys W) (new : list Event) : Prop :=
  mkSweep {
  sweep_trace : trace s' = trace s ++ new;
  sweep_claimed : claimed_before_calls (purchases (db s)) new;
  sweep_replay : replay (purchases (db s)) new = purchases (db s');
  sweep_others : forall j, j ∉ (l.*1) ->
    purchases (db s') !! j = purchases (db s) !! j /\ calls_about j new = [];
  sweep_terminal : forall k, k ∈ (l.*1) -> exists row',
    purchases (db s') !! k = Some row' /\ terminal (status row');
  sweep_users : users (db s') = users (db s);
  sweep_items : items (db s') = items (db s);
  sweep_silent : Forall (fun e => is_notify e = false) new
}.

End Traces.

Export Traces.

(** ** Sweeps that overlap

    A sweep of the slash worker can give way to another task only where it
    awaits a collaborator, which is inside [fulfill_purchase], for an item
    that asks for a role or a command. From its selection to the first such
    purchase, and from the end of one to the beginning of the next, it runs
    without interruption: it commits the outcome, claims the next purchase,
    and settles on the way the purchases whose buyer or item is missing and
    those whose item asks for nothing. A thread is a sweep that waits inside
    [fulfill_purchase]: the purchases it selected and has not settled yet,
    the first of which it has claimed. *)

Module Overlap.

Record Thread : Type := mkThread {
  todo : list (Z * Purchase)
}.

Inductive Action : Type :=
| StartA | StartB    (* the sweep begins and runs up to its first suspension *)
| StepA | StepB.     (* the sweep resumes and runs up to its next suspension *)

Section Overlap.
Context {W : Type} (env : Env W).

Definition idle : Thread := mkThread [].

(** The sweep goes through the purchases it still has to do, up to the
    first one for which [fulfill_purchase] calls a collaborator. *)
Fixpoint advance (pending : list (Z * Purchase)) (s : Sys W) : Thread * Sys W :=
  match pending with
  | [] => (idle, s)
  | kp :: rest =>
      let s1 := Slash.claim_purchase kp.1 s in
      match items (db s1) !! p_item_id kp.2, users (db s1) !! p_user_id kp.2 with
      | Some item, Some _ =>
          if Slash.wants_role item || Slash.wants_command item
          then (mkThread (kp :: rest), s1)
          else advance rest (Slash.settle_purchase env kp.1 kp.2 s1)
      | _, _ => advance rest (Slash.settle_purchase env kp.1 kp.2 s1)
      end
  end.

Definition start (s : Sys W) : Thread * Sys W :=
  if negb (app env) then (idle, s)
  else advance (pending_purchases (db s)) s.

(** The thread resumes: the purchase it waits in is settled, and the sweep
    goes on to its next suspension. *)
Definition step (t : Thread) (s : Sys W) : Thread * Sys W :=
  match todo t with
  | [] => (t, s)
  | kp :: rest => advance rest (Slash.settle_purchase env kp.1 kp.2 s)
  end.

Definition act (a : Action) (st : Thread * Thread * Sys W) : Thread * Thread * Sys W :=
  let '(ta, tb, s) := st in
  match a with
  | StartA => let '(ta', s') := start s in (ta', tb, s')
  | StartB => let '(tb', s') := start s in (ta, tb', s')
  | StepA => let '(ta', s') := step ta s in (ta', tb, s')
  | StepB => let '(tb', s') := step tb s in (ta, tb', s')
  end.

Definition run (schedule : list Action) (s : Sys W) : Thread * Thread * Sys W :=
  fold_left (fun st a => act a st) schedule (idle, idle, s).

(** A thread run to its end without interruption. *)
Fixpoint finish (fuel : nat) (t : Thread) (s : Sys W) : Sys W :=
  match fuel with
  | O => s
  | S n => let '(t', s') := step t s in finish n t' s'
  end.

End Overlap.

End Overlap.

(** ** The operations that move coins *)

Module Ledger.

(** The cached balance of every user is the sum of the user's entries. *)
Definition ledger_consistent (s : Store) : Prop :=
  forall uid, balance_of s uid = ledger_sum s uid.

(** No user row holds a negative balance. *)
Definition non_negative (s : Store) : Prop :=
  forall uid u, users s !! uid = Some u -> 0 <= coins u.

(** From [s] to [s'] the ledger grew by [new], and every user either has no
    new entry and the same balance, or exactly one new entry whose amount is
    the change of the balance. *)
Definition accounted (s s' : Store) (new : list Transaction) : Prop :=
  transactions s' = transactions s ++ new
  /\ forall uid,
       (ledger_of uid new = [] /\ balance_of s' uid = balance_of s uid)
       \/ (exists t, ledger_of uid new = [t]
                     /\ amount t = balance_of s' uid - balance_of s uid).

(** Every user row of [s'] is a row of [s] or passed the check
    [coins >= 0] when it was written. *)
Definition checked_rows (s s' : Store) : Prop :=
  forall k u, users s' !! k = Some u -> users s !! k = Some u \/ 0 <= coins u.

(** An operation and what it is called with; for the earning of the older
    bot this includes the timestamps the bot holds in memory when the
    message arrives. *)
Inductive Operation : Type :=
| Earn (cfg : Slash.EarnConfig) (now : Z) (author display_name channel : string)
| Buy (now : Z) (buyer : string) (item_id quantity : Z)
| GiftTo (now : Z) (giver giver_name recipient recipient_name : string)
    (recipient_is_bot : bool) (amt : Z) (msg : option string)
| Adjust (now user_id amt : Z) (descr : string)
| LegacyEarn (cfg : Legacy.Config) (ts : Legacy.Timestamps) (now : Z)
    (author display_name : string)
| LegacyBuy (now : Z) (author display_name : string) (item_id quantity : Z).

(** The operations of the older bot, [discord_bot.py]. *)
Definition of_older_bot (op : Operation) : bool :=
  match op with
  | LegacyEarn _ _ _ _ _ | LegacyBuy _ _ _ _ _ => true
  | _ => false
  end.

Section Run.
Context {W : Type} (env : Env W) (is_active : Item -> outcome bool).

(** The committed store after an operation. *)
Definition run (op : Operation) (s : Store) : Store :=
  match op with
  | Earn cfg now author display_name channel =>
      Slash.process_coin_earning env cfg now author display_name channel s
  | Buy now buyer item_id quantity =>
      (Slash.buy_command env now buyer item_id quantity s).2
  | GiftTo now giver giver_name recipient recipient_name bot amt msg =>
      (Slash.gift_command env now giver giver_name recipient recipient_name bot amt msg s).2
  | Adjust now user_id amt descr =>
      (Api.update_user_coins now user_id amt descr s).2
  | LegacyEarn cfg ts now author display_name =>
      (Legacy.process_coin_earning env cfg now author display_name ts s).2
  | LegacyBuy now author display_name item_id quantity =>
      (Legacy.buy env is_active now author display_name item_id quantity s).2
  end.

Definition run_all (ops : list Operation) (s : Store) : Store :=
  fold_left (fun acc op => run op acc) ops s.

End Run.

End Ledger.

Export Ledger.

(** ** Scenarios *)

Module Scenarios.

Import Overlap.

(** Sweep A selects the three pending purchases, claims the VIP rank and
    waits for Discord. Meanwhile sweep B starts: it selects the sword and the
    dangling purchase, the two that are still pending, claims the sword and
    waits for the game server. Sweep A resumes, settles the VIP rank and goes
    on with the list it selected at its start: it claims the sword. *)
Definition overlap_begins : list Action := [StartA; StartB; StepA].

(** Sweep B resumes and delivers the sword; then sweep A delivers it as
    well. *)
Definition overlap : list Action := overlap_begins ++ [StepB; StepA].

Definition queue_booted : Sys unit := Demo.boot Demo.queue tt.

(** The sweeps of the two workers over the demo queue. *)
Definition slash_sweep (env : Env unit) : Sys unit :=
  Slash.process_pending_purchases env queue_booted.

Definition legacy_sweep (env : Env unit) : Sys unit :=
  Legacy.process_pending_purchases env Demo.format_username queue_booted.

(** The VIP rank, first in the demo queue, the sword and the dangling
    purchase. *)
Definition vip_purchase : Purchase := new_Purchase 1 2 1 500 "pending".
Definition sword_purchase : Purchase := new_Purchase 1 1 1 50 "pending".
Definition dangling_purchase : Purchase := new_Purchase 1 99 1 10 "pending".

(** An administrator takes 150 coins from Alice, who owns 100. *)
Definition overdraw : Api.Response * Store :=
  Api.update_user_coins 5 1 (-150) "penalty" Demo.shop.

End Scenarios.

(** ** src/minecraft_integration.py, the helpers built on the two calls *)

Module MinecraftHelpers.

(** The dictionary [test_connection] returns. *)
Record ConnectionTest : Type := mkConnectionTest {
  server_status_ok : bool;
  rcon_connection : bool;
  errors : list string
}.

Section Helpers.
Context {W : Type} (env : Env W).

(** The loop of [execute_multiple_commands]: [results[command] = success]
    for every command in turn. *)
Fixpoint run_commands (commands : list string) (rcon_host : option string)
    (rcon_port : option Z) (rcon_password : option string)
    (results : gmap string bool) (w : W) : outcome (gmap string bool) * W :=
  match commands with
  | [] => (Returned results, w)
  | command :: rest =>
      let '(r, w') :=
        MinecraftIntegration.execute_command env w command rcon_host rcon_port
          rcon_password in
      match r with
      | Returned success =>
          run_commands rest rcon_host rcon_port rcon_password
            (<[command := success]> results) w'
      | Raised e => (Raised e, w')
      end
  end.

Definition execute_multiple_commands (w : W) (commands : list string)
    (rcon_host : option string) (rcon_port : option Z)
    (rcon_password : option string) : outcome (gmap string bool) * W :=
  run_commands commands rcon_host rcon_port rcon_password ∅ w.

(** [test_connection]: the status query, then the RCON command [list]. *)
Definition test_connection (w : W) (host_arg : option string) (port_arg : option Z)
    (rcon_host : option string) (rcon_port : option Z)
    (rcon_password : option string) : ConnectionTest * W :=
  let '(st, w1) := MinecraftIntegration.get_server_status env w host_arg port_arg in
  let '(status_ok, errors1) :=
    match st with
    | Returned d =>
        (MinecraftIntegration.online d,
         if MinecraftIntegration.online d then []
         else ["Server status error: "
               +:+ default "Unknown" (MinecraftIntegration.error d)])
    | Raised e =>
        (false, ["Server status test failed: " +:+ MinecraftIntegration.exn_str e])
    end in
  let '(rc, w2) :=
    MinecraftIntegration.execute_command env w1 "list" rcon_host rcon_port
      rcon_password in
  let '(rcon_ok, errors2) :=
    match rc with
    | Returned b => (b, if b then [] else ["RCON command execution failed"])
    | Raised e => (false, ["RCON test failed: " +:+ MinecraftIntegration.exn_str e])
    end in
  (mkConnectionTest status_ok rcon_ok (errors1 ++ errors2), w2).

End Helpers.

End MinecraftHelpers.

(** ** src/routes/api.py, the item and purchase endpoints *)

Module ApiRoutes.

(** Status code and message of a reply. *)
Definition Reply : Type := Z * string.

Definition internal_server_error : Reply := (500, "Internal server error").

(** The keys of the JSON body of [PUT /items/<id>] that reach a column of
    the record: a key that is absent keeps the column. [description] and
    [updated_at] are columns outside the [Item] record, and [is_active] is
    not a column of [Item] at all. *)
Record ItemPatch : Type := mkItemPatch {
  patch_name : option string;
  patch_price : option Z;
  patch_category : option string;
  patch_template : option (option string)
}.

Definition item_types : list string := ["discord"; "minecraft"; "both"].

(** [check_price_positive] and [check_item_type]. *)
Definition check_item (i : Item) : bool :=
  (0 <? price i) && mem (item_type i) item_types.

Definition set_items (s : Store) (its : gmap Z Item) : Store :=
  mkStore (users s) its (purchases s) (gifts s) (transactions s).

Definition apply_patch (d : ItemPatch) (i : Item) : Item :=
  mkItem (default (name i) (patch_name d))
         (default (price i) (patch_price d))
         (default (category i) (patch_category d))
         (item_type i)
         (discord_role_id i)
         (default (minecraft_command_template i) (patch_template d))
         (is_available i).

(** [update_item]: the last assignment reads [item.is_active] before it
    writes it, [is_active] below. A missing item, a failing read and a
    rejected row all end in the [except] branch, before or at the commit. *)
Definition update_item (is_active : Item -> outcome bool) (item_id : Z)
    (d : ItemPatch) (s : Store) : Reply * Store :=
  match items s !! item_id with
  | None => (internal_server_error, s)
  | Some item =>
      let item' := apply_patch d item in
      match is_active item with
      | Raised _ => (internal_server_error, s)
      | Returned _ =>
          if check_item item'
          then ((200, "Item updated successfully"),
                set_items s (<[item_id := item']> (items s)))
          else (internal_server_error, s)
      end
  end.

(** [Purchase.query.filter_by(item_id=item_id).count()] *)
Definition purchase_count (item_id : Z) (s : Store) : nat :=
  length (List.filter (fun kv => p_item_id kv.2 =? item_id)
            (map_to_list (purchases s))).

(** [delete_item]: with purchase history the handler writes [is_active],
    which is not a column of [Item], so the commit changes no row. *)
Definition delete_item (item_id : Z) (s : Store) : Reply * Store :=
  match items s !! item_id with
  | None => (internal_server_error, s)
  | Some item =>
      if (0 <? purchase_count item_id s)%nat
      then ((200, "Item deactivated (has purchase history)"), s)
      else ((200, "Item deleted successfully"),
            set_items s (delete item_id (items s)))
  end.

Section Fulfil.
Context {W : Type} (env : Env W).
Context (format : string -> string -> outcome string).

(** [POST /purchases/<id>/fulfill], the manual fulfilment. *)
Definition fulfill_purchase (purchase_id : Z) (s : Sys W) : Reply * Sys W :=
  match purchases (db s) !! purchase_id with
  | None => (internal_server_error, s)
  | Some purchase =>
      if negb (String.eqb (status purchase) "pending")
      then ((400, "Purchase is not pending"), s)
      else
        match users (db s) !! p_user_id purchase, items (db s) !! p_item_id purchase with
        | Some user, Some item =>
            match Legacy.format_command format item user with
            | Raised _ => (internal_server_error, s)
            | Returned minecraft_command =>
                let '(r, w) :=
                  MinecraftIntegration.execute_command env (world s) minecraft_command
                    None None None in
                let s1 := log (EvRcon purchase_id minecraft_command) (set_world w s) in
                match r with
                | Returned true =>
                    ((200, "Purchase fulfilled successfully"),
                     commit_purchase purchase_id
                       (set_minecraft_command (Some minecraft_command)
                        ∘ set_fulfilled_at (Some (utcnow env w))
                        ∘ set_status "fulfilled") s1)
                | Returned false => ((500, "Failed to execute Minecraft command"), s1)
                | Raised _ => (internal_server_error, s1)
                end
            end
        | _, _ => ((404, "User or item not found"), s)
        end
  end.

End Fulfil.

End ApiRoutes.

(** ** What a worker leaves alone *)

Module Kept.

(** The columns of a purchase that are fixed when it is bought. *)
Definition same_order (row row' : Purchase) : Prop :=
  p_user_id row' = p_user_id row /\ p_item_id row' = p_item_id row
  /\ quantity row' = quantity row /\ total_cost row' = total_cost row.

(** Two purchases tables hold the same purchases, with the same order
    columns. *)
Definition rows_kept (ps ps' : gmap Z Purchase) : Prop :=
  forall k,
    match ps !! k, ps' !! k with
    | Some row, Some row' => same_order row row'
    | None, None => True
    | _, _ => False
    end.

(** Everything but the purchases table is the same. *)
Definition ledger_untouched (s s' : Store) : Prop :=
  users s' = users s /\ items s' = items s /\ gifts s' = gifts s
  /\ transactions s' = transactions s.

Definition is_role_grant (e : Event) : bool :=
  match e with
  | EvGrantRole _ _ _ => true
  | _ => false
  end.

Definition is_commit (e : Event) : bool :=
  match e with
  | EvCommit _ => true
  | _ => false
  end.

(** A write of the older worker: it ends the life cycle of the purchase and
    keeps the order columns. *)
Definition settles (f : Purchase -> Purchase) : Prop :=
  forall row, terminal (status (f row)) /\ same_order row (f row).

Definition quiet (e : Event) : Prop := is_commit e = false /\ is_role_grant e = false.

End Kept.

Export Kept.

(** ** More scenarios *)

Module MoreScenarios.

(** A badge whose type names a role and whose role id was never filled in. *)
Definition badge : Item := mkItem "Badge" 10 "misc" "discord" None None true.

Definition badge_purchase : Purchase := new_Purchase 1 3 1 10 "pending".

Definition badge_queue : Sys unit :=
  Demo.boot
    (mkStore (users Demo.shop) (<[3 := badge]> (items Demo.shop))
       {[ 1 := badge_purchase ]} ∅ (transactions Demo.shop)) tt.

(** A kit whose type names both side effects and whose role id was never
    filled in. *)
Definition starter_kit : Item :=
  mkItem "Starter Kit" 10 "kits" "both" None (Some "give {username} bread 16") true.

Definition kit_purchase : Purchase := new_Purchase 1 3 1 10 "pending".

Definition kit_queue : Sys unit :=
  Demo.boot
    (mkStore (users Demo.shop) (<[3 := starter_kit]> (items Demo.shop))
       {[ 1 := kit_purchase ]} ∅ (transactions Demo.shop)) tt.

(** A buyer whose [discord_id] is no number: [int(user.discord_id)] raises
    before the client's cache is asked. *)
Definition bad_discord_id : Env unit :=
  Demo.scripted (Returned true) Demo.answered
    (Raised (OtherError "invalid literal for int() with base 10"))
    (Returned tt).

(** A bot whose RCON password is not configured. *)
Definition no_password : Env unit :=
  mkEnv unit true true "localhost" 25565 "localhost" 25575 ""
    (fun w _ => (Returned tt, w))
    (fun w _ => (mkCall (Some 40%N)
                   (Returned (mkStatusResponse 3 20 "1.20.4" "demo" 12)), w))
    (fun w _ _ _ _ => (Demo.answered, w))
    (fun w _ _ => (Returned true, w))
    (fun _ _ => Returned true)
    (fun w _ => (Returned tt, w))
    (fun _ => 1700000000000000).

(** One coin per message, a minute between two awards, a hundred a day. *)
Definition defaults : Slash.EarnConfig := Slash.mkEarnConfig 1 60 100.

(** The same for the older bot, as [get_config_value] and [int] give it. *)
Definition legacy_defaults : Legacy.Config :=
  Legacy.mkConfig (Returned 60) (Returned 100) (Returned 1).

(** The older bot as the repository starts it: no application context is
    active where its handlers run. *)
Definition outside_context : Env unit :=
  mkEnv unit true false "localhost" 25565 "localhost" 25575 "secret"
    (fun w _ => (Returned tt, w))
    (fun w _ => (mkCall (Some 40%N)
                   (Returned (mkStatusResponse 3 20 "1.20.4" "demo" 12)), w))
    (fun w _ _ _ _ => (Demo.answered, w))
    (fun w _ _ => (Returned true, w))
    (fun _ _ => Returned true)
    (fun w _ => (Returned tt, w))
    (fun _ => 1700000000000000).

Definition first_earning : Transaction :=
  new_Transaction 1000000000 1 "earn" 1 "Earned from message in #general" None.

(** Alice earned a coin at second 1000. *)
Definition chatty : Store :=
  mkStore {[ 1 := Demo.alice; 2 := Demo.bob ]} (items Demo.shop) ∅ ∅ [first_earning].

End MoreScenarios.

(** * The remote-execution client *)

Section RemoteClient.
Context {W : Type} (env : Env W).

Import MinecraftIntegration.

Lemma wait_for_fails {A} (c : call A) (timeout : N) :
  call_fails c timeout -> Py.raises (wait_for c timeout) = true.
Proof.
  unfold call_fails, wait_for. destruct (elapsed c) as [t|]; [|done].
  intros [Hlate|Hraise].
  - apply N.leb_gt in Hlate. by rewrite Hlate.
  - by destruct (t <=? timeout)%N.
Qed.

Lemma wait_for_in_time {A} (c : call A) (timeout t : N) (a : A) :
  elapsed c = Some t -> (t <= timeout)%N -> result c = Returned a ->
  wait_for c timeout = Returned a.
Proof.
  intros He Ht Hr. unfold wait_for. rewrite He.
  apply N.leb_le in Ht. by rewrite Ht.
Qed.

Lemma get_server_status_returns w host_arg port_arg :
  exists d, (get_server_status env w host_arg port_arg).1 = Returned d.
Proof.
  unfold get_server_status.
  destruct (get_server_status_try _ _ _ _) as [[d|e] w']; [by eexists|].
  destruct e; by eexists.
Qed.

Lemma get_server_status_offline w host_arg port_arg d :
  status_query_fails env w host_arg port_arg ->
  (get_server_status env w host_arg port_arg).1 = Returned d ->
  online d = false.
Proof.
  unfold status_query_fails, get_server_status, get_server_status_try.
  set (address := _ +:+ _). intros Hfail.
  destruct (lookup env w address) as [[[]|e] w1] eqn:Hl; simpl in *.
  - destruct Hfail as [?|Hfail]; [done|].
    destruct (server_status env w1 address) as [c w2] eqn:Hs; simpl in *.
    apply wait_for_fails in Hfail.
    destruct (wait_for c status_timeout) as [st|e]; [done|]. simpl.
    destruct e; intros [= <-]; done.
  - destruct e; intros [= <-]; done.
Qed.

Lemma execute_command_returns w command h p pw :
  exists b, (execute_command env w command h p pw).1 = Returned b.
Proof.
  unfold execute_command.
  destruct (negb _); [by eexists|].
  destruct (rcon _ _ _ _ _ _) as [c w'].
  destruct (wait_for c command_timeout) as [r|e]; [by eexists|].
  destruct e; by eexists.
Qed.

Lemma execute_command_false w command h p pw :
  rcon_fails env w command h p pw ->
  (execute_command env w command h p pw).1 = Returned false.
Proof.
  unfold rcon_fails, execute_command. intros Hfail.
  destruct (negb _); [done|].
  destruct (rcon _ _ _ _ _ _) as [c w']. simpl in Hfail.
  apply wait_for_fails in Hfail.
  destruct (wait_for c command_timeout) as [r|e]; [done|].
  by destruct e.
Qed.

(** C9. Both calls of the remote-execution client always return a value
    and never raise: [get_server_status] returns a dictionary, with
    [online = false] whenever the lookup raised or the status call did not
    answer within 10 seconds or raised; [execute_command] returns a
    boolean, [false] whenever the RCON session did not answer within 30
    seconds or raised. *)
Theorem remote_client_never_raises w host_arg port_arg command rh rp rpw :
  status_timeout = 10000%N /\ command_timeout = 30000%N
  /\ (exists d, (get_server_status env w host_arg port_arg).1 = Returned d
                /\ (status_query_fails env w host_arg port_arg -> online d = false))
  /\ (exists b, (execute_command env w command rh rp rpw).1 = Returned b
                /\ (rcon_fails env w command rh rp rpw -> b = false)).
Proof.
  split; [done|]. split; [done|]. split.
  - destruct (get_server_status_returns w host_arg port_arg) as [d Hd].
    exists d. split; [done|]. intros Hf. by eapply get_server_status_offline.
  - destruct (execute_command_returns w command rh rp rpw) as [b Hb].
    exists b. split; [done|]. intros Hf.
    rewrite (execute_command_false _ _ _ _ _ Hf) in Hb. by injection Hb.
Qed.

End RemoteClient.

(** * The fulfilment worker of the slash bot *)

(** Both sides are the same system once the logging is unfolded. *)
Ltac same_sys :=
  unfold log, set_world; cbn; rewrite <- ?app_assoc, ?app_nil_r; reflexivity.

Section SlashWorker.
Context {W : Type} (env : Env W).

(** [fulfill_purchase] in one equation: its verdict, the attribute writes
    it leaves, and the calls it makes. *)
Lemma fulfill_purchase_eq k item user (s : Sys W) :
  Slash.fulfill_purchase env k item user s =
    (all_succeeded env (world s) user item,
     writes_for env (world s) user item,
     mkSys (db s) (after_fulfill env (world s) user item)
           (trace s ++ calls_for k user item)).
Proof.
  destruct s as [d w tr].
  unfold Slash.fulfill_purchase, all_succeeded, writes_for, calls_for,
    after_fulfill, command_succeeded, after_role, role_granted,
    Slash.assign_discord_role, Slash.execute_minecraft_command, command_of, role_of.
  destruct (Slash.wants_role item) eqn:Hr; simpl.
  - destruct (add_roles env w (discord_id user) _) as [[[]|e] w1] eqn:Ha; simpl;
    (destruct (Slash.wants_command item) eqn:Hc; simpl;
     [ unfold Slash.wants_command in Hc; apply andb_true_iff in Hc as [_ Hc];
       destruct (minecraft_command_template item) as [t|]; [|done]; simpl;
       destruct (MinecraftIntegration.execute_command env w1 _ None None None)
         as [[[]|e'] w2] eqn:He; same_sys
     | same_sys ]).
  - destruct (Slash.wants_command item) eqn:Hc; simpl.
    + unfold Slash.wants_command in Hc; apply andb_true_iff in Hc as [_ Hc].
      destruct (minecraft_command_template item) as [t|]; [|done]; simpl.
      destruct (MinecraftIntegration.execute_command env w _ None None None)
        as [[[]|e'] w2] eqn:He; same_sys.
    + same_sys.
Qed.

Lemma process_purchase_found k p (s : Sys W) item user :
  items (db s) !! p_item_id p = Some item ->
  users (db s) !! p_user_id p = Some user ->
  exists ps1 ps2,
    Slash.process_purchase env (k, p) s =
      mkSys (set_purchases (db s) ps2) (after_fulfill env (world s) user item)
            (trace s ++ [EvCommit ps1] ++ calls_for k user item ++ [EvCommit ps2])
    /\ ps1 = alter (set_status "processing") k (purchases (db s))
    /\ ps2 !! k = settled_row env (world s) user item <$> purchases (db s) !! k
    /\ forall j, j <> k -> ps2 !! j = purchases (db s) !! j.
Proof.
  intros Hi Hu. destruct s as [d w tr].
  unfold Slash.process_purchase, Slash.settle_purchase, Slash.claim_purchase,
    commit_purchase. simpl in *. rewrite Hi, Hu.
  rewrite fulfill_purchase_eq. simpl.
  exists (alter (set_status "processing") k (purchases d)),
    (alter ((if all_succeeded env w user item
             then set_fulfilled_at (Some (utcnow env (after_fulfill env w user item)))
                  ∘ set_status "fulfilled"
             else set_status "failed") ∘ writes_for env w user item) k
       (alter (set_status "processing") k (purchases d))).
  split; [|split; [reflexivity|]].
  - destruct (all_succeeded env w user item); unfold commit_purchase; simpl;
      rewrite <- !app_assoc; simpl; reflexivity.
  - unfold settled_row.
    destruct (all_succeeded env w user item); simpl; split.
    + rewrite !lookup_alter_eq. by destruct (purchases d !! k).
    + intros j Hj. by rewrite !lookup_alter_ne.
    + rewrite !lookup_alter_eq. by destruct (purchases d !! k).
    + intros j Hj. by rewrite !lookup_alter_ne.
Qed.

Lemma process_purchase_missing k p (s : Sys W) :
  items (db s) !! p_item_id p = None \/ users (db s) !! p_user_id p = None ->
  exists ps1 ps2,
    Slash.process_purchase env (k, p) s =
      mkSys (set_purchases (db s) ps2) (world s)
            (trace s ++ [EvCommit ps1; EvCommit ps2])
    /\ ps1 = alter (set_status "processing") k (purchases (db s))
    /\ ps2 !! k = set_status "failed" <$> purchases (db s) !! k
    /\ forall j, j <> k -> ps2 !! j = purchases (db s) !! j.
Proof.
  intros Hmiss. destruct s as [d w tr].
  unfold Slash.process_purchase, Slash.settle_purchase, Slash.claim_purchase,
    commit_purchase. simpl in *.
  eexists _, (alter (set_status "failed") k (alter (set_status "processing") k (purchases d))).
  split; [|split; [reflexivity|split]].
  - destruct (items d !! p_item_id p) as [item|] eqn:Hi;
      destruct (users d !! p_user_id p) as [user|] eqn:Hu;
      try (destruct Hmiss; congruence); rewrite <- !app_assoc; reflexivity.
  - rewrite !lookup_alter_eq. by destruct (purchases d !! k).
  - intros j Hj. by rewrite !lookup_alter_ne.
Qed.

Lemma external_calls_app (tr1 tr2 : list Event) :
  external_calls (tr1 ++ tr2) = external_calls tr1 ++ external_calls tr2.
Proof. apply List.filter_app. Qed.

Lemma external_calls_for k user item :
  external_calls (calls_for k user item) = calls_for k user item.
Proof.
  unfold calls_for.
  by destruct (Slash.wants_role item), (Slash.wants_command item).
Qed.

Lemma external_calls_purchase tr ps1 ps2 k user item :
  external_calls (tr ++ [EvCommit ps1] ++ calls_for k user item ++ [EvCommit ps2])
  = external_calls tr ++ calls_for k user item.
Proof.
  rewrite !external_calls_app, external_calls_for. simpl. by rewrite app_nil_r.
Qed.

(** C5, as the code has it. An item asks for a role grant when its type is
    [discord] or [both] and its role id is set, and for a remote command
    when its type is [minecraft] or [both] and its command template is set.
    The slash worker leaves a purchase [fulfilled], with [fulfilled_at] set,
    only if every side effect the item asks for succeeded, and then the
    purchase carries the role flag and the command. The calls it makes for
    the purchase are the ones the item asks for, whatever they answer: an
    item that asks for both gets the role grant and then the remote command,
    also when the role grant failed; a side effect that the type names but
    whose role id or template is empty is not attempted. *)
Theorem fulfilled_only_if_all_succeeded k p row (s : Sys W) item user :
  purchases (db s) !! k = Some row ->
  items (db s) !! p_item_id p = Some item ->
  users (db s) !! p_user_id p = Some user ->
  let s' := Slash.process_purchase env (k, p) s in
  let role_asked :=
    mem (item_type item) ["discord"; "both"] && Py.truthy (discord_role_id item) in
  let command_asked :=
    mem (item_type item) ["minecraft"; "both"]
    && Py.truthy (minecraft_command_template item) in
  exists row',
    purchases (db s') !! k = Some row'
    /\ (status row' = "fulfilled" \/ status row' = "failed")
    /\ (status row' = "fulfilled" ->
          (role_asked = true ->
             role_granted env (world s) user item = true
             /\ discord_role_assigned row' = true)
          /\ (command_asked = true ->
                command_succeeded env (world s) user item = true
                /\ minecraft_command row' = Some (command_of user item))
          /\ fulfilled_at row' = Some (utcnow env (world s')))
    /\ external_calls (trace s')
       = external_calls (trace s)
         ++ (if role_asked then [EvGrantRole k (discord_id user) (role_of item)] else [])
         ++ (if command_asked then [EvRcon k (command_of user item)] else []).
Proof.
  intros Hrow Hi Hu s' role_asked command_asked.
  destruct (process_purchase_found k p s item user Hi Hu)
    as (ps1 & ps2 & Heq & _ & Hk & _).
  subst s'. rewrite Heq. cbn [db world trace set_purchases purchases].
  rewrite external_calls_purchase, Hk, Hrow. simpl.
  eexists. split; [reflexivity|].
  change role_asked with (Slash.wants_role item).
  change command_asked with (Slash.wants_command item).
  split; [|split].
  - unfold settled_row. destruct (all_succeeded env (world s) user item); simpl; auto.
  - unfold settled_row, all_succeeded, writes_for.
    destruct (Slash.wants_role item), (Slash.wants_command item),
      (role_granted env (world s) user item),
      (command_succeeded env (world s) user item); simpl; intros Hst;
      try discriminate Hst; repeat split; try done.
  - reflexivity.
Qed.

(** C3, as the code has it. For an item of type [both] whose role id and
    command template are set, when the role grant succeeds and the remote
    command fails ([execute_command] answers [False]), the slash worker
    settles the purchase as [failed], [discord_role_assigned] is [true], and
    [minecraft_command] is left as it was before the sweep: the resolved
    command is written on the purchase only when the command succeeds. The
    two calls made for the purchase are the role grant and, after it, the
    call of [execute_command] with the resolved command. *)
Theorem partial_failure_keeps_role k p row (s : Sys W) item user :
  purchases (db s) !! k = Some row ->
  items (db s) !! p_item_id p = Some item ->
  users (db s) !! p_user_id p = Some user ->
  item_type item = "both" ->
  Py.truthy (discord_role_id item) = true ->
  Py.truthy (minecraft_command_template item) = true ->
  role_granted env (world s) user item = true ->
  command_succeeded env (world s) user item = false ->
  let s' := Slash.process_purchase env (k, p) s in
  exists row',
    purchases (db s') !! k = Some row'
    /\ status row' = "failed"
    /\ discord_role_assigned row' = true
    /\ minecraft_command row' = minecraft_command row
    /\ external_calls (trace s') =
         external_calls (trace s)
         ++ [EvGrantRole k (discord_id user) (role_of item);
             EvRcon k (command_of user item)].
Proof.
  intros Hrow Hi Hu Hty Hrole Htpl Hg Hf s'.
  assert (Slash.wants_role item = true) as Hr
    by (unfold Slash.wants_role; by rewrite Hty, Hrole).
  assert (Slash.wants_command item = true) as Hc
    by (unfold Slash.wants_command; by rewrite Hty, Htpl).
  destruct (process_purchase_found k p s item user Hi Hu)
    as (ps1 & ps2 & Heq & _ & Hk & _).
  subst s'. rewrite Heq. cbn [db world trace set_purchases purchases].
  rewrite external_calls_purchase, Hk, Hrow. simpl.
  eexists. split; [reflexivity|].
  unfold settled_row, all_succeeded, writes_for, calls_for.
  rewrite Hr, Hc, Hg, Hf. simpl.
  repeat split.
Qed.

(** When the command succeeds the resolved command is what is recorded. *)
Lemma command_recorded_on_success k p row (s : Sys W) item user :
  purchases (db s) !! k = Some row ->
  items (db s) !! p_item_id p = Some item ->
  users (db s) !! p_user_id p = Some user ->
  Slash.wants_command item = true ->
  command_succeeded env (world s) user item = true ->
  exists row',
    purchases (db (Slash.process_purchase env (k, p) s)) !! k = Some row'
    /\ minecraft_command row' = Some (command_of user item).
Proof.
  intros Hrow Hi Hu Hc Hok.
  destruct (process_purchase_found k p s item user Hi Hu)
    as (ps1 & ps2 & Heq & _ & Hk & _).
  rewrite Heq. simpl. rewrite Hk, Hrow. simpl.
  eexists. split; [reflexivity|].
  unfold settled_row, writes_for. rewrite Hc, Hok. simpl.
  by destruct (all_succeeded env (world s) user item),
    (Slash.wants_role item && role_granted env (world s) user item).
Qed.


(** ** A whole sweep of the slash worker *)

Lemma replay_app ps (t1 t2 : list Event) :
  replay ps (t1 ++ t2) = replay (replay ps t1) t2.
Proof.
  revert ps. induction t1 as [|e t1 IH]; intros ps; [done|].
  destruct e; simpl; apply IH.
Qed.

Lemma claimed_app ps (t1 t2 : list Event) :
  claimed_before_calls ps (t1 ++ t2)
  <-> claimed_before_calls ps t1 /\ claimed_before_calls (replay ps t1) t2.
Proof.
  revert ps. induction t1 as [|e t1 IH]; intros ps; simpl; [tauto|].
  destruct e; simpl; rewrite ?IH; tauto.
Qed.

Lemma calls_about_app k (t1 t2 : list Event) :
  calls_about k (t1 ++ t2) = calls_about k t1 ++ calls_about k t2.
Proof. apply List.filter_app. Qed.

Lemma replay_calls_for ps k user item : replay ps (calls_for k user item) = ps.
Proof.
  unfold calls_for. by destruct (Slash.wants_role item), (Slash.wants_command item).
Qed.

Lemma claimed_calls_for ps k user item :
  committed_status ps k = Some "processing" ->
  claimed_before_calls ps (calls_for k user item).
Proof.
  intros H. unfold calls_for.
  by destruct (Slash.wants_role item), (Slash.wants_command item).
Qed.

Lemma calls_about_calls_for j k user item :
  j <> k -> calls_about j (calls_for k user item) = [].
Proof.
  intros Hne. unfold calls_for, calls_about.
  assert ((k =? j) = false) as Hkj by (apply Z.eqb_neq; congruence).
  destruct (Slash.wants_role item), (Slash.wants_command item); simpl;
    by rewrite ?Hkj.
Qed.

Lemma no_notify_calls_for k user item :
  Forall (fun e => is_notify e = false) (calls_for k user item).
Proof.
  unfold calls_for.
  destruct (Slash.wants_role item), (Slash.wants_command item); simpl;
    repeat constructor.
Qed.

Lemma process_purchase_turn k p (s : Sys W) :
  is_Some (purchases (db s) !! k) ->
  exists new, turn_ok k s (Slash.process_purchase env (k, p) s) new.
Proof.
  intros [row Hrow].
  destruct (items (db s) !! p_item_id p) as [item|] eqn:Hi;
    [destruct (users (db s) !! p_user_id p) as [user|] eqn:Hu|].
  - destruct (process_purchase_found k p s item user Hi Hu)
      as (ps1 & ps2 & Heq & Hps1 & Hk & Hother).
    rewrite Heq.
    exists ([EvCommit ps1] ++ calls_for k user item ++ [EvCommit ps2]).
    split; cbn [db world trace set_purchases purchases users items]; try done.
    + simpl. apply claimed_app. split.
      * apply claimed_calls_for. subst ps1. unfold committed_status.
        by rewrite lookup_alter_eq, Hrow.
      * by rewrite replay_calls_for.
    + simpl. by rewrite replay_app, replay_calls_for.
    + intros j Hj. split; [by apply Hother|].
      simpl. rewrite calls_about_app, calls_about_calls_for by done. done.
    + rewrite Hk, Hrow. simpl. eexists. split; [done|].
      unfold settled_row, terminal.
      destruct (all_succeeded env (world s) user item); simpl; auto.
    + constructor; [done|]. apply Forall_app. split; [apply no_notify_calls_for|].
      by repeat constructor.
  - destruct (process_purchase_missing k p s (or_intror Hu))
      as (ps1 & ps2 & Heq & Hps1 & Hk & Hother).
    rewrite Heq. exists [EvCommit ps1; EvCommit ps2].
    split; cbn [db world trace set_purchases purchases users items]; try done.
    + intros j Hj. split; [by apply Hother|done].
    + rewrite Hk, Hrow. simpl. eexists. split; [done|]. by right.
    + by repeat constructor.
  - destruct (process_purchase_missing k p s (or_introl Hi))
      as (ps1 & ps2 & Heq & Hps1 & Hk & Hother).
    rewrite Heq. exists [EvCommit ps1; EvCommit ps2].
    split; cbn [db world trace set_purchases purchases users items]; try done.
    + intros j Hj. split; [by apply Hother|done].
    + rewrite Hk, Hrow. simpl. eexists. split; [done|]. by right.
    + by repeat constructor.
Qed.

Lemma sweep_spec (l : list (Z * Purchase)) (s : Sys W) :
  (forall k, k ∈ (l.*1) -> is_Some (purchases (db s) !! k)) ->
  exists new, sweep_ok l s (Slash.sweep env l s) new.
Proof.
  revert s. induction l as [|[k p] rest IH]; intros s Hpresent.
  - exists []. split; simpl; try done.
    + by rewrite app_nil_r.
    + intros k Hk. by apply elem_of_nil in Hk.
  - simpl.
    destruct (process_purchase_turn k p s) as [new1 T].
    { apply Hpresent. simpl. left. }
    set (s1 := Slash.process_purchase env (k, p) s) in *.
    destruct (IH s1) as [new2 S].
    { intros j Hj. destruct (decide (j = k)) as [->|Hne].
      - destruct (turn_terminal _ _ _ _ T) as (row' & -> & _). by eexists.
      - rewrite (proj1 (turn_others _ _ _ _ T j Hne)). apply Hpresent.
        simpl. by right. }
    exists (new1 ++ new2). split.
    + rewrite (sweep_trace _ _ _ _ S), (turn_trace _ _ _ _ T). by rewrite app_assoc.
    + apply claimed_app. split; [apply T|].
      rewrite (turn_replay _ _ _ _ T). apply S.
    + rewrite replay_app, (turn_replay _ _ _ _ T). apply S.
    + intros j Hj. simpl in Hj. apply not_elem_of_cons in Hj as [Hne Hj].
      destruct (sweep_others _ _ _ _ S j Hj) as [H1 H2].
      destruct (turn_others _ _ _ _ T j Hne) as [H3 H4].
      split; [by rewrite H1|]. by rewrite calls_about_app, H2, H4.
    + intros j Hj. destruct (decide (j ∈ rest.*1)) as [Hin|Hnin].
      * by apply (sweep_terminal _ _ _ _ S).
      * simpl in Hj. apply elem_of_cons in Hj as [->|Hj]; [|done].
        rewrite (proj1 (sweep_others _ _ _ _ S k Hnin)). apply T.
    + by rewrite (sweep_users _ _ _ _ S), (turn_users _ _ _ _ T).
    + by rewrite (sweep_items _ _ _ _ S), (turn_items _ _ _ _ T).
    + apply Forall_app. split; [apply T|apply S].
Qed.

(** The rows of a table are its entries, each once, by ascending key. *)
Lemma elem_of_rows {A} (m : gmap Z A) k x : (k, x) ∈ rows m <-> m !! k = Some x.
Proof.
  unfold rows. rewrite (merge_sort_Permutation key_le (map_to_list m)).
  apply elem_of_map_to_list.
Qed.

Lemma NoDup_rows {A} (m : gmap Z A) : NoDup ((rows m).*1).
Proof.
  unfold rows. rewrite (merge_sort_Permutation key_le (map_to_list m)).
  apply NoDup_fst_map_to_list.
Qed.

Lemma rows_ascending {A} (m : gmap Z A) :
  StronglySorted (fun a b => a.1 <= b.1) (rows m).
Proof.
  assert (Transitive (@key_le A)) by (intros a b c; unfold key_le; lia).
  assert (Total (@key_le A)) by (intros a b; unfold key_le; lia).
  unfold rows. apply (StronglySorted_merge_sort key_le).
Qed.

Lemma elem_of_pending_purchases (st : Store) k p :
  (k, p) ∈ pending_purchases st
  <-> purchases st !! k = Some p /\ status p = "pending".
Proof.
  unfold pending_purchases.
  rewrite list_elem_of_In, List.filter_In, <- list_elem_of_In, elem_of_rows.
  simpl. by rewrite String.eqb_eq.
Qed.

Lemma pending_keys (st : Store) k :
  k ∈ (pending_purchases st).*1
  <-> exists p, purchases st !! k = Some p /\ status p = "pending".
Proof.
  rewrite list_elem_of_fmap. split.
  - intros ([k' p] & -> & Hin). exists p. by apply elem_of_pending_purchases.
  - intros (p & Hp). exists (k, p). split; [done|]. by apply elem_of_pending_purchases.
Qed.

Lemma pending_purchases_nil (st : Store) :
  (forall k p, purchases st !! k = Some p -> status p <> "pending") ->
  pending_purchases st = [].
Proof.
  intros H. destruct (pending_purchases st) as [|[k p] l] eqn:E; [done|].
  assert ((k, p) ∈ pending_purchases st) as Hin by (rewrite E; left).
  apply elem_of_pending_purchases in Hin as [Hk Hp]. by destruct (H k p Hk).
Qed.

Lemma process_pending_purchases_spec (s : Sys W) :
  app env = true ->
  exists new,
    sweep_ok (pending_purchases (db s)) s (Slash.process_pending_purchases env s) new.
Proof.
  intros Happ. unfold Slash.process_pending_purchases. rewrite Happ. simpl.
  apply sweep_spec. intros k Hk. apply pending_keys in Hk as (p & -> & _). by eexists.
Qed.

(** C4, as the code has it. In a sweep of the slash worker every call to a
    collaborator is made for a purchase that the committed store already
    shows as [processing]: the claim is committed first. The sweep selects
    only purchases that are [pending] when it starts: a purchase that is
    then in another state keeps its row and gets no call, and when the sweep
    is over no purchase is [pending] any more, so a sweep that starts after
    it selects none of them again. The claim itself is written without a
    look at the current status. *)
Theorem claim_committed_before_calls (s : Sys W) :
  let s' := Slash.process_pending_purchases env s in
  exists new,
    trace s' = trace s ++ new
    /\ claimed_before_calls (purchases (db s)) new
    /\ (forall k row, purchases (db s) !! k = Some row -> status row <> "pending" ->
          purchases (db s') !! k = Some row /\ calls_about k new = [])
    /\ (app env = true -> pending_purchases (db s') = [])
    /\ (forall k (t : Sys W),
          committed_status (purchases (db (Slash.claim_purchase k t))) k
          = (fun _ => "processing") <$> committed_status (purchases (db t)) k).
Proof.
  intros s'. subst s'.
  destruct (app env) eqn:Happ.
  - destruct (process_pending_purchases_spec s Happ) as [new S].
    exists new. split; [apply S|]. split; [apply S|]. split; [|split].
    + intros k row Hk Hst.
      destruct (sweep_others _ _ _ _ S k) as [H1 H2].
      { rewrite pending_keys. intros (p & Hp & Hpend). congruence. }
      split; [congruence|done].
    + intros _. apply pending_purchases_nil. intros k p Hk Hpend.
      destruct (decide (k ∈ (pending_purchases (db s)).*1)) as [Hin|Hnin].
      * destruct (sweep_terminal _ _ _ _ S k Hin) as (row' & Hrow' & Hterm).
        assert (p = row') as -> by congruence.
        destruct Hterm as [Ht|Ht]; rewrite Ht in Hpend; discriminate.
      * destruct (sweep_others _ _ _ _ S k Hnin) as [H1 _].
        apply Hnin, pending_keys. exists p. split; [congruence|done].
    + intros k t. unfold committed_status, Slash.claim_purchase, commit_purchase.
      simpl. rewrite lookup_alter_eq. by destruct (purchases (db t) !! k).
  - unfold Slash.process_pending_purchases. rewrite Happ. simpl.
    exists []. split; [by rewrite app_nil_r|]. split; [done|]. split; [done|].
    split; [done|].
    intros k t. unfold committed_status, Slash.claim_purchase, commit_purchase.
    simpl. rewrite lookup_alter_eq. by destruct (purchases (db t) !! k).
Qed.

Lemma NoDup_filter_fst {A} (f : Z * A -> bool) (l : list (Z * A)) :
  NoDup (l.*1) -> NoDup ((List.filter f l).*1).
Proof.
  induction l as [|[k a] l IH]; simpl; [done|].
  rewrite NoDup_cons. intros [Hk Hnd]. destruct (f (k, a)); simpl; [|by apply IH].
  apply NoDup_cons. split; [|by apply IH].
  intros Hin. apply Hk. apply list_elem_of_fmap in Hin as ([k' a'] & -> & Hin).
  apply list_elem_of_fmap. exists (k', a'). split; [done|].
  apply list_elem_of_In. apply list_elem_of_In in Hin.
  by apply List.filter_In in Hin as [Hin _].
Qed.

Lemma NoDup_pending_purchases (st : Store) : NoDup ((pending_purchases st).*1).
Proof. apply NoDup_filter_fst, NoDup_rows. Qed.

(** A purchase whose item or buyer is gone. *)
Lemma sweep_missing (l : list (Z * Purchase)) (s : Sys W) k p :
  NoDup (l.*1) ->
  (forall k' p', (k', p') ∈ l -> purchases (db s) !! k' = Some p') ->
  (k, p) ∈ l ->
  items (db s) !! p_item_id p = None \/ users (db s) !! p_user_id p = None ->
  committed_status (purchases (db (Slash.sweep env l s))) k = Some "failed"
  /\ calls_about k (trace (Slash.sweep env l s)) = calls_about k (trace s).
Proof.
  revert s. induction l as [|[k0 p0] rest IH]; intros s Hnd Hrows Hin Hmiss.
  - by apply elem_of_nil in Hin.
  - simpl in *. apply NoDup_cons in Hnd as [Hk0 Hnd].
    destruct (process_purchase_turn k0 p0 s) as [new1 T].
    { rewrite (Hrows k0 p0) by left. by eexists. }
    set (s1 := Slash.process_purchase env (k0, p0) s) in *.
    assert (forall k' p', (k', p') ∈ rest -> purchases (db s1) !! k' = Some p') as Hrows1.
    { intros k' p' Hin'. assert (k' <> k0) as Hne.
      { intros ->. apply Hk0. apply list_elem_of_fmap. by exists (k0, p'). }
      rewrite (proj1 (turn_others _ _ _ _ T k' Hne)). apply Hrows. by right. }
    apply elem_of_cons in Hin as [Heq|Hin].
    + injection Heq as -> ->.
      destruct (sweep_spec rest s1) as [new2 S].
      { intros j Hj. apply list_elem_of_fmap in Hj as ([j' q] & -> & Hj).
        simpl. rewrite (Hrows1 j' q Hj). by eexists. }
      destruct (sweep_others _ _ _ _ S k0 Hk0) as [H1 H2].
      destruct (process_purchase_missing k0 p0 s Hmiss)
        as (ps1 & ps2 & Heq & _ & Hk & _).
      split.
      * unfold committed_status. rewrite H1. subst s1. rewrite Heq. simpl.
        rewrite Hk, (Hrows k0 p0) by left. done.
      * rewrite (sweep_trace _ _ _ _ S), calls_about_app, H2, app_nil_r.
        subst s1. rewrite Heq. simpl. rewrite calls_about_app. simpl.
        by rewrite app_nil_r.
    + destruct (IH s1 Hnd Hrows1 Hin) as [H1 H2].
      { by rewrite (turn_items _ _ _ _ T), (turn_users _ _ _ _ T). }
      split; [done|]. rewrite H2.
      assert (k <> k0) as Hne.
      { intros ->. apply Hk0. apply list_elem_of_fmap. by exists (k0, p). }
      rewrite (turn_trace _ _ _ _ T), calls_about_app.
      rewrite (proj2 (turn_others _ _ _ _ T k Hne)). by rewrite app_nil_r.
Qed.

(** X23. The slash worker on a dangling purchase: it ends [failed], nothing
    is called for it, and no later sweep selects it. *)
Lemma slash_missing_reference_fails (s : Sys W) k p :
  app env = true ->
  purchases (db s) !! k = Some p ->
  status p = "pending" ->
  items (db s) !! p_item_id p = None \/ users (db s) !! p_user_id p = None ->
  let s' := Slash.process_pending_purchases env s in
  committed_status (purchases (db s')) k = Some "failed"
  /\ calls_about k (trace s') = calls_about k (trace s)
  /\ k ∉ (pending_purchases (db s')).*1.
Proof.
  intros Happ Hk Hpend Hmiss s'.
  assert (committed_status (purchases (db s')) k = Some "failed"
          /\ calls_about k (trace s') = calls_about k (trace s)) as [H1 H2].
  { subst s'. unfold Slash.process_pending_purchases. rewrite Happ. simpl.
    apply (sweep_missing _ s k p).
    - apply NoDup_pending_purchases.
    - intros k' p' Hin. by apply elem_of_pending_purchases in Hin as [? _].
    - by apply elem_of_pending_purchases.
    - done. }
  split; [done|]. split; [done|].
  rewrite pending_keys. intros (q & Hq & Hqp).
  unfold committed_status in H1. rewrite Hq in H1. simpl in H1. congruence.
Qed.

Lemma filter_silent (l : list Event) :
  Forall (fun e => is_notify e = false) l -> List.filter is_notify l = [].
Proof.
  induction 1 as [|e l He _ IH]; [done|]. simpl. by rewrite He.
Qed.

(** C7, the slash worker's part: no sweep ever sends a notification. *)
Lemma slash_never_notifies (s : Sys W) :
  List.filter is_notify (trace (Slash.process_pending_purchases env s))
  = List.filter is_notify (trace s).
Proof.
  destruct (app env) eqn:Happ.
  - destruct (process_pending_purchases_spec s Happ) as [new S].
    rewrite (sweep_trace _ _ _ _ S), List.filter_app.
    rewrite (filter_silent new (sweep_silent _ _ _ _ S)). by rewrite app_nil_r.
  - unfold Slash.process_pending_purchases. by rewrite Happ.
Qed.

End SlashWorker.


(** * The fulfilment worker of the older bot *)

Section LegacyWorker.
Context {W : Type} (env : Env W).
Context (format : string -> string -> outcome string).

(** A purchase whose buyer or item is gone is skipped: nothing is written
    for it and nothing is called. *)
Lemma legacy_skips_missing k p (s : Sys W) :
  items (db s) !! p_item_id p = None \/ users (db s) !! p_user_id p = None ->
  Legacy.process_purchase env format (k, p) s = (None, s).
Proof.
  intros Hmiss. unfold Legacy.process_purchase.
  destruct (users (db s) !! p_user_id p) as [user|] eqn:Hu; [|done].
  destruct (items (db s) !! p_item_id p) as [item|] eqn:Hi; [|done].
  destruct Hmiss; congruence.
Qed.

Lemma legacy_process_db kp (s : Sys W) :
  db (Legacy.process_purchase env format kp s).2 = db s.
Proof.
  destruct kp as [k p]. unfold Legacy.process_purchase.
  destruct (users (db s) !! p_user_id p) as [user|]; [|done].
  destruct (items (db s) !! p_item_id p) as [item|]; [|done].
  destruct (Legacy.format_command format item user) as [c|e]; [|done].
  destruct (MinecraftIntegration.execute_command env (world s) c None None None)
    as [[[]|e] w]; try done.
  unfold Legacy.notify. simpl.
  destruct (get_user env w (discord_id user)) as [[]|e]; simpl; try done.
  by destruct (send_dm env w (discord_id user)) as [[[]|e] w'].
Qed.

Lemma legacy_sweep_db l session (s : Sys W) :
  db (Legacy.sweep env format l session s).2 = db s.
Proof.
  revert session s. induction l as [|kp rest IH]; intros session s; [done|].
  simpl. pose proof (legacy_process_db kp s) as Hdb.
  destruct (Legacy.process_purchase env format kp s) as [[f|] s']; simpl in *;
    by rewrite IH.
Qed.

Lemma legacy_sweep_cons kp rest session (s : Sys W) :
  Legacy.sweep env format (kp :: rest) session s =
    match (Legacy.process_purchase env format kp s).1 with
    | Some f => Legacy.sweep env format rest (session ++ [(kp.1, f)])
                  (Legacy.process_purchase env format kp s).2
    | None => Legacy.sweep env format rest session
                (Legacy.process_purchase env format kp s).2
    end.
Proof.
  simpl. by destruct (Legacy.process_purchase env format kp s) as [[f|] s'].
Qed.

Lemma legacy_written_found k p (s : Sys W) f s' :
  Legacy.process_purchase env format (k, p) s = (Some f, s') ->
  is_Some (items (db s) !! p_item_id p) /\ is_Some (users (db s) !! p_user_id p).
Proof.
  intros H.
  destruct (items (db s) !! p_item_id p) as [item|] eqn:Hi.
  - destruct (users (db s) !! p_user_id p) as [user|] eqn:Hu; [by split; eexists|].
    rewrite legacy_skips_missing in H by (by right). discriminate.
  - rewrite legacy_skips_missing in H by (by left). discriminate.
Qed.

(** Every key the sweep leaves in its session belongs to a purchase whose
    buyer and item were found. *)
Lemma legacy_sweep_session l session (s : Sys W) k :
  k ∈ ((Legacy.sweep env format l session s).1).*1 ->
  k ∈ (session.*1)
  \/ exists p, (k, p) ∈ l
       /\ is_Some (items (db s) !! p_item_id p)
       /\ is_Some (users (db s) !! p_user_id p).
Proof.
  revert session s. induction l as [|[k0 p0] rest IH]; intros session s; [by left|].
  rewrite legacy_sweep_cons.
  pose proof (legacy_process_db (k0, p0) s) as Hdb.
  destruct (Legacy.process_purchase env format (k0, p0) s) as [[f|] s'] eqn:Hp;
    cbn [fst snd] in *; intros Hin; apply IH in Hin; rewrite Hdb in Hin.
  - destruct Hin as [Hin|(p & Hin & H)].
    + rewrite fmap_app in Hin. apply elem_of_app in Hin as [Hin|Hin]; [by left|].
      simpl in Hin. apply list_elem_of_singleton in Hin as ->.
      right. exists p0. split; [left|]. by eapply legacy_written_found.
    + right. exists p. split; [by right|done].
  - destruct Hin as [Hin|(p & Hin & H)]; [by left|].
    right. exists p. split; [by right|done].
Qed.

Lemma flush_other (session : Legacy.Session) (ps : gmap Z Purchase) k :
  k ∉ (session.*1) -> Legacy.flush session ps !! k = ps !! k.
Proof.
  revert ps. induction session as [|[k0 f] rest IH]; intros ps Hk; [done|].
  simpl in *. apply not_elem_of_cons in Hk as [Hne Hk].
  unfold Legacy.flush in *. simpl. rewrite IH by done.
  by rewrite lookup_alter_ne.
Qed.

(** The older worker on a dangling purchase: the row is left exactly as it
    was, [pending], and the next sweep selects it again. *)
Lemma legacy_leaves_dangling_pending (s : Sys W) k p :
  purchases (db s) !! k = Some p ->
  status p = "pending" ->
  items (db s) !! p_item_id p = None \/ users (db s) !! p_user_id p = None ->
  let s' := Legacy.process_pending_purchases env format s in
  purchases (db s') !! k = Some p
  /\ (k, p) ∈ pending_purchases (db s').
Proof.
  intros Hk Hpend Hmiss s'.
  assert (purchases (db s') !! k = Some p) as Hk'.
  { subst s'. unfold Legacy.process_pending_purchases, Legacy.app_context.
    destruct (current_app env); [|done].
    pose proof (legacy_sweep_db (pending_purchases (db s)) [] s) as Hdb.
    pose proof (legacy_sweep_session (pending_purchases (db s)) [] s k) as Hsess.
    destruct (Legacy.sweep env format (pending_purchases (db s)) [] s)
      as [session s1]. simpl in *.
    rewrite flush_other; [by rewrite Hdb|].
    intros Hin. destruct (Hsess Hin) as [Hnil|(q & Hq & Hi & Hu)].
    - by apply elem_of_nil in Hnil.
    - apply elem_of_pending_purchases in Hq as [Hq _].
      assert (q = p) as -> by congruence.
      destruct Hmiss as [Hm|Hm]; rewrite Hm in *; by eapply is_Some_None. }
  split; [done|]. by apply elem_of_pending_purchases.
Qed.

(** When the command was not sent or did not succeed, the older worker
    marks the purchase [failed] and attempts no notification. *)
Lemma legacy_failure_is_silent k p (s : Sys W) item user :
  items (db s) !! p_item_id p = Some item ->
  users (db s) !! p_user_id p = Some user ->
  legacy_command_succeeded env format (world s) user item = false ->
  let r := Legacy.process_purchase env format (k, p) s in
  r.1 = Some (set_status "failed")
  /\ List.filter is_notify (trace r.2) = List.filter is_notify (trace s).
Proof.
  intros Hi Hu Hfail. unfold Legacy.process_purchase, legacy_command_succeeded in *.
  rewrite Hi, Hu.
  destruct (Legacy.format_command format item user) as [c|e]; [|done].
  destruct (MinecraftIntegration.execute_command env (world s) c None None None)
    as [[[]|e] w]; simpl in *; try done;
    (split; [done|]); unfold log; simpl; rewrite List.filter_app; simpl;
    by rewrite app_nil_r.
Qed.

(** When the command succeeded and the buyer is not in the client's cache,
    the purchase is [fulfilled] and no notification is attempted; when the
    buyer is cached and the message goes out, the purchase is [fulfilled] and
    exactly one notification was attempted. *)
Lemma legacy_success_notifies k p (s : Sys W) item user c :
  items (db s) !! p_item_id p = Some item ->
  users (db s) !! p_user_id p = Some user ->
  Legacy.format_command format item user = Returned c ->
  legacy_command_succeeded env format (world s) user item = true ->
  let w := legacy_after_command env format (world s) user item in
  let r := Legacy.process_purchase env format (k, p) s in
  let fulfilled := set_minecraft_command (Some c)
                   ∘ set_fulfilled_at (Some (utcnow env w))
                   ∘ set_status "fulfilled" in
  (get_user env w (discord_id user) = Returned false ->
     r.1 = Some fulfilled
     /\ List.filter is_notify (trace r.2) = List.filter is_notify (trace s))
  /\ (get_user env w (discord_id user) = Returned true ->
      Py.raises (send_dm env w (discord_id user)).1 = false ->
      r.1 = Some fulfilled
      /\ List.filter is_notify (trace r.2)
         = List.filter is_notify (trace s) ++ [EvNotify k (discord_id user)]).
Proof.
  intros Hi Hu Hc Hok.
  unfold Legacy.process_purchase, legacy_command_succeeded, legacy_after_command in *.
  rewrite Hi, Hu, Hc in *.
  destruct (MinecraftIntegration.execute_command env (world s) c None None None)
    as [[[]|e] w]; simpl in *; try done.
  unfold Legacy.notify. simpl. split.
  - intros ->. simpl. split; [done|].
    unfold log; simpl. rewrite List.filter_app. simpl. by rewrite app_nil_r.
  - intros -> Hsend. destruct (send_dm env w (discord_id user)) as [[[]|e] w'];
      simpl in *; [|done].
    split; [done|]. unfold log; simpl. rewrite !List.filter_app. simpl.
    by rewrite app_nil_r.
Qed.

(** When the command succeeded and the notification step raises, because
    the client cannot be asked for the buyer or because the message is
    refused, the [except] branch marks the delivered purchase [failed]; a
    message that was refused was attempted. *)
Lemma legacy_failed_notification k p (s : Sys W) item user c :
  items (db s) !! p_item_id p = Some item ->
  users (db s) !! p_user_id p = Some user ->
  Legacy.format_command format item user = Returned c ->
  legacy_command_succeeded env format (world s) user item = true ->
  let w := legacy_after_command env format (world s) user item in
  let r := Legacy.process_purchase env format (k, p) s in
  (Py.raises (get_user env w (discord_id user)) = true ->
     (exists f, r.1 = Some f /\ forall row, status (f row) = "failed")
     /\ List.filter is_notify (trace r.2) = List.filter is_notify (trace s))
  /\ (get_user env w (discord_id user) = Returned true ->
      Py.raises (send_dm env w (discord_id user)).1 = true ->
      (exists f, r.1 = Some f /\ forall row, status (f row) = "failed")
      /\ List.filter is_notify (trace r.2)
         = List.filter is_notify (trace s) ++ [EvNotify k (discord_id user)]).
Proof.
  intros Hi Hu Hc Hok.
  unfold Legacy.process_purchase, legacy_command_succeeded, legacy_after_command in *.
  rewrite Hi, Hu, Hc in *.
  destruct (MinecraftIntegration.execute_command env (world s) c None None None)
    as [[[]|e] w]; simpl in *; try done.
  unfold Legacy.notify. simpl. split.
  - intros Hg. destruct (get_user env w (discord_id user)) as [b|e]; [done|]. simpl.
    split; [by eexists|].
    unfold log; simpl. rewrite List.filter_app. simpl. by rewrite app_nil_r.
  - intros -> Hsend. destruct (send_dm env w (discord_id user)) as [[[]|e] w'];
      simpl in *; [done|].
    split; [by eexists|]. unfold log; simpl. rewrite !List.filter_app. simpl.
    by rewrite app_nil_r.
Qed.

End LegacyWorker.

(** * The ledger *)

Section LedgerFacts.

Lemma next_key_above {A} (m : gmap Z A) :
  1 <= next_key m /\ forall k, is_Some (m !! k) -> k < next_key m.
Proof.
  unfold next_key.
  apply (map_fold_weak_ind
           (fun acc (m : gmap Z A) => 1 <= acc /\ forall k, is_Some (m !! k) -> k < acc)).
  - split; [lia|]. intros k [x Hx]. by rewrite lookup_empty in Hx.
  - intros i x m' r Hi [Hr IH]. split; [lia|].
    intros k Hk. destruct (decide (k = i)) as [->|Hne]; [lia|].
    rewrite lookup_insert_ne in Hk by done. specialize (IH k Hk). lia.
Qed.

Lemma next_key_fresh {A} (m : gmap Z A) : m !! next_key m = None.
Proof.
  destruct (m !! next_key m) as [x|] eqn:E; [|done].
  destruct (next_key_above m) as [_ H]. specialize (H (next_key m)).
  rewrite E in H. specialize (H (ltac:(by eexists))). lia.
Qed.

Lemma user_by_discord_id_Some (s : Store) d k u :
  user_by_discord_id s d = Some (k, u) ->
  users s !! k = Some u /\ discord_id u = d.
Proof.
  unfold user_by_discord_id. intros H. apply List.find_some in H as [Hin Heq].
  apply list_elem_of_In, elem_of_rows in Hin. simpl in Heq.
  by apply String.eqb_eq in Heq.
Qed.

Lemma ledger_of_app uid (l1 l2 : list Transaction) :
  ledger_of uid (l1 ++ l2) = ledger_of uid l1 ++ ledger_of uid l2.
Proof. apply List.filter_app. Qed.

Lemma sum_amounts_app (l1 l2 : list Transaction) :
  sum_amounts (l1 ++ l2) = sum_amounts l1 + sum_amounts l2.
Proof. induction l1 as [|t l1 IH]; simpl; [done|]. rewrite IH. lia. Qed.

Lemma accounted_consistent (s s' : Store) new :
  accounted s s' new -> ledger_consistent s -> ledger_consistent s'.
Proof.
  intros [Hlog Hbal] Hs uid. unfold ledger_sum. rewrite Hlog, ledger_of_app, sum_amounts_app.
  fold (ledger_sum s uid). rewrite <- Hs.
  destruct (Hbal uid) as [[-> ->]|(t & -> & Ht)]; simpl; lia.
Qed.

Lemma accounted_refl (s : Store) : accounted s s [].
Proof. split; [by rewrite app_nil_r|]. intros uid. by left. Qed.

Lemma accounted_after_nil (s s1 s2 : Store) new :
  accounted s s1 [] -> accounted s1 s2 new -> accounted s s2 new.
Proof.
  intros [Hl1 Hb1] [Hl2 Hb2]. rewrite app_nil_r in Hl1. split; [by rewrite Hl2, Hl1|].
  intros uid. destruct (Hb1 uid) as [[_ Hsame]|(t & Ht & _)]; [|done].
  rewrite <- Hsame. apply Hb2.
Qed.

Lemma balance_of_insert (s s' : Store) k u uid :
  users s' = <[k := u]> (users s) ->
  balance_of s' uid = if decide (uid = k) then coins u else balance_of s uid.
Proof.
  intros Hu. unfold balance_of. rewrite Hu.
  destruct (decide (uid = k)) as [->|Hne].
  - by rewrite lookup_insert_eq.
  - by rewrite lookup_insert_ne.
Qed.

Lemma ledger_of_single uid (t : Transaction) :
  ledger_of uid [t] = if decide (t_user_id t = uid) then [t] else [].
Proof.
  unfold ledger_of. simpl. destruct (decide (t_user_id t = uid)) as [->|Hne].
  - by rewrite Z.eqb_refl.
  - apply Z.eqb_neq in Hne. by rewrite Hne.
Qed.

(** One posting: one user row rewritten, one entry appended. *)
Lemma accounted_single (s s' : Store) k u u' t :
  users s !! k = Some u ->
  users s' = <[k := u']> (users s) ->
  transactions s' = transactions s ++ [t] ->
  t_user_id t = k ->
  amount t = coins u' - coins u ->
  accounted s s' [t].
Proof.
  intros Hk Hu Hlog Ht Hamt. split; [done|]. intros uid.
  rewrite ledger_of_single, (balance_of_insert s s' k u' uid Hu), Ht.
  destruct (decide (uid = k)) as [->|Hne].
  - rewrite decide_True by done. right. exists t. split; [done|].
    unfold balance_of. rewrite Hk. done.
  - rewrite decide_False by done. by left.
Qed.

(** A transfer: two different user rows rewritten, one entry appended for
    each. *)
Lemma accounted_pair (s s' : Store) k1 u1 u1' k2 u2 u2' t1 t2 :
  k1 <> k2 ->
  users s !! k1 = Some u1 ->
  users s !! k2 = Some u2 ->
  users s' = <[k2 := u2']> (<[k1 := u1']> (users s)) ->
  transactions s' = transactions s ++ [t1; t2] ->
  t_user_id t1 = k1 -> amount t1 = coins u1' - coins u1 ->
  t_user_id t2 = k2 -> amount t2 = coins u2' - coins u2 ->
  accounted s s' [t1; t2].
Proof.
  intros Hne H1 H2 Hu Hlog Ht1 Ha1 Ht2 Ha2. split; [done|]. intros uid.
  change [t1; t2] with ([t1] ++ [t2]).
  rewrite ledger_of_app, !ledger_of_single, Ht1, Ht2.
  unfold balance_of. rewrite Hu.
  destruct (decide (uid = k1)) as [->|Hn1]; [|destruct (decide (uid = k2)) as [->|Hn2]].
  - rewrite decide_True by done. rewrite decide_False by done.
    rewrite lookup_insert_ne by done. rewrite lookup_insert_eq, H1.
    right. exists t1. by split.
  - rewrite decide_False by done. rewrite decide_True by done.
    rewrite lookup_insert_eq, H2. right. exists t2. by split.
  - rewrite !decide_False by done. rewrite !lookup_insert_ne by done. by left.
Qed.

Lemma write_user_inv k u (s s' : Store) :
  write_user k u s = Returned s' ->
  0 <= coins u /\ s' = set_users s (<[k := u]> (users s)).
Proof.
  unfold write_user, check_coins_non_negative.
  destruct (negb (fits_integer (coins u))); [done|].
  destruct (0 <=? coins u) eqn:E; [|done]. intros [= <-].
  split; [by apply Z.leb_le|done].
Qed.

Lemma fits_integer_spec (z : Z) :
  fits_integer z = true <-> integer_min <= z <= integer_max.
Proof. unfold fits_integer. rewrite andb_true_iff, !Z.leb_le. tauto. Qed.

(** A balance that is not negative and fits the column is written. *)
Lemma write_user_ok k u (s : Store) :
  0 <= coins u <= integer_max ->
  write_user k u s = Returned (set_users s (<[k := u]> (users s))).
Proof.
  intros [H1 H2]. unfold write_user, check_coins_non_negative.
  assert (fits_integer (coins u) = true) as ->.
  { apply fits_integer_spec. unfold integer_min. lia. }
  simpl. by apply Z.leb_le in H1 as ->.
Qed.

(** A number outside the column is refused, whatever the row. *)
Lemma write_user_overflow k u (s : Store) :
  integer_max < coins u -> write_user k u s = Raised OverflowError.
Proof.
  intros H. unfold write_user.
  assert (fits_integer (coins u) = false) as ->; [|done].
  apply not_true_iff_false. rewrite fits_integer_spec. lia.
Qed.

Lemma insert_transaction_overflow t (s : Store) :
  integer_max < amount t \/ amount t < integer_min ->
  insert_transaction t s = Raised OverflowError.
Proof.
  intros H. unfold insert_transaction.
  assert (fits_integer (amount t) = false) as ->; [|done].
  apply not_true_iff_false. rewrite fits_integer_spec. lia.
Qed.

Lemma insert_user_inv u (s : Store) k s' :
  insert_user u s = Returned (k, s') ->
  0 <= coins u /\ users s !! k = None /\ s' = set_users s (<[k := u]> (users s)).
Proof.
  unfold insert_user. destruct (write_user _ u s) as [s1|e] eqn:E; [|done].
  simpl. intros [= <- <-]. apply write_user_inv in E as [H1 H2].
  split; [done|]. split; [apply next_key_fresh|done].
Qed.

Lemma insert_transaction_inv t (s s' : Store) :
  insert_transaction t s = Returned s' ->
  s' = set_transactions s (transactions s ++ [t]).
Proof.
  unfold insert_transaction. destruct (negb (fits_integer (amount t))); [done|].
  destruct (check_transaction t); [|done]. by intros [= <-].
Qed.

Lemma insert_transaction_ok t (s : Store) :
  integer_min <= amount t <= integer_max ->
  check_transaction t = true ->
  insert_transaction t s = Returned (set_transactions s (transactions s ++ [t])).
Proof.
  intros H Hc. unfold insert_transaction.
  apply fits_integer_spec in H. by rewrite H, Hc.
Qed.

Lemma insert_purchase_inv p (s : Store) k s' :
  insert_purchase p s = Returned (k, s') ->
  purchases s !! k = None /\ s' = set_purchases s (<[k := p]> (purchases s)).
Proof.
  unfold insert_purchase, write_purchase.
  destruct (negb (fits_integer (quantity p) && fits_integer (total_cost p))); [done|].
  destruct (check_purchase p); [|done].
  simpl. intros [= <- <-]. split; [apply next_key_fresh|done].
Qed.

Lemma insert_gift_inv g (s : Store) k s' :
  insert_gift g s = Returned (k, s') ->
  gifts s !! k = None /\ s' = set_gifts s (<[k := g]> (gifts s)).
Proof.
  unfold insert_gift. destruct (negb (fits_integer (g_amount g))); [done|].
  destruct (check_gift g); [|done].
  intros [= <- <-]. split; [apply next_key_fresh|done].
Qed.

(** A user row added with no coins changes no balance. *)
Lemma accounted_new_user d n (s : Store) k s' :
  insert_user (new_User d n) s = Returned (k, s') ->
  accounted s s' [] /\ users s' !! k = Some (new_User d n)
  /\ purchases s' = purchases s /\ items s' = items s.
Proof.
  intros H. apply insert_user_inv in H as (_ & Hfresh & ->). simpl.
  split; [|by rewrite lookup_insert_eq].
  split; [by rewrite app_nil_r|]. intros uid. left. split; [done|].
  rewrite (balance_of_insert s _ k (new_User d n) uid) by done.
  destruct (decide (uid = k)) as [->|]; [|done].
  unfold balance_of. by rewrite Hfresh.
Qed.

End LedgerFacts.

(** ** The slash commands and the administrative adjustment, case by case *)

(** Unfold the sequencing of a unit of work. *)
Ltac unfold_bind := unfold mbind, outcome_bind, Py.bind in *.

Section Operations.
Context {W : Type} (env : Env W).

(** [buy_command] either leaves the store as it is and does not report a
    purchase, or commits the debit, the purchase and the entry together. *)
Lemma buy_command_cases now buyer item_id quantity (s : Store) :
  let r := Slash.buy_command env now buyer item_id quantity s in
  (r.2 = s /\ forall rem pid, r.1 <> Slash.PurchaseSuccessful rem pid)
  \/ (exists uid user item pid,
        let cost := price item * quantity in
        user_by_discord_id s buyer = Some (uid, user)
        /\ items s !! item_id = Some item
        /\ 0 < quantity /\ 0 <= coins user - cost
        /\ r.1 = Slash.PurchaseSuccessful (coins user - cost) pid
        /\ purchases s !! pid = None
        /\ users r.2 = <[uid := set_coins (coins user - cost) user]> (users s)
        /\ purchases r.2
           = <[pid := new_Purchase uid item_id quantity cost "pending"]> (purchases s)
        /\ transactions r.2
           = transactions s
             ++ [new_Transaction now uid "purchase" (- cost)
                   ("Purchased " +:+ pretty quantity +:+ "x " +:+ name item)
                   (Some "purchase_None")]).
Proof.
  unfold Slash.buy_command.
  destruct (negb (app env)); [by left|].
  destruct (quantity <=? 0) eqn:Hq; [by left|]. apply Z.leb_gt in Hq.
  destruct (user_by_discord_id s buyer) as [[uid user]|] eqn:Hu; [|by left].
  destruct (items s !! item_id) as [item|] eqn:Hi; [|by left].
  destruct (negb (is_available item)); [by left|].
  destruct (coins user <? price item * quantity) eqn:Hc; [by left|].
  unfold_bind.
  destruct (write_user uid _ s) as [s1|e] eqn:H1; [|by left].
  destruct (insert_purchase _ s1) as [[pid s2]|e] eqn:H2; [|by left].
  destruct (insert_transaction _ s2) as [s3|e] eqn:H3; [|by left].
  right. exists uid, user, item, pid.
  apply write_user_inv in H1 as [Hnn ->].
  apply insert_purchase_inv in H2 as [Hfresh ->].
  apply insert_transaction_inv in H3 as ->.
  simpl in *. repeat split; try done.
Qed.

Lemma checked_rows_refl (s : Store) : checked_rows s s.
Proof. intros k u H. by left. Qed.

Lemma checked_rows_trans (s1 s2 s3 : Store) :
  checked_rows s1 s2 -> checked_rows s2 s3 -> checked_rows s1 s3.
Proof.
  intros H12 H23 k u H. destruct (H23 k u H) as [H'|]; [|by right]. by apply H12.
Qed.

Lemma checked_rows_insert (s s' : Store) k u :
  0 <= coins u -> users s' = <[k := u]> (users s) -> checked_rows s s'.
Proof.
  intros Hnn Hu j v Hj. rewrite Hu in Hj.
  destruct (decide (j = k)) as [->|Hne].
  - rewrite lookup_insert_eq in Hj. injection Hj as <-. by right.
  - rewrite lookup_insert_ne in Hj by done. by left.
Qed.

Lemma checked_rows_non_negative (s s' : Store) :
  checked_rows s s' -> non_negative s -> non_negative s'.
Proof.
  intros Hc Hs k u Hk. destruct (Hc k u Hk) as [H|H]; [by eapply Hs|done].
Qed.

Lemma buy_command_accounted now buyer item_id quantity (s : Store) :
  let s' := (Slash.buy_command env now buyer item_id quantity s).2 in
  (exists new, accounted s s' new) /\ checked_rows s s'.
Proof.
  destruct (buy_command_cases now buyer item_id quantity s)
    as [[-> _]|(uid & user & item & pid & Hu & Hi & Hq & Hnn & _ & _ & Hus & _ & Hlog)];
    cbv zeta.
  - split; [exists []; apply accounted_refl|apply checked_rows_refl].
  - apply user_by_discord_id_Some in Hu as [Hu _]. split.
    + eexists. eapply accounted_single; [exact Hu|exact Hus|exact Hlog|done|]. simpl. lia.
    + eapply checked_rows_insert; [|exact Hus]. done.
Qed.

(** [gift_command] either leaves the store as it is and does not report a
    gift, or commits both balance changes, the gift and both entries
    together. *)
Lemma gift_command_cases now giver giver_name recipient recipient_name bot amt msg
    (s : Store) :
  let r := Slash.gift_command env now giver giver_name recipient recipient_name
             bot amt msg s in
  (r.2 = s /\ forall rem gid, r.1 <> Slash.GiftSent rem gid)
  \/ (exists sid sender rid gid t1 t2 rem,
        user_by_discord_id s giver = Some (sid, sender)
        /\ 0 < amt /\ amt <= coins sender /\ sid <> rid
        /\ r.1 = Slash.GiftSent rem gid
        /\ gifts s !! gid = None
        /\ gifts r.2 = <[gid := mkGift sid rid amt msg "completed" (Some now)]> (gifts s)
        /\ accounted s r.2 [t1; t2]
        /\ checked_rows s r.2
        /\ t_user_id t1 = sid /\ amount t1 = - amt
        /\ t_user_id t2 = rid /\ amount t2 = amt
        /\ reference_id t1 = Some "gift_None"
        /\ reference_id t2 = Some "gift_None"
        /\ purchases r.2 = purchases s).
Proof.
  unfold Slash.gift_command.
  destruct (negb (app env)); [by left|].
  destruct (amt <=? 0) eqn:Ha; [by left|]. apply Z.leb_gt in Ha.
  destruct (String.eqb recipient giver) eqn:Hself; [by left|].
  apply String.eqb_neq in Hself.
  destruct bot; [by left|].
  destruct (user_by_discord_id s giver) as [[sid sender]|] eqn:Hs; [|by left].
  destruct (coins sender <? amt) eqn:Hc; [by left|]. apply Z.ltb_ge in Hc.
  pose proof (user_by_discord_id_Some _ _ _ _ Hs) as [Hsk Hsd].
  (* the recipient row: found, or created in the same unit of work *)
  assert ((exists rid ru s1,
            (match user_by_discord_id s recipient with
             | Some (rid, r) => Returned (rid, r, s)
             | None =>
                 '(rid, s1) ← insert_user (new_User recipient recipient_name) s;
                 Returned (rid, new_User recipient recipient_name, s1)
             end) = Returned (rid, ru, s1)
            /\ accounted s s1 [] /\ checked_rows s s1
            /\ users s1 !! rid = Some ru /\ users s1 !! sid = Some sender
            /\ sid <> rid /\ gifts s1 = gifts s /\ purchases s1 = purchases s
            /\ transactions s1 = transactions s)
          \/ (match user_by_discord_id s recipient with
              | Some (rid, r) => Returned (rid, r, s)
              | None =>
                  '(rid, s1) ← insert_user (new_User recipient recipient_name) s;
                  Returned (rid, new_User recipient recipient_name, s1)
              end) = Raised (IntegrityError "check_coins_non_negative")) as Hfound.
  { destruct (user_by_discord_id s recipient) as [[rid ru]|] eqn:Hr.
    - left. exists rid, ru, s. split; [done|].
      pose proof (user_by_discord_id_Some _ _ _ _ Hr) as [Hrk Hrd].
      split; [apply accounted_refl|]. split; [apply checked_rows_refl|].
      repeat split; try done. intros ->. congruence.
    - unfold_bind. unfold insert_user, write_user. simpl. unfold_bind. simpl.
      left. eexists _, _, _. split; [reflexivity|]. simpl.
      assert (sid <> next_key (users s)) as Hne.
      { intros ->. by rewrite next_key_fresh in Hsk. }
      split.
      { destruct (accounted_new_user recipient recipient_name s
                    (next_key (users s))
                    (set_users s (<[next_key (users s) := new_User recipient recipient_name]>
                                    (users s)))) as [H _]; [|done].
        unfold insert_user, write_user. simpl. unfold_bind. done. }
      split.
      { eapply checked_rows_insert; [|reflexivity]. done. }
      rewrite lookup_insert_eq, lookup_insert_ne by done. done. }
  destruct Hfound
    as [(rid & ru & s1 & Hf & Hacc & Hchk & Hrk & Hsk1 & Hne & Hg & Hp & Hlog)|Hf];
    rewrite Hf; [|by left].
  unfold_bind.
  destruct (write_user sid _ s1) as [s2|e] eqn:H2; [|by left].
  destruct (write_user rid _ s2) as [s3|e] eqn:H3; [|by left].
  destruct (insert_gift _ s3) as [[gid s4]|e] eqn:H4; [|by left].
  destruct (insert_transaction _ s4) as [s5|e] eqn:H5; [|by left].
  destruct (insert_transaction _ s5) as [s6|e] eqn:H6; [|by left].
  right.
  apply write_user_inv in H2 as [Hnn2 ->].
  apply write_user_inv in H3 as [Hnn3 ->].
  apply insert_gift_inv in H4 as [Hfresh ->].
  apply insert_transaction_inv in H5 as ->.
  apply insert_transaction_inv in H6 as ->.
  simpl in *.
  eexists sid, sender, rid, gid, _, _, _.
  split; [done|]. split; [done|]. split; [done|]. split; [done|]. split; [reflexivity|].
  split; [by rewrite <- Hg|]. split; [by rewrite Hg|]. split.
  { eapply accounted_after_nil; [exact Hacc|].
    eapply accounted_pair; [exact Hne|exact Hsk1|exact Hrk|reflexivity|..].
    all: unfold new_Transaction; simpl; rewrite <- ?app_assoc; try done.
    all: simpl; lia. }
  split.
  { eapply checked_rows_trans; [exact Hchk|].
    eapply checked_rows_trans.
    - apply (checked_rows_insert s1
               (set_users s1 (<[sid := set_coins (coins sender - amt) sender]> (users s1)))
               sid (set_coins (coins sender - amt) sender)); [exact Hnn2|reflexivity].
    - apply (checked_rows_insert _ _ rid (set_coins (coins ru + amt) ru));
        [exact Hnn3|reflexivity]. }
  repeat split; done.
Qed.

Lemma gift_command_accounted now giver giver_name recipient recipient_name bot amt msg
    (s : Store) :
  let s' := (Slash.gift_command env now giver giver_name recipient recipient_name
               bot amt msg s).2 in
  (exists new, accounted s s' new) /\ checked_rows s s'.
Proof.
  destruct (gift_command_cases now giver giver_name recipient recipient_name bot amt msg s)
    as [[-> _]|(sid & sender & rid & gid & t1 & t2 & rem & H)]; cbv zeta.
  - split; [exists []; apply accounted_refl|apply checked_rows_refl].
  - destruct H as (_ & _ & _ & _ & _ & _ & _ & Hacc & Hchk & _). split; [by eexists|done].
Qed.

(** The get-or-create step of the slash bot: no balance changes, and the
    row that is handed on is the stored one. *)
Lemma find_or_add_accounted d n (s : Store) uid user s0 :
  Slash.find_or_add d n s = Returned (uid, user, s0) ->
  accounted s s0 [] /\ checked_rows s s0 /\ users s0 !! uid = Some user
  /\ purchases s0 = purchases s /\ items s0 = items s
  /\ (is_Some (user_by_discord_id s d) -> s0 = s).
Proof.
  unfold Slash.find_or_add.
  destruct (user_by_discord_id s d) as [[k u]|] eqn:Hu.
  - intros [= -> -> ->]. apply user_by_discord_id_Some in Hu as [Hu _].
    split; [apply accounted_refl|]. split; [apply checked_rows_refl|]. done.
  - unfold_bind.
    destruct (insert_user (new_User d n) s) as [[k s1]|e] eqn:Hins; [|done].
    intros [= -> <- ->].
    destruct (accounted_new_user _ _ _ _ _ Hins) as (Hacc & Hk & Hp & Hi).
    apply insert_user_inv in Hins as (Hnn & _ & ->).
    split; [done|]. split; [by eapply checked_rows_insert|].
    repeat split; done.
Qed.

(** A balance written together with its entry. *)
Lemma posting_accounted uid user amt t (s s' : Store) :
  users s !! uid = Some user ->
  t_user_id t = uid -> amount t = amt ->
  (s1 ← write_user uid (set_coins (coins user + amt) user) s;
   insert_transaction t s1) = Returned s' ->
  accounted s s' [t] /\ checked_rows s s'.
Proof.
  intros Hu Ht Ha. unfold_bind.
  destruct (write_user uid _ s) as [s1|e] eqn:H1; [|done].
  intros H2. apply write_user_inv in H1 as [Hnn ->].
  apply insert_transaction_inv in H2 as ->. split.
  - eapply accounted_single; [exact Hu|reflexivity|reflexivity|exact Ht|].
    simpl. lia.
  - by eapply checked_rows_insert.
Qed.

Lemma process_coin_earning_accounted cfg now author display_name channel (s : Store) :
  let s' := Slash.process_coin_earning env cfg now author display_name channel s in
  (exists new, accounted s s' new) /\ checked_rows s s'.
Proof.
  unfold Slash.process_coin_earning. cbv zeta.
  destruct (negb (app env));
    [split; [exists []; apply accounted_refl|apply checked_rows_refl]|].
  fold (Slash.find_or_add author display_name s).
  destruct (Slash.find_or_add author display_name s) as [[[uid user] s1]|e] eqn:Hg;
    [|split; [exists []; apply accounted_refl|apply checked_rows_refl]].
  apply find_or_add_accounted in Hg as (Hacc & Hchk & Hu & _).
  destruct (match Slash.last_earn _ _ with Some _ => _ | None => _ end);
    [split; [by exists []|done]|].
  destruct (_ <=? _); [split; [by exists []|done]|].
  set (amt := Z.min _ _).
  destruct (mbind _ _) as [s3|e] eqn:Ha; [|split; [by exists []|done]].
  apply (posting_accounted uid user amt) in Ha as [Ht Hc]; [|done..].
  split; [|by eapply checked_rows_trans].
  eexists. by eapply accounted_after_nil.
Qed.

(** The administrative adjustment either commits the new balance with its
    entry, or answers the generic error and leaves the store as it is. *)
Lemma update_user_coins_cases now user_id amt descr (s : Store) :
  let r := Api.update_user_coins now user_id amt descr s in
  (r = (Api.internal_server_error, s))
  \/ (exists user t,
        users s !! user_id = Some user
        /\ 0 <= coins user + amt
        /\ r.1 = (200, Api.CoinsUpdated (coins user + amt))
        /\ users r.2 = <[user_id := set_coins (coins user + amt) user]> (users s)
        /\ transactions r.2 = transactions s ++ [t]
        /\ t_user_id t = user_id /\ amount t = amt
        /\ purchases r.2 = purchases s).
Proof.
  unfold Api.update_user_coins. cbv zeta. unfold_bind.
  destruct (users s !! user_id) as [user|] eqn:Hu; [|by left].
  destruct (write_user user_id _ s) as [s1|e] eqn:H1; [|by left].
  destruct (insert_transaction _ s1) as [s2|e] eqn:H2; [|by left].
  right. apply write_user_inv in H1 as [Hnn ->].
  apply insert_transaction_inv in H2 as ->. simpl in *.
  eexists user, _. repeat split; done.
Qed.

Lemma update_user_coins_accounted now user_id amt descr (s : Store) :
  let s' := (Api.update_user_coins now user_id amt descr s).2 in
  (exists new, accounted s s' new) /\ checked_rows s s'.
Proof.
  destruct (update_user_coins_cases now user_id amt descr s)
    as [->|(user & t & Hu & Hnn & _ & Hus & Hlog & Ht & Ha & _)]; cbv zeta.
  - split; [exists []; apply accounted_refl|apply checked_rows_refl].
  - split.
    + exists [t]. eapply accounted_single; [exact Hu|exact Hus|exact Hlog|done|].
      simpl. lia.
    + eapply checked_rows_insert; [|exact Hus]. simpl. lia.
Qed.

(** A posting that would take the balance below zero is stopped by the
    check on the user row: the request is answered with the generic error. *)
Lemma update_user_coins_overdraw now user_id amt descr (s : Store) user :
  users s !! user_id = Some user ->
  coins user + amt < 0 ->
  Api.update_user_coins now user_id amt descr s = (Api.internal_server_error, s).
Proof.
  intros Hu Hneg.
  destruct (update_user_coins_cases now user_id amt descr s)
    as [H|(user' & t & Hu' & Hnn & _)]; [done|].
  assert (user' = user) as -> by congruence. lia.
Qed.

Section OlderBot.
Context (is_active : Item -> outcome bool).

Lemma insert_new_user d n (s : Store) :
  insert_user (new_User d n) s
  = Returned (next_key (users s),
              set_users s (<[next_key (users s) := new_User d n]> (users s))).
Proof. reflexivity. Qed.

(** [get_or_create_user] of the older bot, case by case. *)
Lemma legacy_get_or_create_cases author display_name (s : Store) :
  let r := Legacy.get_or_create_user env author display_name s in
  (current_app env = false /\ Py.raises r.1 = true /\ r.2 = s)
  \/ (current_app env = true
      /\ exists uid u, user_by_discord_id s author = Some (uid, u)
                       /\ r = (Returned (Legacy.Loaded uid u), s))
  \/ (current_app env = true /\ user_by_discord_id s author = None
      /\ r = (Returned Legacy.Expired,
              set_users s (<[next_key (users s) := new_User author display_name]>
                             (users s)))).
Proof.
  unfold Legacy.get_or_create_user, Legacy.app_context.
  destruct (current_app env); [|by left].
  destruct (user_by_discord_id s author) as [[uid u]|] eqn:Hu.
  - right. left. split; [done|]. by exists uid, u.
  - right. right. by rewrite insert_new_user.
Qed.

(** The store [get_or_create_user] leaves: the old one, or the old one with
    one more user row that holds no coins. *)
Lemma legacy_get_or_create_store author display_name (s : Store) :
  let s0 := (Legacy.get_or_create_user env author display_name s).2 in
  accounted s s0 [] /\ checked_rows s s0
  /\ purchases s0 = purchases s /\ items s0 = items s
  /\ transactions s0 = transactions s
  /\ (forall k u, users s !! k = Some u -> users s0 !! k = Some u)
  /\ (is_Some (user_by_discord_id s author) -> s0 = s).
Proof.
  destruct (legacy_get_or_create_cases author display_name s)
    as [(_ & _ & H)|[(_ & uid & u & Hu & H)|(_ & Hu & H)]]; cbv zeta in *.
  - rewrite H. split; [apply accounted_refl|]. split; [apply checked_rows_refl|]. done.
  - rewrite H. split; [apply accounted_refl|]. split; [apply checked_rows_refl|]. done.
  - rewrite H. cbn [snd].
    destruct (accounted_new_user author display_name s _ _ (insert_new_user _ _ s))
      as (Hacc & _ & Hp & Hi).
    split; [done|]. split.
    { apply (checked_rows_insert s _ (next_key (users s)) (new_User author display_name));
        [simpl; lia|reflexivity]. }
    split; [done|]. split; [done|]. split; [done|]. split.
    + intros k u Hk. simpl. rewrite lookup_insert_ne; [done|].
      intros <-. by rewrite next_key_fresh in Hk.
    + rewrite Hu. by intros [? ?].
Qed.

(** [award_coins] on an object that was found: the entry is committed and no
    user row is written. On an expired object, and outside an application
    context, it raises before anything is written. *)
Lemma legacy_award_cases now user amt descr (s : Store) :
  let r := Legacy.award_coins env now user amt descr s in
  Py.raises r = true
  \/ (exists uid u,
        current_app env = true /\ user = Legacy.Loaded uid u
        /\ integer_min <= amt <= integer_max
        /\ r = Returned (set_transactions s
                           (transactions s ++ [new_Transaction now uid "earn" amt descr None]))).
Proof.
  unfold Legacy.award_coins, Legacy.app_context. unfold_bind.
  destruct (current_app env); [|by left].
  destruct user as [uid u|]; [|by left]. simpl.
  destruct (insert_transaction _ s) as [s1|e] eqn:Ht; [|by left].
  right. exists uid, u. split; [done|]. split; [done|].
  unfold insert_transaction in Ht.
  destruct (fits_integer _) eqn:Hf; [|done].
  apply fits_integer_spec in Hf. simpl in Hf. split; [done|].
  simpl in Ht. by injection Ht as <-.
Qed.

(** [process_coin_earning] of the older bot: it leaves the store as it was,
    or as [get_or_create_user] left it, or it adds one entry for a user that
    was found, whose row it does not write. *)
Lemma legacy_earning_cases cfg now author display_name ts (s : Store) :
  let r := Legacy.process_coin_earning env cfg now author display_name ts s in
  let s0 := (Legacy.get_or_create_user env author display_name s).2 in
  r.2 = s \/ r.2 = s0
  \/ (exists uid u amt,
        current_app env = true
        /\ user_by_discord_id s author = Some (uid, u)
        /\ Legacy.per_message cfg = Returned amt
        /\ integer_min <= amt <= integer_max
        /\ r.2 = set_transactions s
                   (transactions s
                    ++ [new_Transaction now uid "earn" amt "Message activity" None])).
Proof.
  unfold Legacy.process_coin_earning. cbv zeta.
  destruct (match ts !! author with Some _ => _ | None => _ end) as [[]|e];
    [by left|..|by left].
  destruct (legacy_get_or_create_cases author display_name s)
    as [(_ & Hr & H)|[(Hctx & uid & u & Hu & H)|(_ & Hu & H)]]; cbv zeta in *.
  - destruct (Legacy.get_or_create_user env author display_name s) as [[d|e] s0];
      simpl in *; [done|]. by right; left.
  - rewrite H. cbn [fst snd]. unfold_bind.
    unfold Legacy.app_context, Legacy.get_daily_coins_earned, Legacy.config_value,
      Legacy.app_context. unfold_bind. rewrite Hctx. simpl.
    destruct (Legacy.daily_limit cfg) as [limit|e]; [|by left].
    destruct (limit <=? _); [by left|].
    destruct (Legacy.per_message cfg) as [amt|e] eqn:Hamt; [|by left].
    destruct (legacy_award_cases now (Legacy.Loaded uid u) amt "Message activity" s)
      as [Hr|(uid' & u' & _ & [= <- <-] & Hfit & Hr)]; cbv zeta in *.
    + destruct (Legacy.award_coins env now _ amt _ s); [done|by left].
    + rewrite Hr. right. right. by exists uid, u, amt.
  - rewrite H. cbn [fst snd]. unfold_bind. unfold Legacy.app_context.
    destruct (current_app env); by right; left.
Qed.

(** [buy] of the older bot: the user may have been created; after that the
    store is left as it is, or the purchase and the entry are committed
    together, and no user row is written. *)
Lemma legacy_buy_cases now author display_name item_id qty (s : Store) :
  let r := Legacy.buy env is_active now author display_name item_id qty s in
  let s0 := (Legacy.get_or_create_user env author display_name s).2 in
  (r.2 = s0 /\ forall rem, r.1 <> Legacy.PurchaseSuccessful rem)
  \/ (exists uid user item pid,
        let cost := price item * qty in
        current_app env = true
        /\ user_by_discord_id s author = Some (uid, user)
        /\ items s !! item_id = Some item
        /\ 0 < qty /\ 0 <= coins user - cost
        /\ r.1 = Legacy.PurchaseSuccessful (coins user - cost)
        /\ purchases s !! pid = None
        /\ users r.2 = users s
        /\ purchases r.2
           = <[pid := new_Purchase uid item_id qty cost "pending"]> (purchases s)
        /\ transactions r.2
           = transactions s
             ++ [new_Transaction now uid "purchase" (- cost)
                   ("Purchased " +:+ pretty qty +:+ "x " +:+ name item)
                   (Some "purchase_None")]).
Proof.
  unfold Legacy.buy. cbv zeta.
  destruct (legacy_get_or_create_cases author display_name s)
    as [(Hctx & Hr & H)|[(Hctx & uid & u & Hu & H)|(Hctx & Hu & H)]]; cbv zeta in *.
  - unfold Legacy.app_context. rewrite Hctx. left. by rewrite H.
  - unfold Legacy.app_context. rewrite Hctx, H. cbn [fst snd].
    destruct (items s !! item_id) as [item|] eqn:Hitem; [|by left].
    unfold_bind.
    destruct (is_active item) as [[]|e]; try by left.
    destruct (qty <=? 0) eqn:Hq; [by left|]. apply Z.leb_gt in Hq.
    destruct (coins u <? price item * qty) eqn:Hc; [by left|]. apply Z.ltb_ge in Hc.
    destruct (insert_purchase _ s) as [[pid s1]|e] eqn:H1; [|by left].
    destruct (insert_transaction _ s1) as [s2|e] eqn:H2; [|by left].
    right. exists uid, u, item, pid.
    apply insert_purchase_inv in H1 as [Hfresh ->].
    apply insert_transaction_inv in H2 as ->.
    simpl. repeat split; try done. lia.
  - unfold Legacy.app_context. rewrite Hctx, H. cbn [fst snd].
    destruct (items _ !! item_id) as [item|]; [|by left].
    unfold_bind.
    destruct (is_active item) as [[]|e]; try by left.
    destruct (qty <=? 0); by left.
Qed.

(** The older bot writes no balance: whatever it does, every user row that
    exists stays as it is, and a row it adds holds no coins. *)
Lemma legacy_earning_checked cfg now author display_name ts (s : Store) :
  let s' := (Legacy.process_coin_earning env cfg now author display_name ts s).2 in
  checked_rows s s' /\ forall k u, users s !! k = Some u -> users s' !! k = Some u.
Proof.
  destruct (legacy_get_or_create_store author display_name s)
    as (_ & Hchk & _ & _ & _ & Hkept & _).
  destruct (legacy_earning_cases cfg now author display_name ts s)
    as [H|[H|(uid & u & amt & _ & _ & _ & _ & H)]]; cbv zeta in *; rewrite H.
  - split; [apply checked_rows_refl|done].
  - by split.
  - split; [|done]. intros k v Hk. by left.
Qed.

Lemma legacy_buy_checked now author display_name item_id qty (s : Store) :
  let s' := (Legacy.buy env is_active now author display_name item_id qty s).2 in
  checked_rows s s' /\ forall k u, users s !! k = Some u -> users s' !! k = Some u.
Proof.
  destruct (legacy_get_or_create_store author display_name s)
    as (_ & Hchk & _ & _ & _ & Hkept & _).
  destruct (legacy_buy_cases now author display_name item_id qty s)
    as [[H _]|(uid & u & item & pid & _ & _ & _ & _ & _ & _ & _ & H & _)];
    cbv zeta in *.
  - rewrite H. by split.
  - split.
    + intros k v Hk. left. by rewrite <- H.
    + intros k v Hk. by rewrite H.
Qed.

End OlderBot.

End Operations.

(** * The ledger invariants *)

Section LedgerInvariants.
Context {W : Type} (env : Env W) (is_active : Item -> outcome bool).

(** Whatever the operation, a user row it writes passed the check of the
    balance. *)
Lemma run_checked (op : Operation) (s : Store) :
  checked_rows s (run env is_active op s).
Proof.
  destruct op; simpl.
  - apply process_coin_earning_accounted.
  - apply buy_command_accounted.
  - apply gift_command_accounted.
  - apply update_user_coins_accounted.
  - apply legacy_earning_checked.
  - apply legacy_buy_checked.
Qed.

(** The operations of the slash bot and of the API write every balance
    together with its entry. *)
Lemma run_accounted (op : Operation) (s : Store) :
  of_older_bot op = false ->
  exists new, accounted s (run env is_active op s) new.
Proof.
  destruct op; simpl; intros Hop; try discriminate Hop.
  - apply process_coin_earning_accounted.
  - apply buy_command_accounted.
  - apply gift_command_accounted.
  - apply update_user_coins_accounted.
Qed.

(** X24. The message award, the buy and the gift of the slash bot and the
    administrative adjustment of the API keep the cached balance of every
    user equal to the sum of the user's ledger entries; the store such an
    operation commits holds the old ledger followed by the new entries, and
    for every user either the balance is unchanged and there is no new
    entry, or there is exactly one new entry and its amount is the change of
    the balance. *)
Theorem balance_moves_with_its_entry (op : Operation) (s : Store) :
  of_older_bot op = false ->
  ledger_consistent s ->
  let s' := run env is_active op s in
  ledger_consistent s'
  /\ exists new,
       transactions s' = transactions s ++ new
       /\ forall uid,
            (ledger_of uid new = [] /\ balance_of s' uid = balance_of s uid)
            \/ (exists t, ledger_of uid new = [t]
                          /\ amount t = balance_of s' uid - balance_of s uid).
Proof.
  intros Hop Hs s'. destruct (run_accounted op s Hop) as [new Hacc].
  split; [by eapply accounted_consistent|]. exists new. apply Hacc.
Qed.

(** The invariant holds in every store these operations can reach from a
    store in which it holds. *)
Lemma run_all_consistent (ops : list Operation) (s : Store) :
  Forall (fun op => of_older_bot op = false) ops ->
  ledger_consistent s ->
  ledger_consistent (run_all env is_active ops s).
Proof.
  unfold run_all. revert s.
  induction ops as [|op ops IH]; intros s Hops Hs; [done|].
  apply Forall_cons in Hops as [Hop Hops].
  simpl. apply IH; [done|]. destruct (run_accounted op s Hop) as [new Hacc].
  by eapply accounted_consistent.
Qed.

Lemma run_non_negative (op : Operation) (s : Store) :
  non_negative s -> non_negative (run env is_active op s).
Proof.
  intros Hs. eapply checked_rows_non_negative; [|exact Hs]. apply run_checked.
Qed.

(** C2, as the code has it. No operation commits a negative balance. A buy
    or a gift the user cannot afford is refused with the insufficient-coins
    reply and the store is left as it is. The administrative adjustment has
    no such test: an adjustment that would take the balance below zero is
    stopped by the check [coins >= 0] of the user row when the unit of work
    is committed, the store is left as it is, and the answer is the generic
    internal server error. *)
Theorem no_negative_balance_committed (op : Operation) (s : Store)
    now user_id amt descr user :
  non_negative s ->
  users s !! user_id = Some user ->
  coins user + amt < 0 ->
  non_negative (run env is_active op s)
  /\ Api.update_user_coins now user_id amt descr s = (Api.internal_server_error, s)
  /\ (forall buyer item_id quantity uid u item,
        app env = true -> 0 < quantity ->
        user_by_discord_id s buyer = Some (uid, u) ->
        items s !! item_id = Some item -> is_available item = true ->
        coins u < price item * quantity ->
        Slash.buy_command env now buyer item_id quantity s
        = (Slash.InsufficientCoins (price item * quantity) (coins u), s))
  /\ (forall giver giver_name recipient recipient_name msg sid sender a,
        app env = true -> 0 < a -> recipient <> giver ->
        user_by_discord_id s giver = Some (sid, sender) ->
        coins sender < a ->
        Slash.gift_command env now giver giver_name recipient recipient_name false a msg s
        = (Slash.InsufficientCoins a (coins sender), s)).
Proof.
  intros Hs Hu Hneg. split; [by apply run_non_negative|].
  split; [by eapply update_user_coins_overdraw|]. split.
  - intros buyer item_id quantity uid u item Happ Hq Hb Hi Hav Hc.
    unfold Slash.buy_command. rewrite Happ, Hb, Hi, Hav. simpl.
    apply Z.leb_gt in Hq. rewrite Hq. apply Z.ltb_lt in Hc. by rewrite Hc.
  - intros giver giver_name recipient recipient_name msg sid sender a
      Happ Ha Hne Hg Hc.
    unfold Slash.gift_command. rewrite Happ, Hg. simpl.
    apply Z.leb_gt in Ha. rewrite Ha.
    apply String.eqb_neq in Hne. rewrite Hne.
    apply Z.ltb_lt in Hc. by rewrite Hc.
Qed.

(** C8. A buy whose total cost exceeds the buyer's balance is refused before
    any debit. In the slash bot the store is left exactly as it is: same
    balance, no purchase, no ledger entry. In the older bot the buyer's row
    may be created first (with no coins); after that nothing is written: no
    balance changes, no purchase and no ledger entry are created. *)
Theorem insufficient_balance_rejected now buyer display_name item_id quantity
    (s : Store) uid user item :
  user_by_discord_id s buyer = Some (uid, user) ->
  items s !! item_id = Some item ->
  coins user < price item * quantity ->
  (let r := Slash.buy_command env now buyer item_id quantity s in
   r.2 = s /\ forall rem pid, r.1 <> Slash.PurchaseSuccessful rem pid)
  /\ (let r := Legacy.buy env is_active now buyer display_name item_id quantity s in
      r.2 = s /\ forall rem, r.1 <> Legacy.PurchaseSuccessful rem).
Proof.
  intros Hu Hi Hc. split.
  - destruct (buy_command_cases env now buyer item_id quantity s)
      as [H|(uid' & user' & item' & pid & Hu' & Hi' & _ & Hnn & _)]; [done|].
    cbv zeta in *. assert (user' = user) as -> by congruence.
    assert (item' = item) as -> by congruence. lia.
  - destruct (legacy_get_or_create_store env buyer display_name s)
      as (_ & _ & _ & _ & _ & _ & Hsame).
    destruct (legacy_buy_cases env is_active now buyer display_name item_id quantity s)
      as [[H1 H2]|(uid' & user' & item' & pid & _ & Hu' & Hi' & _ & Hnn & _)];
      cbv zeta in *.
    + split; [|done]. rewrite H1. apply Hsame. rewrite Hu. by eexists.
    + assert (user' = user) as -> by congruence.
      assert (item' = item) as -> by congruence. lia.
Qed.

(** A new buyer of the older bot: the row is created and nothing else
    happens. *)
Lemma legacy_new_buyer_rejected now buyer display_name item_id quantity
    (s : Store) :
  user_by_discord_id s buyer = None ->
  let r := Legacy.buy env is_active now buyer display_name item_id quantity s in
  purchases r.2 = purchases s /\ transactions r.2 = transactions s
  /\ (forall x, balance_of r.2 x = balance_of s x)
  /\ forall rem, r.1 <> Legacy.PurchaseSuccessful rem.
Proof.
  intros Hu.
  destruct (legacy_get_or_create_store env buyer display_name s)
    as ([_ Hbal] & _ & Hp & _ & Hlog & _).
  destruct (legacy_buy_cases env is_active now buyer display_name item_id quantity s)
    as [[H1 H2]|(uid' & user' & item' & pid & _ & Hu' & _)]; cbv zeta in *;
    [|congruence].
  rewrite H1. repeat split; try done.
  intros x. by destruct (Hbal x) as [[_ ?]|(t & ? & _)].
Qed.

End LedgerInvariants.

(** * References written on ledger entries *)

Lemma pretty_N_go_not_None (x : N) (s : string) :
  s <> "None" -> pretty_N_go x s <> "None".
Proof.
  revert s. induction (N.lt_wf_0 x) as [x _ IH]; intros s Hs.
  destruct (decide (x = 0%N)) as [->|Hx].
  - by rewrite pretty_N_go_0.
  - rewrite pretty_N_go_step by lia. apply IH.
    + apply N.div_lt; lia.
    + unfold pretty_N_char. by repeat case_match.
Qed.

(** A printed number is never the word [None]. *)
Lemma fmt_id_flushed (k : Z) : Py.fmt_id (Some k) <> Py.fmt_id None.
Proof.
  unfold Py.fmt_id, pretty, pretty_Z. destruct k as [|p|p]; [done| |done].
  unfold pretty, pretty_positive, pretty, pretty_N.
  case_decide; [done|]. by apply pretty_N_go_not_None.
Qed.

Lemma append_inj_l (a b c : string) : a +:+ b = a +:+ c -> b = c.
Proof. induction a as [|x a IH]; simpl; [done|]. intros [= H]. by apply IH. Qed.

Lemma reference_not_key (prefix : string) (k : Z) :
  Some (prefix +:+ Py.fmt_id None) <> Some (prefix +:+ Py.fmt_id (Some k)).
Proof.
  intros [= H]. apply append_inj_l in H. by apply (fmt_id_flushed k).
Qed.

Section References.
Context {W : Type} (env : Env W) (is_active : Item -> outcome bool).

(** C10. Every purchase created by [buy_command] of the slash bot or by [buy]
    of the older bot, and every gift created by the slash [gift_command], is
    stored under a fresh key, while the ledger entries committed with it
    carry the reference built before the row had a key: the literal
    [purchase_None], respectively [gift_None], which is not the reference
    that the key of the stored row would give. *)
Theorem reference_is_built_before_flush (now : Z) (s : Store) :
  (forall buyer item_id quantity rem pid,
     let r := Slash.buy_command env now buyer item_id quantity s in
     r.1 = Slash.PurchaseSuccessful rem pid ->
     exists t,
       transactions r.2 = transactions s ++ [t]
       /\ reference_id t = Some "purchase_None"
       /\ purchases s !! pid = None /\ is_Some (purchases r.2 !! pid)
       /\ reference_id t <> Some ("purchase_" +:+ Py.fmt_id (Some pid)))
  /\ (forall author display_name item_id quantity rem,
        let r := Legacy.buy env is_active now author display_name item_id quantity s in
        r.1 = Legacy.PurchaseSuccessful rem ->
        exists t l pid,
          transactions r.2 = l ++ [t]
          /\ reference_id t = Some "purchase_None"
          /\ purchases s !! pid = None /\ is_Some (purchases r.2 !! pid)
          /\ reference_id t <> Some ("purchase_" +:+ Py.fmt_id (Some pid)))
  /\ (forall giver giver_name recipient recipient_name bot amt msg rem gid,
        let r := Slash.gift_command env now giver giver_name recipient
                   recipient_name bot amt msg s in
        r.1 = Slash.GiftSent rem gid ->
        exists t1 t2,
          transactions r.2 = transactions s ++ [t1; t2]
          /\ reference_id t1 = Some "gift_None"
          /\ reference_id t2 = Some "gift_None"
          /\ gifts s !! gid = None /\ is_Some (gifts r.2 !! gid)
          /\ reference_id t1 <> Some ("gift_" +:+ Py.fmt_id (Some gid))
          /\ reference_id t2 <> Some ("gift_" +:+ Py.fmt_id (Some gid))).
Proof.
  split; [|split].
  - intros buyer item_id quantity rem pid r Hr. subst r.
    destruct (buy_command_cases env now buyer item_id quantity s)
      as [[_ H]|(uid & user & item & pid' & _ & _ & _ & _ & Hr' & Hf & _ & Hp & Hlog)].
    { by destruct (H rem pid). }
    cbv zeta in *. rewrite Hr' in Hr. injection Hr as _ ->.
    eexists. split; [exact Hlog|]. split; [done|]. split; [done|].
    split; [rewrite Hp, lookup_insert_eq; by eexists|].
    apply (reference_not_key "purchase_" pid).
  - intros author display_name item_id quantity rem r Hr. subst r.
    destruct (legacy_buy_cases env is_active now author display_name item_id quantity s)
      as [[_ H]|(uid & user & item & pid & _ & _ & _ & _ & _ & _ & Hf & _ & Hp & Hlog)].
    { by destruct (H rem). }
    cbv zeta in *.
    eexists _, _, pid. split; [exact Hlog|]. split; [done|]. split; [done|].
    split; [rewrite Hp, lookup_insert_eq; by eexists|].
    apply (reference_not_key "purchase_" pid).
  - intros giver giver_name recipient recipient_name bot amt msg rem gid r Hr. subst r.
    destruct (gift_command_cases env now giver giver_name recipient recipient_name
                bot amt msg s)
      as [[_ H]|(sid & sender & rid & gid' & t1 & t2 & rem' & H)].
    { by destruct (H rem gid). }
    destruct H as (_ & _ & _ & _ & Hr' & Hf & Hg & [Hlog _] & _ & _ & _ & _ & _ & H1 & H2 & _).
    rewrite Hr' in Hr. injection Hr as _ ->.
    exists t1, t2. split; [exact Hlog|]. split; [done|]. split; [done|]. split; [done|].
    split; [rewrite Hg, lookup_insert_eq; by eexists|].
    rewrite H1, H2. split; apply (reference_not_key "gift_" gid).
Qed.

End References.

(** * Notifications *)

Section Notifications.
Context {W : Type} (env : Env W).
Context (format : string -> string -> outcome string).

Lemma slash_purchase_is_silent k p (s : Sys W) :
  is_Some (purchases (db s) !! k) ->
  List.filter is_notify (trace (Slash.process_purchase env (k, p) s))
  = List.filter is_notify (trace s).
Proof.
  intros Hk. destruct (process_purchase_turn env k p s Hk) as [new T].
  rewrite (turn_trace _ _ _ _ T), List.filter_app.
  rewrite (filter_silent new (turn_silent _ _ _ _ T)). by rewrite app_nil_r.
Qed.

(** X25. Notifications, worker by worker. When every side effect the item
    asks for succeeded, the slash worker settles the purchase as
    [fulfilled]; it never sends a notification, neither for that purchase
    nor in a whole sweep. The older worker attempts a notification only
    after the command succeeded. When the command could not be formatted or
    failed, the purchase is [failed] and no notification is attempted. When
    it succeeded and the buyer is not in the client's cache, the purchase is
    [fulfilled] without a notification; when the buyer is cached and the
    message goes out, the purchase is [fulfilled] and one notification was
    made. When it succeeded and the notification step raises, the delivered
    purchase is marked [failed]: with no notification when the client could
    not be asked for the buyer, with one attempt when the message was
    refused. *)
Theorem notification_only_after_success k p row (s : Sys W) item user :
  purchases (db s) !! k = Some row ->
  items (db s) !! p_item_id p = Some item ->
  users (db s) !! p_user_id p = Some user ->
  (all_succeeded env (world s) user item = true ->
     committed_status (purchases (db (Slash.process_purchase env (k, p) s))) k
     = Some "fulfilled")
  /\ List.filter is_notify (trace (Slash.process_purchase env (k, p) s))
     = List.filter is_notify (trace s)
  /\ List.filter is_notify (trace (Slash.process_pending_purchases env s))
     = List.filter is_notify (trace s)
  /\ (let r := Legacy.process_purchase env format (k, p) s in
      let w := legacy_after_command env format (world s) user item in
      let unnoticed :=
        List.filter is_notify (trace r.2) = List.filter is_notify (trace s) in
      let noticed :=
        List.filter is_notify (trace r.2)
        = List.filter is_notify (trace s) ++ [EvNotify k (discord_id user)] in
      let ends st := exists f, r.1 = Some f /\ status (f row) = st in
      (legacy_command_succeeded env format (world s) user item = false ->
         ends "failed" /\ unnoticed)
      /\ (legacy_command_succeeded env format (world s) user item = true ->
          (get_user env w (discord_id user) = Returned false ->
             ends "fulfilled" /\ unnoticed)
          /\ (get_user env w (discord_id user) = Returned true ->
              Py.raises (send_dm env w (discord_id user)).1 = false ->
              ends "fulfilled" /\ noticed)
          /\ (get_user env w (discord_id user) = Returned true ->
              Py.raises (send_dm env w (discord_id user)).1 = true ->
              ends "failed" /\ noticed)
          /\ (Py.raises (get_user env w (discord_id user)) = true ->
              ends "failed" /\ unnoticed))).
Proof.
  intros Hrow Hi Hu. split; [|split; [|split]].
  - intros Hok.
    destruct (process_purchase_found env k p s item user Hi Hu)
      as (ps1 & ps2 & Heq & _ & Hk & _).
    rewrite Heq. unfold committed_status. simpl. rewrite Hk, Hrow. simpl.
    unfold settled_row. by rewrite Hok.
  - apply slash_purchase_is_silent. by eexists.
  - apply slash_never_notifies.
  - cbv zeta. split.
    + intros Hfail.
      destruct (legacy_failure_is_silent env format k p s item user Hi Hu Hfail)
        as [H1 H2].
      split; [|done]. by eexists.
    + intros Hok.
      destruct (Legacy.format_command format item user) as [c|e] eqn:Hc;
        [|unfold legacy_command_succeeded in Hok; by rewrite Hc in Hok].
      destruct (legacy_success_notifies env format k p s item user c Hi Hu Hc Hok)
        as [Hquiet Hsent].
      destruct (legacy_failed_notification env format k p s item user c Hi Hu Hc Hok)
        as [Hlost Hrefused].
      split; [|split; [|split]].
      * intros Hcache. destruct (Hquiet Hcache) as [H1 H2]. split; [|done]. by eexists.
      * intros Hcache Hsend. destruct (Hsent Hcache Hsend) as [H1 H2].
        split; [|done]. by eexists.
      * intros Hcache Hsend. destruct (Hrefused Hcache Hsend) as [(f & H1 & Hf) H2].
        split; [|done]. by exists f.
      * intros Hraise. destruct (Hlost Hraise) as [(f & H1 & Hf) H2].
        split; [|done]. by exists f.
Qed.

End Notifications.

(** * Threads and sweeps *)

Section Threads.
Context {W : Type} (env : Env W).

Lemma finish_idle (n : nat) (s : Sys W) :
  Overlap.finish env n Overlap.idle s = s.
Proof. induction n as [|n IH]; [done|]. simpl. exact IH. Qed.

(** A thread that is never interrupted is the sweep of
    [process_pending_purchases]. *)
Lemma finish_is_sweep (l : list (Z * Purchase)) (s : Sys W) (n : nat) :
  (length l <= n)%nat ->
  Overlap.finish env n (Overlap.advance env l s).1 (Overlap.advance env l s).2
  = Slash.sweep env l s.
Proof.
  revert s n. induction l as [|kp rest IH]; intros s n Hn.
  - apply finish_idle.
  - cbn [Overlap.advance Slash.sweep]. unfold Slash.process_purchase.
    destruct (items (db (Slash.claim_purchase kp.1 s)) !! p_item_id kp.2) as [item|];
      [destruct (users (db (Slash.claim_purchase kp.1 s)) !! p_user_id kp.2) as [user|];
       [destruct (Slash.wants_role item || Slash.wants_command item)|]|].
    + destruct n as [|n]; [simpl in Hn; lia|].
      cbn [fst snd Overlap.finish Overlap.step Overlap.todo].
      rewrite (surjective_pairing (Overlap.advance env rest _)).
      apply IH. simpl in Hn. lia.
    + apply IH. simpl in Hn. lia.
    + apply IH. simpl in Hn. lia.
    + apply IH. simpl in Hn. lia.
Qed.

(** The same from the start of the sweep. *)
Lemma uninterrupted_thread_is_the_sweep (s : Sys W) :
  Overlap.finish env (length (pending_purchases (db s)))
    (Overlap.start env s).1 (Overlap.start env s).2
  = Slash.process_pending_purchases env s.
Proof.
  unfold Overlap.start, Slash.process_pending_purchases.
  destruct (negb (app env)); [apply finish_idle|]. by apply finish_is_sweep.
Qed.

End Threads.


(** * The scenarios, evaluated *)

Section Evaluated.

Import Scenarios MoreScenarios.

Lemma shop_consistent : ledger_consistent Demo.shop.
Proof.
  intros uid. unfold balance_of, ledger_sum, ledger_of, Demo.shop, new_Transaction.
  cbn [users transactions List.filter t_user_id].
  destruct (decide (uid = 1)) as [->|H1]; [done|].
  assert ((1 =? uid) = false) as -> by (by apply Z.eqb_neq).
  rewrite lookup_insert_ne by done.
  destruct (decide (uid = 2)) as [->|H2]; [done|].
  by rewrite lookup_singleton_ne.
Qed.

Lemma shop_non_negative : non_negative Demo.shop.
Proof.
  intros uid u. simpl.
  destruct (decide (uid = 1)) as [->|H1].
  { rewrite lookup_insert_eq. by intros [= <-]. }
  rewrite lookup_insert_ne by done.
  destruct (decide (uid = 2)) as [->|H2].
  { rewrite lookup_singleton_eq. by intros [= <-]. }
  by rewrite lookup_singleton_ne.
Qed.

(** The balance invariant, applied to Alice buying a sword. *)
Lemma balance_moves_with_its_entry_witness :
  ledger_consistent
    (run Demo.all_up Legacy.database_is_active (Buy 5 "111" 1 1) Demo.shop).
Proof.
  apply (balance_moves_with_its_entry Demo.all_up Legacy.database_is_active
           (Buy 5 "111" 1 1) Demo.shop ltac:(reflexivity) shop_consistent).
Defined.


Example alice_buys_a_sword :
  let s' := run Demo.all_up Legacy.database_is_active (Buy 5 "111" 1 1) Demo.shop in
  balance_of s' 1 = 50 /\ ledger_sum s' 1 = 50
  /\ (status <$> purchases s' !! 1) = Some "pending"
  /\ (total_cost <$> purchases s' !! 1) = Some 50.
Proof. vm_compute. repeat split. Qed.

Example alice_gifts_bob :
  let s' := run Demo.all_up Legacy.database_is_active
              (GiftTo 5 "111" "A" "222" "B" false 30 None) Demo.shop in
  balance_of s' 1 = 70 /\ balance_of s' 2 = 30
  /\ List.map amount (transactions s') = [100; -30; 30].
Proof. vm_compute. repeat split. Qed.

(** C2 does not hold as the specification words it: the adjustment that would leave
    Alice with -50 coins is answered with the generic internal server error,
    not with the insufficient-funds reply. *)
Lemma overdraw_is_an_internal_error :
  balance_of Demo.shop 1 + -150 < 0
  /\ overdraw.1 = Api.internal_server_error
  /\ overdraw.1 <> Api.insufficient_coins
  /\ overdraw.2 = Demo.shop.
Proof. vm_compute. repeat split; discriminate. Qed.

Lemma no_negative_balance_committed_witness :
  non_negative
    (run Demo.all_up Legacy.database_is_active (Adjust 5 1 (-150) "penalty") Demo.shop)
  /\ Api.update_user_coins 5 1 (-150) "penalty" Demo.shop
     = (Api.internal_server_error, Demo.shop).
Proof.
  destruct (no_negative_balance_committed Demo.all_up Legacy.database_is_active
              (Adjust 5 1 (-150) "penalty") Demo.shop 5 1 (-150) "penalty" Demo.alice
              shop_non_negative ltac:(reflexivity) ltac:(vm_compute; reflexivity))
    as (H1 & H2 & _).
  split; [exact H1|exact H2].
Defined.

(** Alice, with 100 coins, asks for the VIP rank at 500. *)
Lemma insufficient_balance_rejected_witness :
  (Slash.buy_command Demo.all_up 5 "111" 2 1 Demo.shop).2 = Demo.shop
  /\ (Legacy.buy Demo.all_up (fun _ => Returned true) 5 "111" "A" 2 1 Demo.shop).2
     = Demo.shop.
Proof.
  destruct (insufficient_balance_rejected Demo.all_up (fun _ => Returned true)
              5 "111" "A" 2 1 Demo.shop 1 Demo.alice Demo.vip
              ltac:(vm_compute; reflexivity)
              ltac:(reflexivity) ltac:(vm_compute; reflexivity))
    as [[H1 _] [H2 _]].
  split; [exact H1|exact H2].
Defined.

Example insufficient_reply :
  (Slash.buy_command Demo.all_up 5 "111" 2 1 Demo.shop).1
  = Slash.InsufficientCoins 500 100.
Proof. reflexivity. Qed.

(** With the [Item] class of [database.py], [buy] of the older bot raises on
    [item.is_active] for every item that exists. *)
Example legacy_buy_raises_on_is_active :
  Legacy.buy Demo.all_up Legacy.database_is_active 5 "111" "A" 1 1 Demo.shop
  = (Legacy.ErrorOccurred, Demo.shop).
Proof. reflexivity. Qed.

(** C3 does not hold as the specification words it: Alice's VIP rank needs the role
    and the command; the role is granted, the game server refuses the
    session; the purchase ends [failed] with the role flag set,
    [execute_command] was called with [lp user A parent set vip], and
    [minecraft_command] is empty. *)
Lemma failed_command_is_not_recorded :
  let s' := slash_sweep Demo.rcon_down in
  item_type Demo.vip = "both"
  /\ discord_role_id Demo.vip = Some "900"
  /\ minecraft_command_template Demo.vip = Some "lp user {username} parent set vip"
  /\ role_granted Demo.rcon_down tt Demo.alice Demo.vip = true
  /\ command_succeeded Demo.rcon_down tt Demo.alice Demo.vip = false
  /\ calls_about 1 (trace s')
     = [EvGrantRole 1 "111" "900"; EvRcon 1 "lp user A parent set vip"]
  /\ (status <$> purchases (db s') !! 1) = Some "failed"
  /\ (discord_role_assigned <$> purchases (db s') !! 1) = Some true
  /\ (minecraft_command <$> purchases (db s') !! 1) = Some None
  /\ (minecraft_command <$> purchases (db s') !! 1)
     <> Some (Some (command_of Demo.alice Demo.vip)).
Proof. vm_compute. repeat split; discriminate. Qed.

Lemma partial_failure_keeps_role_witness :
  exists row',
    purchases (db (Slash.process_purchase Demo.rcon_down (1, vip_purchase) queue_booted))
      !! 1 = Some row'
    /\ status row' = "failed" /\ discord_role_assigned row' = true
    /\ minecraft_command row' = None.
Proof.
  destruct (partial_failure_keeps_role Demo.rcon_down 1 vip_purchase vip_purchase
              queue_booted Demo.vip Demo.alice
              ltac:(reflexivity) ltac:(reflexivity) ltac:(reflexivity)
              ltac:(reflexivity) ltac:(reflexivity) ltac:(reflexivity)
              ltac:(reflexivity) ltac:(vm_compute; reflexivity))
    as (row' & H1 & H2 & H3 & H4 & _).
  exists row'. split; [exact H1|]. split; [exact H2|]. split; [exact H3|exact H4].
Defined.

(** C4 does not hold as the specification words it: two sweeps that overlap both
    claim the sword. Sweep A selects the purchases 1, 2 and 3 and waits in the
    VIP rank; sweep B starts, selects 2 and 3, claims the sword and waits in
    it. When sweep A comes to the sword, the store shows it as [processing],
    claimed by sweep B; sweep A claims it again, both sweeps wait in it, and
    the command is run for it twice. *)
Lemma overlapping_sweeps_both_claim :
  let '(ta, tb, s) := Overlap.run Demo.all_up overlap_begins queue_booted in
  let '(ta', tb', s') := Overlap.run Demo.all_up overlap queue_booted in
  (pending_purchases Demo.queue).*1 = [1; 2; 3]
  /\ (Overlap.todo ta).*1 = [2; 3] /\ (Overlap.todo tb).*1 = [2; 3]
  /\ committed_status (purchases (db s)) 2 = Some "processing"
  /\ calls_about 2 (trace s) = []
  /\ Overlap.todo ta' = [] /\ Overlap.todo tb' = []
  /\ calls_about 2 (trace s')
     = [EvRcon 2 "give A diamond_sword 1"; EvRcon 2 "give A diamond_sword 1"]
  /\ committed_status (purchases (db s')) 2 = Some "fulfilled".
Proof. vm_compute. repeat split. Qed.

(** The older worker has no claim at all: it calls the game server while
    the store still shows the purchase as [pending]. *)
Example legacy_calls_before_any_commit :
  claimed_before_callsb (purchases Demo.queue) (trace (legacy_sweep Demo.all_up)) = false
  /\ claimed_before_callsb (purchases Demo.queue) (trace (slash_sweep Demo.all_up)) = true.
Proof. vm_compute. by split. Qed.

Lemma fulfilled_only_if_all_succeeded_witness :
  exists row',
    purchases (db (Slash.process_purchase Demo.role_missing (1, vip_purchase) queue_booted))
      !! 1 = Some row'
    /\ (status row' = "fulfilled" \/ status row' = "failed")
    /\ external_calls
         (trace (Slash.process_purchase Demo.role_missing (1, vip_purchase) queue_booted))
       = [EvGrantRole 1 "111" "900"; EvRcon 1 "lp user A parent set vip"].
Proof.
  destruct (fulfilled_only_if_all_succeeded Demo.role_missing 1 vip_purchase vip_purchase
              queue_booted Demo.vip Demo.alice
              ltac:(reflexivity) ltac:(reflexivity) ltac:(reflexivity))
    as (row' & H1 & H2 & _ & H4).
  exists row'. split; [exact H1|]. split; [exact H2|exact H4].
Defined.

(** C5 does not hold as the specification words it: the starter kit is of
    type [both], so its kind names a role grant and a remote command, but its
    role id was never filled in. The worker runs the command and settles the
    purchase as [fulfilled], with [fulfilled_at] set: no role was granted,
    none was asked for, and the role flag is not set. *)
Lemma kind_both_is_fulfilled_without_a_role :
  let s' := Slash.process_pending_purchases Demo.all_up kit_queue in
  item_type starter_kit = "both" /\ discord_role_id starter_kit = None
  /\ purchases (db kit_queue) !! 1 = Some kit_purchase
  /\ (status <$> purchases (db s') !! 1) = Some "fulfilled"
  /\ (fulfilled_at <$> purchases (db s') !! 1) = Some (Some 1700000000000000)
  /\ (discord_role_assigned <$> purchases (db s') !! 1) = Some false
  /\ external_calls (trace s') = [EvRcon 1 "give A bread 16"]
  /\ List.filter is_role_grant (trace s') = [].
Proof. vm_compute. repeat split. Qed.

(** The role cannot be granted, and the command is sent all the same. *)
Example command_sent_after_failed_role :
  let s' := slash_sweep Demo.role_missing in
  role_granted Demo.role_missing tt Demo.alice Demo.vip = false
  /\ calls_about 1 (trace s')
     = [EvGrantRole 1 "111" "900"; EvRcon 1 "lp user A parent set vip"]
  /\ (status <$> purchases (db s') !! 1) = Some "failed"
  /\ (minecraft_command <$> purchases (db s') !! 1)
     = Some (Some "lp user A parent set vip").
Proof. vm_compute. repeat split. Qed.

(** The scenario of the specification: the sword is delivered. *)
Example sword_is_fulfilled :
  let s' := slash_sweep Demo.all_up in
  (status <$> purchases (db s') !! 2) = Some "fulfilled"
  /\ (fulfilled_at <$> purchases (db s') !! 2) = Some (Some 1700000000000000)
  /\ (minecraft_command <$> purchases (db s') !! 2)
     = Some (Some "give A diamond_sword 1").
Proof. vm_compute. repeat split. Qed.

(** C6 on the older worker: the purchase whose item row is gone is skipped.
    It is still [pending] after the sweep, the next sweep selects it again,
    and leaves it [pending] again; the slash worker settles the same
    purchase as [failed]. *)
Theorem legacy_dangling_purchase_stays_pending :
  let s1 := legacy_sweep Demo.all_up in
  let s2 := Legacy.process_pending_purchases Demo.all_up Demo.format_username s1 in
  items Demo.queue !! p_item_id dangling_purchase = None
  /\ purchases Demo.queue !! 3 = Some dangling_purchase
  /\ purchases (db s1) !! 3 = Some dangling_purchase
  /\ (pending_purchases (db s1)).*1 = [3]
  /\ purchases (db s2) !! 3 = Some dangling_purchase
  /\ committed_status (purchases (db (slash_sweep Demo.all_up))) 3 = Some "failed".
Proof. vm_compute. repeat split. Qed.

(** C7 on the two workers, over the demo queue. The slash worker delivers the
    sword and the VIP rank, settles both as [fulfilled] and notifies nobody;
    the older worker, its sibling, does send the message when all goes well.
    In the older worker the message is sent inside the [try] block: when
    Alice does not accept direct messages, the sword has been delivered, the
    message is refused, and the purchase is marked [failed]; the same
    happens when her [discord_id] cannot be read as a number. *)
Theorem workers_break_the_notification_rule :
  let slash := slash_sweep Demo.all_up in
  let older := legacy_sweep Demo.all_up in
  let refused := legacy_sweep Demo.dm_closed in
  let unreadable := legacy_sweep bad_discord_id in
  all_succeeded Demo.all_up tt Demo.alice Demo.diamond_sword = true
  /\ (status <$> purchases (db slash) !! 2) = Some "fulfilled"
  /\ (status <$> purchases (db slash) !! 1) = Some "fulfilled"
  /\ List.filter is_notify (trace slash) = []
  /\ (status <$> purchases (db older) !! 2) = Some "fulfilled"
  /\ calls_about 2 (trace older) = [EvRcon 2 "give A diamond_sword 1"; EvNotify 2 "111"]
  /\ legacy_command_succeeded Demo.dm_closed Demo.format_username tt Demo.alice
       Demo.diamond_sword = true
  /\ calls_about 2 (trace refused) = [EvRcon 2 "give A diamond_sword 1"; EvNotify 2 "111"]
  /\ (status <$> purchases (db refused) !! 2) = Some "failed"
  /\ (minecraft_command <$> purchases (db refused) !! 2)
     = Some (Some "give A diamond_sword 1")
  /\ calls_about 2 (trace unreadable) = [EvRcon 2 "give A diamond_sword 1"]
  /\ (status <$> purchases (db unreadable) !! 2) = Some "failed".
Proof. vm_compute. repeat split. Qed.

Lemma notification_only_after_success_witness :
  committed_status
    (purchases (db (Slash.process_purchase Demo.all_up (1, vip_purchase) queue_booted))) 1
  = Some "fulfilled"
  /\ List.filter is_notify
       (trace (Slash.process_purchase Demo.all_up (1, vip_purchase) queue_booted)) = [].
Proof.
  destruct (notification_only_after_success Demo.all_up Demo.format_username
              1 vip_purchase vip_purchase queue_booted Demo.vip Demo.alice
              ltac:(reflexivity) ltac:(reflexivity) ltac:(reflexivity))
    as (H1 & H2 & _).
  split; [exact (H1 ltac:(vm_compute; reflexivity))|exact H2].
Defined.

(** A status query that gets no answer, and one that is refused. *)
Example unreachable_server_is_offline :
  let quiet := mkEnv unit true true "localhost" 25565 "localhost" 25575 "secret"
                 (fun w _ => (Returned tt, w))
                 (fun w _ => (mkCall None (Raised (OtherError "")), w))
                 (fun w _ _ _ _ => (Demo.silent, w))
                 (fun w _ _ => (Returned true, w))
                 (fun _ _ => Returned true) (fun w _ => (Returned tt, w))
                 (fun _ => 0) in
  (MinecraftIntegration.online
     <$> match (MinecraftIntegration.get_server_status quiet tt None None).1 with
              | Returned d => Some d
              | Raised _ => None
              end) = Some false
  /\ (MinecraftIntegration.execute_command quiet tt "list" None None None).1
     = Returned false
  /\ (MinecraftIntegration.execute_command Demo.rcon_down tt "list" None None None).1
     = Returned false
  /\ (MinecraftIntegration.execute_command Demo.all_up tt "list" None None None).1
     = Returned true.
Proof. vm_compute. repeat split. Qed.

End Evaluated.


(** * More of the slash worker *)

Section SlashWorkerMore.
Context {W : Type} (env : Env W).

Lemma rows_kept_refl (ps : gmap Z Purchase) : rows_kept ps ps.
Proof. intros k. destruct (ps !! k); [|done]. by repeat split. Qed.

Lemma rows_kept_trans (ps1 ps2 ps3 : gmap Z Purchase) :
  rows_kept ps1 ps2 -> rows_kept ps2 ps3 -> rows_kept ps1 ps3.
Proof.
  intros H12 H23 k. specialize (H12 k). specialize (H23 k).
  destruct (ps1 !! k) as [r1|], (ps2 !! k) as [r2|], (ps3 !! k) as [r3|]; try done.
  destruct H12 as (?&?&?&?), H23 as (?&?&?&?). repeat split; congruence.
Qed.

Lemma rows_kept_alter (f : Purchase -> Purchase) k (ps : gmap Z Purchase) :
  (forall row, same_order row (f row)) -> rows_kept ps (alter f k ps).
Proof.
  intros Hf j. destruct (decide (j = k)) as [->|Hne].
  - rewrite lookup_alter_eq. destruct (ps !! k); simpl; [apply Hf|done].
  - rewrite lookup_alter_ne by done. destruct (ps !! j); [|done]. by repeat split.
Qed.

Lemma same_order_writes w user item row :
  same_order row (writes_for env w user item row).
Proof.
  unfold writes_for.
  destruct (Slash.wants_command item && command_succeeded env w user item),
    (Slash.wants_role item && role_granted env w user item); by repeat split.
Qed.

Lemma process_purchase_kept kp (s : Sys W) :
  ledger_untouched (db s) (db (Slash.process_purchase env kp s))
  /\ rows_kept (purchases (db s)) (purchases (db (Slash.process_purchase env kp s))).
Proof.
  destruct kp as [k p].
  unfold Slash.process_purchase, Slash.settle_purchase, Slash.claim_purchase. simpl.
  assert (rows_kept (purchases (db s)) (alter (set_status "processing") k (purchases (db s))))
    as Hclaim by (apply rows_kept_alter; intros row; by repeat split).
  destruct (items (db s) !! p_item_id p) as [item|];
    [destruct (users (db s) !! p_user_id p) as [user|]|].
  - rewrite fulfill_purchase_eq. simpl.
    destruct (all_succeeded env (world s) user item); simpl; (split; [done|]);
      (eapply rows_kept_trans; [exact Hclaim|]); apply rows_kept_alter; intros row;
      pose proof (same_order_writes (world s) user item row) as (?&?&?&?);
      repeat split; simpl; done.
  - simpl. split; [done|]. eapply rows_kept_trans; [exact Hclaim|].
    apply rows_kept_alter. intros row. by repeat split.
  - simpl. split; [done|]. eapply rows_kept_trans; [exact Hclaim|].
    apply rows_kept_alter. intros row. by repeat split.
Qed.

Lemma sweep_kept l (s : Sys W) :
  ledger_untouched (db s) (db (Slash.sweep env l s))
  /\ rows_kept (purchases (db s)) (purchases (db (Slash.sweep env l s))).
Proof.
  revert s. induction l as [|kp rest IH]; intros s.
  - split; [done|apply rows_kept_refl].
  - simpl. destruct (process_purchase_kept kp s) as [(H1&H2&H3&H4) Hk].
    destruct (IH (Slash.process_purchase env kp s)) as [(H5&H6&H7&H8) Hk'].
    split; [repeat split; congruence|]. by eapply rows_kept_trans.
Qed.

(** X1. A sweep of the slash worker writes the purchases table and nothing
    else: users, balances, items, gifts and the ledger are as before, so a
    purchase that ends [failed] is not refunded; and every purchase keeps its
    buyer, its item, its quantity and its total cost. *)
Theorem sweep_never_refunds (s : Sys W) :
  let s' := Slash.process_pending_purchases env s in
  ledger_untouched (db s) (db s')
  /\ (forall uid, balance_of (db s') uid = balance_of (db s) uid)
  /\ rows_kept (purchases (db s)) (purchases (db s')).
Proof.
  intros s'. subst s'. unfold Slash.process_pending_purchases.
  destruct (negb (app env)).
  - split; [done|]. split; [done|apply rows_kept_refl].
  - destruct (sweep_kept (pending_purchases (db s)) s) as [(H1&H2&H3&H4) Hk].
    split; [done|]. split; [|done]. intros uid. unfold balance_of. by rewrite H1.
Qed.

Lemma pending_after_sweep (s : Sys W) :
  app env = true ->
  pending_purchases (db (Slash.process_pending_purchases env s)) = [].
Proof.
  intros Happ. destruct (process_pending_purchases_spec env s Happ) as [new S].
  apply pending_purchases_nil. intros k p Hk Hpend.
  destruct (decide (k ∈ (pending_purchases (db s)).*1)) as [Hin|Hnin].
  - destruct (sweep_terminal _ _ _ _ S k Hin) as (row' & Hrow' & Hterm).
    assert (p = row') as -> by congruence.
    destruct Hterm as [Ht|Ht]; rewrite Ht in Hpend; discriminate.
  - destruct (sweep_others _ _ _ _ S k Hnin) as [H1 _].
    apply Hnin, pending_keys. exists p. split; [congruence|done].
Qed.

(** X2. A second sweep right after a sweep does nothing: no purchase is
    selected, nothing is committed and nothing is called. *)
Theorem second_sweep_is_idle (s : Sys W) :
  Slash.process_pending_purchases env (Slash.process_pending_purchases env s)
  = Slash.process_pending_purchases env s.
Proof.
  destruct (app env) eqn:Happ.
  - pose proof (pending_after_sweep s Happ) as Hnil.
    unfold Slash.process_pending_purchases at 1. by rewrite Happ, Hnil.
  - unfold Slash.process_pending_purchases. by rewrite Happ.
Qed.

(** X3. After a sweep every purchase that was [pending] is [fulfilled] or
    [failed]: none stays [pending] and none is left in [processing]. *)
Theorem selected_purchases_are_settled (s : Sys W) k p :
  app env = true ->
  purchases (db s) !! k = Some p ->
  status p = "pending" ->
  exists row',
    purchases (db (Slash.process_pending_purchases env s)) !! k = Some row'
    /\ (status row' = "fulfilled" \/ status row' = "failed").
Proof.
  intros Happ Hk Hpend.
  destruct (process_pending_purchases_spec env s Happ) as [new S].
  apply (sweep_terminal _ _ _ _ S). apply pending_keys. by exists p.
Qed.

(** X4. An item that asks for nothing (its type names a side effect whose
    role id or command template is empty) is delivered on the spot: the
    purchase ends [fulfilled] and no collaborator is called. *)
Theorem empty_recipe_is_fulfilled k p row (s : Sys W) item user :
  purchases (db s) !! k = Some row ->
  items (db s) !! p_item_id p = Some item ->
  users (db s) !! p_user_id p = Some user ->
  Slash.wants_role item = false ->
  Slash.wants_command item = false ->
  let s' := Slash.process_purchase env (k, p) s in
  committed_status (purchases (db s')) k = Some "fulfilled"
  /\ external_calls (trace s') = external_calls (trace s)
  /\ world s' = world s.
Proof.
  intros Hrow Hi Hu Hr Hc s'.
  destruct (process_purchase_found env k p s item user Hi Hu)
    as (ps1 & ps2 & Heq & _ & Hk & _).
  subst s'. rewrite Heq. cbn [db world trace set_purchases purchases].
  rewrite external_calls_purchase. unfold committed_status. rewrite Hk, Hrow.
  unfold settled_row, all_succeeded, calls_for, after_fulfill, after_role.
  rewrite Hr, Hc. simpl. by rewrite app_nil_r.
Qed.

(** X5. The two flags on a settled purchase record exactly what succeeded:
    [discord_role_assigned] is set when the role was asked for and granted
    and is otherwise as before; [minecraft_command] is the resolved command
    when the command was asked for and succeeded and is otherwise as
    before. *)
Theorem flags_record_what_succeeded k p row (s : Sys W) item user :
  purchases (db s) !! k = Some row ->
  items (db s) !! p_item_id p = Some item ->
  users (db s) !! p_user_id p = Some user ->
  exists row',
    purchases (db (Slash.process_purchase env (k, p) s)) !! k = Some row'
    /\ discord_role_assigned row'
       = (Slash.wants_role item && role_granted env (world s) user item)
         || discord_role_assigned row
    /\ minecraft_command row'
       = if Slash.wants_command item && command_succeeded env (world s) user item
         then Some (command_of user item)
         else minecraft_command row.
Proof.
  intros Hrow Hi Hu.
  destruct (process_purchase_found env k p s item user Hi Hu)
    as (ps1 & ps2 & Heq & _ & Hk & _).
  rewrite Heq. cbn [db world trace set_purchases purchases]. rewrite Hk, Hrow.
  eexists. split; [reflexivity|].
  unfold settled_row, writes_for.
  destruct (all_succeeded env (world s) user item),
    (Slash.wants_command item && command_succeeded env (world s) user item),
    (Slash.wants_role item && role_granted env (world s) user item); by split.
Qed.

End SlashWorkerMore.

(** * More of the older worker *)

Section LegacyWorkerMore.
Context {W : Type} (env : Env W).
Context (format : string -> string -> outcome string).

Lemma legacy_process_spec k p (s : Sys W) :
  let r := Legacy.process_purchase env format (k, p) s in
  (exists new, trace r.2 = trace s ++ new /\ Forall quiet new)
  /\ match r.1 with
     | Some f =>
         settles f /\ is_Some (items (db s) !! p_item_id p)
         /\ is_Some (users (db s) !! p_user_id p)
     | None =>
         items (db s) !! p_item_id p = None \/ users (db s) !! p_user_id p = None
     end.
Proof.
  cbv zeta. unfold Legacy.process_purchase.
  assert (settles (set_status "failed")) as Hfailed.
  { intros row. split; [by right|by repeat split]. }
  assert (forall new, trace s ++ new = trace s ++ new) as Hsame by done.
  destruct (users (db s) !! p_user_id p) as [user|] eqn:Hu;
    [|simpl; split; [exists []; by rewrite app_nil_r|by right]].
  destruct (items (db s) !! p_item_id p) as [item|] eqn:Hi;
    [|simpl; split; [exists []; by rewrite app_nil_r|by left]].
  destruct (Legacy.format_command format item user) as [c|e].
  2: { simpl. split; [exists []; by rewrite app_nil_r|].
       split; [exact Hfailed|split; by eexists]. }
  destruct (MinecraftIntegration.execute_command env (world s) c None None None)
    as [[[]|e] w]; simpl.
  2, 3: split; [eexists; split; [reflexivity|]; by repeat constructor
               |split; [exact Hfailed|split; by eexists]].
  unfold Legacy.notify. simpl.
  assert (settles (set_minecraft_command (Some c)
                   ∘ set_fulfilled_at (Some (utcnow env w))
                   ∘ set_status "fulfilled")) as Hok.
  { intros row. split; [by left|by repeat split]. }
  assert (settles (set_status "failed"
                   ∘ (set_minecraft_command (Some c)
                      ∘ set_fulfilled_at (Some (utcnow env w))
                      ∘ set_status "fulfilled"))) as Hko.
  { intros row. split; [by right|by repeat split]. }
  destruct (get_user env w (discord_id user)) as [[]|e]; simpl.
  - destruct (send_dm env w (discord_id user)) as [[[]|e] w']; simpl.
    + split; [|split; [exact Hok|split; by eexists]].
      eexists. split; [by rewrite <- app_assoc|]. by repeat constructor.
    + split; [|split; [exact Hko|split; by eexists]].
      eexists. split; [by rewrite <- app_assoc|]. by repeat constructor.
  - split; [|split; [exact Hok|split; by eexists]].
    eexists. split; [reflexivity|]. by repeat constructor.
  - split; [|split; [exact Hko|split; by eexists]].
    eexists. split; [reflexivity|]. by repeat constructor.
Qed.

Lemma legacy_sweep_spec l session (s : Sys W) :
  Forall (fun kf => settles kf.2) session ->
  let r := Legacy.sweep env format l session s in
  (exists new, trace r.2 = trace s ++ new /\ Forall quiet new)
  /\ Forall (fun kf => settles kf.2) r.1
  /\ (forall k, k ∈ (session.*1) -> k ∈ (r.1.*1))
  /\ (forall k p, (k, p) ∈ l ->
        is_Some (items (db s) !! p_item_id p) ->
        is_Some (users (db s) !! p_user_id p) -> k ∈ (r.1.*1)).
Proof.
  revert session s. induction l as [|[k0 p0] rest IH]; intros session s Hsess; cbv zeta.
  - simpl. split; [exists []; by rewrite app_nil_r|]. split; [done|]. split; [done|].
    intros k p Hin. by apply elem_of_nil in Hin.
  - rewrite legacy_sweep_cons.
    pose proof (legacy_process_spec k0 p0 s) as [(new1 & Ht1 & Hq1) Hf].
    pose proof (legacy_process_db env format (k0, p0) s) as Hdb.
    destruct (Legacy.process_purchase env format (k0, p0) s) as [[f|] s1]; simpl in *.
    + destruct Hf as (Hset & Hi0 & Hu0).
      destruct (IH (session ++ [(k0, f)]) s1) as ((new2 & Ht2 & Hq2) & Hs & Hkeep & Hfound).
      { apply Forall_app. split; [done|]. apply Forall_cons. split; [exact Hset|].
        apply Forall_nil_2. }
      split; [|split; [done|split]].
      * exists (new1 ++ new2). rewrite Ht2, Ht1, app_assoc. split; [done|].
        by apply Forall_app.
      * intros k Hk. apply Hkeep. rewrite fmap_app. apply elem_of_app. by left.
      * intros k p Hin Hi Hu. apply elem_of_cons in Hin as [[= -> ->]|Hin].
        -- apply Hkeep. rewrite fmap_app. apply elem_of_app. right. simpl. left.
        -- apply (Hfound k p Hin); by rewrite Hdb.
    + destruct (IH session s1 Hsess) as ((new2 & Ht2 & Hq2) & Hs & Hkeep & Hfound).
      split; [|split; [done|split; [done|]]].
      * exists (new1 ++ new2). rewrite Ht2, Ht1, app_assoc. split; [done|].
        by apply Forall_app.
      * intros k p Hin Hi Hu. apply elem_of_cons in Hin as [[= -> ->]|Hin].
        -- exfalso. destruct Hf as [Hf|Hf]; rewrite Hf in *; by eapply is_Some_None.
        -- apply (Hfound k p Hin); by rewrite Hdb.
Qed.

Lemma flush_cons k f (session : Legacy.Session) (ps : gmap Z Purchase) :
  Legacy.flush ((k, f) :: session) ps = Legacy.flush session (alter f k ps).
Proof. done. Qed.

Lemma flush_kept (session : Legacy.Session) (ps : gmap Z Purchase) :
  Forall (fun kf => settles kf.2) session ->
  rows_kept ps (Legacy.flush session ps).
Proof.
  revert ps. induction session as [|[k f] rest IH]; intros ps Hs.
  - apply rows_kept_refl.
  - rewrite flush_cons. apply Forall_cons in Hs as [Hf Hs].
    eapply rows_kept_trans; [|by apply IH].
    apply rows_kept_alter. intros row. apply Hf.
Qed.

Lemma flush_keeps_terminal (session : Legacy.Session) (ps : gmap Z Purchase) k row :
  Forall (fun kf => settles kf.2) session ->
  ps !! k = Some row -> terminal (status row) ->
  exists row', Legacy.flush session ps !! k = Some row' /\ terminal (status row').
Proof.
  revert ps row. induction session as [|[k0 f] rest IH]; intros ps row Hs Hk Hterm.
  - by exists row.
  - rewrite flush_cons. apply Forall_cons in Hs as [Hf Hs].
    destruct (decide (k = k0)) as [->|Hne].
    + apply (IH _ (f row)); [done| |apply Hf]. by rewrite lookup_alter_eq, Hk.
    + apply (IH _ row); [done| |done]. by rewrite lookup_alter_ne.
Qed.

Lemma flush_settles (session : Legacy.Session) (ps : gmap Z Purchase) k row :
  Forall (fun kf => settles kf.2) session ->
  k ∈ (session.*1) -> ps !! k = Some row ->
  exists row', Legacy.flush session ps !! k = Some row' /\ terminal (status row').
Proof.
  revert ps row. induction session as [|[k0 f] rest IH]; intros ps row Hs Hin Hk.
  - by apply elem_of_nil in Hin.
  - rewrite flush_cons. pose proof Hs as Hs'. apply Forall_cons in Hs as [Hf Hs].
    destruct (decide (k = k0)) as [->|Hne].
    + apply (flush_keeps_terminal rest _ k0 (f row)); [done| |apply Hf].
      by rewrite lookup_alter_eq, Hk.
    + simpl in Hin. apply elem_of_cons in Hin as [?|Hin]; [done|].
      apply (IH _ row); [done|done|]. by rewrite lookup_alter_ne.
Qed.

(** X6. Inside an application context a sweep of the older worker commits
    once, as its last step, after all its calls, and it never grants a role,
    whatever the type of the item. Outside an application context, which is
    where the repository leaves the older bot, the sweep stops at its first
    statement: nothing is committed and nobody is called. Either way it
    writes the purchases table only, and every purchase keeps its buyer,
    item, quantity and total cost. *)
Theorem legacy_sweep_commits_once (s : Sys W) :
  let s' := Legacy.process_pending_purchases env format s in
  (current_app env = true ->
   exists calls,
     trace s' = trace s ++ calls ++ [EvCommit (purchases (db s'))]
     /\ List.filter is_commit calls = []
     /\ List.filter is_role_grant (calls ++ [EvCommit (purchases (db s'))]) = [])
  /\ (current_app env = false -> s' = s)
  /\ ledger_untouched (db s) (db s')
  /\ rows_kept (purchases (db s)) (purchases (db s')).
Proof.
  cbv zeta. unfold Legacy.process_pending_purchases, Legacy.app_context.
  destruct (current_app env).
  2:{ split; [done|]. split; [done|]. split; [done|]. apply rows_kept_refl. }
  pose proof (legacy_sweep_spec (pending_purchases (db s)) [] s (Forall_nil_2 _))
    as ((calls & Ht & Hq) & Hs & _).
  pose proof (legacy_sweep_db env format (pending_purchases (db s)) [] s) as Hdb.
  destruct (Legacy.sweep env format (pending_purchases (db s)) [] s) as [session s1].
  simpl in *. split; [|split; [done|split]].
  - intros _. exists calls. rewrite Ht, <- app_assoc. split; [done|].
    rewrite List.filter_app. simpl. rewrite app_nil_r.
    clear Ht. induction Hq as [|e l [He1 He2] _ IH]; [done|]. simpl.
    rewrite He1, He2. done.
  - by rewrite Hdb.
  - rewrite Hdb. by apply flush_kept.
Qed.

(** X7. After a sweep of the older worker that runs inside an application
    context, every purchase that was [pending] and whose buyer and item
    exist is [fulfilled] or [failed]. *)
Theorem legacy_found_purchases_are_settled (s : Sys W) k p :
  current_app env = true ->
  purchases (db s) !! k = Some p ->
  status p = "pending" ->
  is_Some (items (db s) !! p_item_id p) ->
  is_Some (users (db s) !! p_user_id p) ->
  exists row',
    purchases (db (Legacy.process_pending_purchases env format s)) !! k = Some row'
    /\ (status row' = "fulfilled" \/ status row' = "failed").
Proof.
  intros Hctx Hk Hpend Hi Hu.
  unfold Legacy.process_pending_purchases, Legacy.app_context. rewrite Hctx.
  pose proof (legacy_sweep_spec (pending_purchases (db s)) [] s (Forall_nil_2 _))
    as (_ & Hs & _ & Hfound).
  pose proof (legacy_sweep_db env format (pending_purchases (db s)) [] s) as Hdb.
  destruct (Legacy.sweep env format (pending_purchases (db s)) [] s) as [session s1].
  simpl in *. rewrite Hdb.
  apply (flush_settles session _ k p); [done| |done].
  apply (Hfound k p); [|done|done]. by apply elem_of_pending_purchases.
Qed.

End LegacyWorkerMore.

(** * More of the commands *)

Section CommandsMore.
Context {W : Type} (env : Env W).

Lemma user_by_discord_id_complete (s : Store) d k u :
  users s !! k = Some u -> discord_id u = d ->
  is_Some (user_by_discord_id s d).
Proof.
  intros Hk Hd. unfold user_by_discord_id.
  destruct (List.find _ (rows (users s))) as [kv|] eqn:E; [by eexists|].
  pose proof (List.find_none _ _ E (k, u)) as Hnone. simpl in Hnone.
  rewrite Hd, String.eqb_refl in Hnone.
  assert ((k, u) ∈ rows (users s)) as Hin by (by apply elem_of_rows).
  apply list_elem_of_In in Hin. by specialize (Hnone Hin).
Qed.

Lemma user_by_discord_id_None (s : Store) d k u :
  user_by_discord_id s d = None -> users s !! k = Some u -> discord_id u <> d.
Proof.
  intros Hnone Hk Hd.
  destruct (user_by_discord_id_complete s d k u Hk Hd) as [x Hx]. congruence.
Qed.

(** The get-or-create step of the slash bot finds what it added: the row it
    hands on is stored under the key with the asked discord id, and the step
    run again finds that row and leaves the store as it is. *)
Lemma find_or_add_is_stable d n other_name (s : Store) uid user s0 :
  Slash.find_or_add d n s = Returned (uid, user, s0) ->
  users s0 !! uid = Some user
  /\ discord_id user = d
  /\ Slash.find_or_add d other_name s0 = Returned (uid, user, s0).
Proof.
  unfold Slash.find_or_add.
  destruct (user_by_discord_id s d) as [[k u]|] eqn:Hu.
  - intros [= -> -> ->]. rewrite Hu.
    apply user_by_discord_id_Some in Hu as [Hk Hd]. done.
  - unfold_bind.
    destruct (insert_user (new_User d n) s) as [[k s1]|e] eqn:Hins; [|done].
    intros [= -> <- ->]. apply insert_user_inv in Hins as (_ & Hfresh & ->). simpl.
    split; [by rewrite lookup_insert_eq|]. split; [done|].
    destruct (user_by_discord_id (set_users s _) d) as [[k' u']|] eqn:Hu'.
    + apply user_by_discord_id_Some in Hu' as [Hk' Hd']. simpl in Hk'.
      destruct (decide (k' = uid)) as [->|Hne].
      * rewrite lookup_insert_eq in Hk'. by injection Hk' as <-.
      * rewrite lookup_insert_ne in Hk' by done.
        by destruct (user_by_discord_id_None s d k' u' Hu Hk').
    + exfalso.
      destruct (user_by_discord_id_complete (set_users s (<[uid := new_User d n]> (users s)))
                  d uid (new_User d n)) as [x Hx]; [|done|congruence].
      simpl. by rewrite lookup_insert_eq.
Qed.

(** X8. [get_or_create_user] of the older bot hands out an object that has
    left its session. Inside an application context, a discord id that has a
    row gets that row as it was loaded, and nothing is written; a discord id
    that has none gets a new row, with the asked name and no coins, under a
    key that was free, and the object that comes back is expired: reading
    [id] or [coins] from it raises. A second call finds the new row and
    returns it as loaded. Outside an application context the call raises and
    nothing is written. *)
Theorem get_or_create_user_hands_out_detached author display_name (s : Store) :
  let r := Legacy.get_or_create_user env author display_name s in
  (current_app env = false -> Py.raises r.1 = true /\ r.2 = s)
  /\ (current_app env = true ->
      (forall uid u, user_by_discord_id s author = Some (uid, u) ->
         r = (Returned (Legacy.Loaded uid u), s) /\ users s !! uid = Some u)
      /\ (user_by_discord_id s author = None ->
          exists k,
            users s !! k = None
            /\ r.1 = Returned Legacy.Expired
            /\ r.2 = set_users s (<[k := new_User author display_name]> (users s))
            /\ (forall o, r.1 = Returned o ->
                  Legacy.id_of o = Raised DetachedInstanceError
                  /\ Legacy.coins_of o = Raised DetachedInstanceError)
            /\ Legacy.get_or_create_user env author display_name r.2
               = (Returned (Legacy.Loaded k (new_User author display_name)), r.2))).
Proof.
  cbv zeta. unfold Legacy.get_or_create_user, Legacy.app_context.
  destruct (current_app env); (split; [done|]); [|done]. intros _. split.
  - intros uid u Hu. rewrite Hu. split; [done|].
    by apply user_by_discord_id_Some in Hu as [Hk _].
  - intros Hu. rewrite Hu, insert_new_user. cbn [fst snd].
    exists (next_key (users s)). split; [apply next_key_fresh|].
    split; [done|]. split; [done|]. split; [by intros o [= <-]|].
    pose proof (find_or_add_is_stable author display_name display_name s
                  (next_key (users s)) (new_User author display_name)
                  (set_users s (<[next_key (users s) := new_User author display_name]>
                                  (users s)))) as Hst.
    unfold Slash.find_or_add in Hst. rewrite Hu, insert_new_user in Hst.
    destruct (Hst eq_refl) as (_ & _ & Hagain).
    destruct (user_by_discord_id (set_users s _) author) as [[k' u']|].
    + by injection Hagain as -> ->.
    + exfalso. rewrite insert_new_user in Hagain. unfold_bind.
      injection Hagain as Hk _.
      pose proof (next_key_fresh
                    (<[next_key (users s) := new_User author display_name]> (users s)))
        as Hfresh.
      simpl in Hk. rewrite Hk, lookup_insert_eq in Hfresh. done.
Qed.

(** [buy_command], the successful case in full. *)
Lemma buy_command_success now buyer item_id quantity (s : Store) rem pid :
  (Slash.buy_command env now buyer item_id quantity s).1
  = Slash.PurchaseSuccessful rem pid ->
  app env = true /\ 0 < quantity
  /\ exists uid user item,
       user_by_discord_id s buyer = Some (uid, user)
       /\ items s !! item_id = Some item /\ is_available item = true
       /\ price item * quantity <= coins user.
Proof.
  unfold Slash.buy_command.
  destruct (app env); [|done]. simpl.
  destruct (quantity <=? 0) eqn:Hq; [done|]. apply Z.leb_gt in Hq.
  destruct (user_by_discord_id s buyer) as [[uid user]|]; [|done].
  destruct (items s !! item_id) as [item|]; [|done].
  destruct (is_available item) eqn:Hav; [|done]. simpl.
  destruct (coins user <? price item * quantity) eqn:Hc; [done|]. apply Z.ltb_ge in Hc.
  intros _. split; [done|]. split; [done|]. exists uid, user, item. repeat split; done.
Qed.

(** X9. A buy that reports success was made by a registered buyer for an
    available item with a positive quantity the buyer could afford; it takes
    exactly price times quantity from the buyer, reports the balance that is
    left, changes no other balance, and adds one purchase, [pending], with
    that total cost, under a key that was free. *)
Theorem buy_debits_price_times_quantity now buyer item_id quantity (s : Store)
    rem pid :
  let r := Slash.buy_command env now buyer item_id quantity s in
  r.1 = Slash.PurchaseSuccessful rem pid ->
  exists uid user item,
    user_by_discord_id s buyer = Some (uid, user)
    /\ items s !! item_id = Some item /\ is_available item = true
    /\ 0 < quantity
    /\ balance_of r.2 uid = balance_of s uid - price item * quantity
    /\ rem = balance_of r.2 uid /\ 0 <= rem
    /\ (forall x, x <> uid -> balance_of r.2 x = balance_of s x)
    /\ purchases s !! pid = None
    /\ purchases r.2
       = <[pid := new_Purchase uid item_id quantity (price item * quantity) "pending"]>
           (purchases s).
Proof.
  intros r Hr. subst r.
  destruct (buy_command_success _ _ _ _ _ _ _ Hr)
    as (_ & Hq & uid & user & item & Hu & Hi & Hav & _).
  destruct (buy_command_cases env now buyer item_id quantity s)
    as [[_ H]|(uid' & user' & item' & pid' & Hu' & Hi' & _ & Hnn & Hr' & Hf & Hus & Hp & _)].
  { by destruct (H rem pid). }
  cbv zeta in *. rewrite Hr' in Hr. injection Hr as <- <-.
  assert (uid' = uid /\ user' = user) as [-> ->] by (split; congruence).
  assert (item' = item) as -> by congruence.
  apply user_by_discord_id_Some in Hu' as [Hk _].
  exists uid, user, item. split; [done|]. split; [done|]. split; [done|]. split; [done|].
  assert (balance_of s uid = coins user) as Hb by (unfold balance_of; by rewrite Hk).
  rewrite (balance_of_insert s _ uid _ uid Hus), decide_True, Hb by done. simpl.
  split; [done|]. split; [done|]. split; [done|]. split; [|by split].
  intros x Hx. by rewrite (balance_of_insert s _ uid _ x Hus), decide_False.
Qed.

Lemma gift_command_guards now giver giver_name recipient recipient_name bot amt msg
    (s : Store) rem gid :
  (Slash.gift_command env now giver giver_name recipient recipient_name bot amt msg s).1
  = Slash.GiftSent rem gid ->
  app env = true /\ 0 < amt /\ recipient <> giver /\ bot = false.
Proof.
  unfold Slash.gift_command.
  destruct (app env); [|done]. simpl.
  destruct (amt <=? 0) eqn:Ha; [done|]. apply Z.leb_gt in Ha.
  destruct (String.eqb recipient giver) eqn:Hself; [done|].
  apply String.eqb_neq in Hself.
  destruct bot; [done|]. done.
Qed.

(** X10. A gift that reports success moves exactly the amount: the giver's
    balance goes down by it, the recipient's goes up by it, and no other
    balance changes. It is sent only for a positive amount, to somebody else,
    who is not a bot, by a giver who could afford it. *)
Theorem gift_moves_exactly_the_amount now giver giver_name recipient recipient_name
    bot amt msg (s : Store) rem gid :
  let r := Slash.gift_command env now giver giver_name recipient recipient_name
             bot amt msg s in
  r.1 = Slash.GiftSent rem gid ->
  0 < amt /\ recipient <> giver /\ bot = false
  /\ exists sid rid,
       sid <> rid
       /\ (exists sender, user_by_discord_id s giver = Some (sid, sender)
                          /\ amt <= coins sender)
       /\ balance_of r.2 sid = balance_of s sid - amt
       /\ balance_of r.2 rid = balance_of s rid + amt
       /\ (forall x, x <> sid -> x <> rid -> balance_of r.2 x = balance_of s x).
Proof.
  intros r Hr. subst r.
  destruct (gift_command_guards _ _ _ _ _ _ _ _ _ _ _ Hr) as (_ & Ha & Hne & Hbot).
  split; [done|]. split; [done|]. split; [done|].
  destruct (gift_command_cases env now giver giver_name recipient recipient_name
              bot amt msg s)
    as [[_ H]|(sid & sender & rid & gid' & t1 & t2 & rem' & H)].
  { by destruct (H rem gid). }
  destruct H as (Hs & _ & Hc & Hsr & _ & _ & _ & [_ Hacc] & _ & Ht1 & Ha1 & Ht2 & Ha2 & _).
  exists sid, rid. split; [done|]. split; [by exists sender|].
  assert (forall x, ledger_of x [t1; t2]
                    = (if decide (sid = x) then [t1] else [])
                      ++ (if decide (rid = x) then [t2] else [])) as Hl.
  { intros x. change [t1; t2] with ([t1] ++ [t2]).
    by rewrite ledger_of_app, !ledger_of_single, Ht1, Ht2. }
  split; [|split].
  - specialize (Hacc sid). rewrite Hl in Hacc.
    rewrite decide_True, decide_False in Hacc by done.
    destruct Hacc as [[? _]|(t & [= <-] & Ht)]; [done|]. lia.
  - specialize (Hacc rid). rewrite Hl in Hacc.
    rewrite decide_False, decide_True in Hacc by done.
    destruct Hacc as [[? _]|(t & [= <-] & Ht)]; [done|]. lia.
  - intros x Hx1 Hx2. specialize (Hacc x). rewrite Hl in Hacc.
    rewrite !decide_False in Hacc by done.
    destruct Hacc as [[_ ?]|(t & ? & _)]; done.
Qed.

End CommandsMore.

(** * Earning coins *)

Section Earning.
Context {W : Type} (env : Env W).

Lemma find_or_add_returns author display_name (s : Store) :
  exists uid user s1,
    Slash.find_or_add author display_name s = Returned (uid, user, s1)
    /\ transactions s1 = transactions s.
Proof.
  unfold Slash.find_or_add.
  destruct (user_by_discord_id s author) as [[k u]|]; [by eexists _, _, _|].
  unfold insert_user, write_user. simpl. unfold_bind. simpl. by eexists _, _, _.
Qed.

(** [process_coin_earning] with the app set: the author's row is there
    afterwards, and either nothing else was written or one [earn] entry was
    added with the capped amount. *)
Lemma process_coin_earning_cases cfg now author display_name channel (s : Store) :
  app env = true ->
  let s' := Slash.process_coin_earning env cfg now author display_name channel s in
  exists uid user s1,
    Slash.find_or_add author display_name s = Returned (uid, user, s1)
    /\ let today := Slash.sum_earned_since uid (Slash.today_start now) (transactions s) in
       let amt := Z.min (Slash.coins_per_message cfg) (Slash.max_daily_coins cfg - today) in
       (s' = s1)
       \/ (today < Slash.max_daily_coins cfg
           /\ (forall t, Slash.last_earn uid (transactions s) = Some t ->
                 Slash.message_cooldown cfg * Slash.microseconds <= now - t)
           /\ 0 <= coins user + amt
           /\ users s' = <[uid := set_coins (coins user + amt) user]> (users s1)
           /\ transactions s'
              = transactions s
                ++ [new_Transaction now uid "earn" amt
                      ("Earned from message in #" +:+ channel) None]).
Proof.
  intros Happ. cbv zeta. unfold Slash.process_coin_earning. rewrite Happ. cbn [negb].
  fold (Slash.find_or_add author display_name s).
  destruct (find_or_add_returns author display_name s)
    as (uid & user & s1 & Hg & Hlog).
  rewrite Hg. exists uid, user, s1. split; [done|]. cbn beta iota. rewrite Hlog.
  destruct (Slash.last_earn uid (transactions s)) as [t|] eqn:Hlast.
  - destruct (now - t <? _) eqn:Hcool; [by left|]. apply Z.ltb_ge in Hcool.
    destruct (_ <=? _) eqn:Hcap; [by left|]. apply Z.leb_gt in Hcap.
    unfold_bind.
    destruct (write_user uid _ s1) as [s2|e] eqn:H2; [|by left].
    destruct (insert_transaction _ s2) as [s3|e] eqn:H3; [|by left].
    right. apply write_user_inv in H2 as [Hnn ->].
    apply insert_transaction_inv in H3 as ->. simpl in *.
    rewrite Hlog. repeat split; try done. by intros t' [= <-].
  - destruct (_ <=? _) eqn:Hcap; [by left|]. apply Z.leb_gt in Hcap.
    unfold_bind.
    destruct (write_user uid _ s1) as [s2|e] eqn:H2; [|by left].
    destruct (insert_transaction _ s2) as [s3|e] eqn:H3; [|by left].
    right. apply write_user_inv in H2 as [Hnn ->].
    apply insert_transaction_inv in H3 as ->. simpl in *.
    rewrite Hlog. repeat split; done.
Qed.

Lemma sum_earned_since_app uid since (l1 l2 : list Transaction) :
  Slash.sum_earned_since uid since (l1 ++ l2)
  = Slash.sum_earned_since uid since l1 + Slash.sum_earned_since uid since l2.
Proof. unfold Slash.sum_earned_since. by rewrite List.filter_app, sum_amounts_app. Qed.

Lemma today_start_le now : Slash.today_start now <= now.
Proof.
  unfold Slash.today_start.
  assert (0 <= now mod Slash.day) by (apply Z.mod_pos_bound; by vm_compute).
  lia.
Qed.

(** X11. The daily cap holds: after a message has been processed, what a
    user has earned since the start of the day is at most [max_daily_coins],
    unless it was already above it, in which case it has not grown. *)
Theorem earnings_stay_under_the_daily_cap cfg now author display_name channel
    (s : Store) uid :
  let s' := Slash.process_coin_earning env cfg now author display_name channel s in
  Slash.sum_earned_since uid (Slash.today_start now) (transactions s')
  <= Z.max (Slash.max_daily_coins cfg)
       (Slash.sum_earned_since uid (Slash.today_start now) (transactions s)).
Proof.
  cbv zeta. destruct (app env) eqn:Happ.
  2: { unfold Slash.process_coin_earning. rewrite Happ. simpl. lia. }
  destruct (process_coin_earning_cases cfg now author display_name channel s Happ)
    as (uid0 & user & s1 & Hg & H). cbv zeta in H.
  destruct H as [->|(Hcap & _ & _ & _ & ->)].
  - destruct (find_or_add_returns author display_name s)
      as (uid' & user' & s1' & Hg' & Hlog).
    assert (s1' = s1) as -> by congruence. rewrite Hlog. lia.
  - rewrite sum_earned_since_app.
    unfold Slash.sum_earned_since at 2, Slash.is_earn_of, new_Transaction. simpl.
    destruct (decide (uid0 = uid)) as [->|Hne].
    + rewrite Z.eqb_refl. simpl.
      pose proof (today_start_le now) as Hle. apply Z.leb_le in Hle. rewrite Hle.
      simpl. lia.
    + apply Z.eqb_neq in Hne. rewrite Hne. simpl. lia.
Qed.

Lemma last_earn_latest uid (log : list Transaction) t :
  t ∈ log -> Slash.is_earn_of uid t = true ->
  exists m, Slash.last_earn uid log = Some m /\ created_at t <= m.
Proof.
  induction log as [|x log IH]; intros Hin He; [by apply elem_of_nil in Hin|].
  apply elem_of_cons in Hin as [<-|Hin]; simpl.
  - rewrite He. destruct (Slash.last_earn uid log) as [m|]; eexists; split; try done; lia.
  - destruct (IH Hin He) as (m & -> & Hm).
    destruct (Slash.is_earn_of uid x); eexists; split; try done; lia.
Qed.

(** X12. The cooldown holds: when a registered user has an [earn] entry that
    is younger than [message_cooldown] seconds, a message earns nothing and
    the store is left as it is. *)
Theorem cooldown_blocks_earning cfg now author display_name channel (s : Store)
    uid user t :
  user_by_discord_id s author = Some (uid, user) ->
  t ∈ transactions s ->
  Slash.is_earn_of uid t = true ->
  now - created_at t < Slash.message_cooldown cfg * Slash.microseconds ->
  Slash.process_coin_earning env cfg now author display_name channel s = s.
Proof.
  intros Hu Hin He Hyoung. unfold Slash.process_coin_earning.
  destruct (negb (app env)); [done|]. rewrite Hu.
  destruct (last_earn_latest uid (transactions s) t Hin He) as (m & -> & Hm).
  assert ((now - m <? Slash.message_cooldown cfg * Slash.microseconds) = true) as ->; [|done].
  apply Z.ltb_lt. lia.
Qed.

(** X13. The first message registers its author: once a message has been
    processed by a configured bot, the author has a user row, and an author
    who had none gets one that holds exactly what the message earned. *)
Theorem message_registers_author cfg now author display_name channel (s : Store) :
  app env = true ->
  let s' := Slash.process_coin_earning env cfg now author display_name channel s in
  exists uid user',
    user_by_discord_id s' author = Some (uid, user')
    /\ (user_by_discord_id s author = None ->
        users s !! uid = None /\ coins user' = ledger_sum s' uid - ledger_sum s uid).
Proof.
  intros Happ s'.
  destruct (process_coin_earning_cases cfg now author display_name channel s Happ)
    as (uid & user & s1 & Hg & H). cbv zeta in H. fold s' in H.
  pose proof (find_or_add_is_stable author display_name display_name s uid user s1 Hg)
    as (Hk & Hd & Hagain).
  assert (exists user', users s' !! uid = Some user' /\ discord_id user' = author
                        /\ coins user' = coins user + (ledger_sum s' uid - ledger_sum s1 uid))
    as (user' & Hk' & Hd' & Hc').
  { destruct H as [->|(_ & _ & _ & Hus & Hlog)].
    - exists user. split; [done|]. split; [done|]. lia.
    - eexists. rewrite Hus, lookup_insert_eq. split; [done|]. split; [done|]. simpl.
      destruct (find_or_add_returns author display_name s)
        as (uid' & user0 & s1' & Hg' & Hlog1).
      assert (s1' = s1) as -> by congruence.
      unfold ledger_sum. rewrite Hlog, Hlog1, ledger_of_app, sum_amounts_app.
      rewrite ledger_of_single. simpl. rewrite decide_True by done. simpl. lia. }
  assert (is_Some (user_by_discord_id s' author)) as [[k u] Hfound]
    by (by eapply user_by_discord_id_complete).
  pose proof (user_by_discord_id_Some _ _ _ _ Hfound) as [Hku Hdu].
  destruct (user_by_discord_id s author) as [[k0 u0]|] eqn:Hs.
  - exists k, u. by split.
  - (* a new author: every other row of [s'] is a row of [s] *)
    unfold Slash.find_or_add in Hg. rewrite Hs in Hg. unfold_bind.
    destruct (insert_user (new_User author display_name) s) as [[k1 s2]|] eqn:Hins; [|done].
    injection Hg as -> <- ->. apply insert_user_inv in Hins as (_ & Hfresh & ->).
    assert (k = uid) as ->.
    { destruct (decide (k = uid)) as [|Hne]; [done|]. exfalso.
      assert (users s !! k = Some u) as Hold.
      { destruct H as [->|(_ & _ & _ & Hus & _)].
        - simpl in Hku. by rewrite lookup_insert_ne in Hku.
        - rewrite Hus in Hku. simpl in Hku. by rewrite !lookup_insert_ne in Hku. }
      by destruct (user_by_discord_id_None s author k u Hs Hold). }
    exists uid, u. split; [done|]. intros _. split; [done|].
    assert (u = user') as -> by congruence. rewrite Hc'.
    unfold ledger_sum. simpl. lia.
Qed.

End Earning.

(** * More of the remote-execution client *)

Section ClientMore.
Context {W : Type} (env : Env W).

Import MinecraftIntegration MinecraftHelpers.

Lemma execute_command_without_password w command h p :
  default_rcon_password env = "" ->
  execute_command env w command h p None = (Returned false, w).
Proof. intros Hpw. unfold execute_command, str_or. simpl. by rewrite Hpw. Qed.

(** X14. A bot without an RCON password delivers no command: a purchase of
    an item that asks for a command is settled as [failed], and the game
    server is not contacted, the world is as the role step left it. *)
Theorem no_password_no_delivery k p row (s : Sys W) item user :
  default_rcon_password env = "" ->
  purchases (db s) !! k = Some row ->
  items (db s) !! p_item_id p = Some item ->
  users (db s) !! p_user_id p = Some user ->
  Slash.wants_command item = true ->
  let s' := Slash.process_purchase env (k, p) s in
  committed_status (purchases (db s')) k = Some "failed"
  /\ world s' = after_role env (world s) user item.
Proof.
  intros Hpw Hrow Hi Hu Hc s'.
  destruct (process_purchase_found env k p s item user Hi Hu)
    as (ps1 & ps2 & Heq & _ & Hk & _).
  subst s'. rewrite Heq. cbn [db world trace set_purchases purchases].
  unfold committed_status. rewrite Hk, Hrow.
  unfold settled_row, all_succeeded, command_succeeded, after_fulfill.
  rewrite Hc, execute_command_without_password by done. simpl.
  by rewrite andb_false_r.
Qed.

(** X15. A status answer that arrives within the timeout is reported as
    online with the numbers of the server, for the host and port that were
    asked; a host that is absent or empty and a port that is absent or 0 are
    replaced by the configured defaults. *)
Theorem status_in_time_is_online w host_arg port_arg t st :
  let h := str_or host_arg (default_host env) in
  let p := int_or port_arg (default_port env) in
  let address := h +:+ ":" +:+ pretty p in
  Py.raises (lookup env w address).1 = false ->
  elapsed (server_status env (lookup env w address).2 address).1 = Some t ->
  (t <= status_timeout)%N ->
  result (server_status env (lookup env w address).2 address).1 = Returned st ->
  (get_server_status env w host_arg port_arg).1
  = Returned (mkStatusDict true (Some (r_players_online st)) (Some (r_max_players st))
                (Some (r_version st)) (Some (r_latency st)) None h p)
  /\ (host_arg = None \/ host_arg = Some "" -> h = default_host env)
  /\ (port_arg = None \/ port_arg = Some 0 -> p = default_port env).
Proof.
  intros h p address Hl He Ht Hr. split; [|split].
  - unfold get_server_status, get_server_status_try. fold h p address.
    destruct (lookup env w address) as [[[]|e] w1]; [|done]. simpl in *.
    destruct (server_status env w1 address) as [c w2]. simpl in *.
    by rewrite (wait_for_in_time c status_timeout t st He Ht Hr).
  - by intros [->| ->].
  - by intros [->| ->].
Qed.

Lemma run_commands_spec commands h p pw (results : gmap string bool) w :
  exists final,
    (run_commands env commands h p pw results w).1 = Returned final
    /\ forall c, is_Some (final !! c) <-> c ∈ commands \/ is_Some (results !! c).
Proof.
  revert results w. induction commands as [|command rest IH]; intros results w.
  - exists results. split; [done|]. intros c. split; [by right|].
    intros [Hin|?]; [by apply elem_of_nil in Hin|done].
  - simpl.
    destruct (execute_command_returns env w command h p pw) as [b Hb].
    destruct (execute_command env w command h p pw) as [r w']. simpl in Hb. subst r.
    destruct (IH (<[command := b]> results) w') as (final & Hf & Hdom).
    exists final. split; [done|]. intros c. rewrite Hdom, elem_of_cons.
    destruct (decide (c = command)) as [->|Hne].
    + rewrite lookup_insert_eq. split; [by left; left|by right; eexists].
    + rewrite lookup_insert_ne by done. split; [intros [?|?]; auto|].
      intros [[?|?]|?]; done || auto.
Qed.

(** X16. [execute_multiple_commands] never raises, and the dictionary it
    returns has an entry for a command exactly when the command is in the
    list. *)
Theorem every_command_gets_a_result w (commands : list string) h p pw :
  exists results,
    (execute_multiple_commands env w commands h p pw).1 = Returned results
    /\ forall c, is_Some (results !! c) <-> c ∈ commands.
Proof.
  unfold execute_multiple_commands.
  destruct (run_commands_spec commands h p pw ∅ w) as (final & Hf & Hdom).
  exists final. split; [done|]. intros c. rewrite Hdom, lookup_empty.
  split; [intros [?|[x Hx]]; done|by left].
Qed.

(** X17. [test_connection] reports no error exactly when both tests
    succeeded; a status query that fails (no answer in time, or an exception)
    gives [server_status = false], and an RCON session that fails gives
    [rcon_connection = false]. *)
Theorem test_connection_reports_errors w host_arg port_arg rh rp rpw :
  let r := (test_connection env w host_arg port_arg rh rp rpw).1 in
  (errors r = [] <-> server_status_ok r = true /\ rcon_connection r = true)
  /\ (status_query_fails env w host_arg port_arg -> server_status_ok r = false)
  /\ (rcon_fails env (get_server_status env w host_arg port_arg).2 "list" rh rp rpw ->
      rcon_connection r = false).
Proof.
  cbv zeta. unfold test_connection.
  destruct (get_server_status_returns env w host_arg port_arg) as [d Hd].
  pose proof (get_server_status_offline env w host_arg port_arg d) as Hoff.
  destruct (get_server_status env w host_arg port_arg) as [st w1]. simpl in *. subst st.
  destruct (execute_command_returns env w1 "list" rh rp rpw) as [b Hb].
  pose proof (execute_command_false env w1 "list" rh rp rpw) as Hfalse.
  destruct (execute_command env w1 "list" rh rp rpw) as [rc w2]. simpl in *. subst rc.
  simpl. split; [|split].
  - destruct (online d), b; simpl; split; try done; by intros [? ?].
  - intros Hf. by apply Hoff.
  - intros Hf. specialize (Hfalse Hf). by injection Hfalse.
Qed.

End ClientMore.

(** * More of the administrative API *)

Section ApiMore.
Context {W : Type} (env : Env W).
Context (format : string -> string -> outcome string).

(** X18. The administrative adjustment of a user that does not exist is
    answered with the generic internal server error and writes nothing. For
    a user that exists, when the new balance is not negative and the new
    balance and the amount fit the 64 bits of an INTEGER column, the answer
    carries the new balance, the balance is the old one plus the amount, and
    one entry is added whose type is [admin_add] for a positive amount and
    [admin_remove] otherwise, zero included. In every other case (a new
    balance below zero, a new balance or an amount outside the column) the
    answer is the generic internal server error and nothing is written. *)
Theorem adjustment_outcomes now user_id amt descr (s : Store) :
  let r := Api.update_user_coins now user_id amt descr s in
  (users s !! user_id = None -> r = (Api.internal_server_error, s))
  /\ (forall user, users s !! user_id = Some user ->
        0 <= coins user + amt <= integer_max ->
        integer_min <= amt <= integer_max ->
        r.1 = (200, Api.CoinsUpdated (coins user + amt))
        /\ balance_of r.2 user_id = balance_of s user_id + amt
        /\ transactions r.2
           = transactions s
             ++ [new_Transaction now user_id
                   (if 0 <? amt then "admin_add" else "admin_remove") amt descr None])
  /\ (forall user, users s !! user_id = Some user ->
        coins user + amt < 0 \/ integer_max < coins user + amt
        \/ amt < integer_min \/ integer_max < amt ->
        r = (Api.internal_server_error, s)).
Proof.
  cbv zeta. unfold Api.update_user_coins. split; [|split].
  - intros Hu. by rewrite Hu.
  - intros user Hu Hnn Hfit. rewrite Hu. unfold_bind.
    rewrite write_user_ok by done.
    rewrite insert_transaction_ok; [|done|by destruct (0 <? amt)].
    cbn [fst snd set_transactions set_users transactions users].
    split; [done|]. split; [|done].
    unfold balance_of; simpl. by rewrite lookup_insert_eq, Hu.
  - intros user Hu Hbad. rewrite Hu. unfold_bind.
    destruct (decide (integer_max < coins user + amt)) as [Hbig|Hsmall].
    { by rewrite write_user_overflow. }
    destruct (write_user user_id _ s) as [s1|e] eqn:Hw; [|done].
    apply write_user_inv in Hw as [Hnn ->]. simpl in Hnn.
    destruct (insert_transaction _ _) as [s2|e] eqn:Ht; [|done].
    exfalso. unfold insert_transaction in Ht.
    destruct (fits_integer _) eqn:Hf; [|done].
    apply fits_integer_spec in Hf. simpl in Hf. lia.
Qed.

(** X19. The manual fulfilment changes at most one thing: a purchase that is
    [pending] becomes [fulfilled], with the command and the time recorded,
    and only then the answer is 200. In every other case (the purchase is
    not pending, the buyer or the item is gone, the command cannot be
    formatted, or the command fails) every purchase is exactly as before: a
    failed command leaves the purchase [pending]. Users, items and the ledger
    are never written. *)
Theorem manual_fulfilment_only_fulfils purchase_id (s : Sys W) :
  let r := ApiRoutes.fulfill_purchase env format purchase_id s in
  ledger_untouched (db s) (db r.2)
  /\ (forall j, j <> purchase_id -> purchases (db r.2) !! j = purchases (db s) !! j)
  /\ ((r.1.1 <> 200 /\ purchases (db r.2) = purchases (db s))
      \/ (r.1.1 = 200
          /\ exists row c,
               purchases (db s) !! purchase_id = Some row
               /\ status row = "pending"
               /\ purchases (db r.2) !! purchase_id
                  = Some (set_minecraft_command (Some c)
                            (set_fulfilled_at
                               (Some (utcnow env (world r.2)))
                               (set_status "fulfilled" row))))).
Proof.
  cbv zeta. unfold ApiRoutes.fulfill_purchase.
  destruct (purchases (db s) !! purchase_id) as [row|] eqn:Hrow;
    [|split; [done|]; split; [done|]; by left].
  destruct (String.eqb (status row) "pending") eqn:Hst; simpl;
    [|split; [done|]; split; [done|]; by left].
  apply String.eqb_eq in Hst.
  destruct (users (db s) !! p_user_id row) as [user|];
    [|split; [done|]; split; [done|]; by left].
  destruct (items (db s) !! p_item_id row) as [item|];
    [|split; [done|]; split; [done|]; by left].
  destruct (Legacy.format_command format item user) as [c|e];
    [|split; [done|]; split; [done|]; by left].
  destruct (MinecraftIntegration.execute_command env (world s) c None None None)
    as [[[]|e] w]; simpl;
    try (split; [done|]; split; [done|]; by left).
  split; [done|]. split.
  - intros j Hj. by rewrite lookup_alter_ne.
  - right. split; [done|]. exists row, c. split; [done|]. split; [done|].
    by rewrite lookup_alter_eq, Hrow.
Qed.

(** X20. A change of an item never reaches a purchase: [update_item] writes
    neither purchases, nor users, nor the ledger, nor any other item, so the
    total cost of every purchase stays what it was when the price changes.
    When it answers 200 the stored item has a positive price; otherwise the
    store is as before. With the [Item] class of [database.py], whose
    [is_active] cannot be read, it always answers 500 and writes nothing. *)
Theorem update_item_keeps_purchases (is_active : Item -> outcome bool) item_id d
    (s : Store) :
  let r := ApiRoutes.update_item is_active item_id d s in
  purchases r.2 = purchases s /\ users r.2 = users s
  /\ transactions r.2 = transactions s
  /\ (forall j, j <> item_id -> items r.2 !! j = items s !! j)
  /\ (r.1.1 = 200 ->
      exists item', items r.2 !! item_id = Some item' /\ 0 < price item')
  /\ (r.1.1 <> 200 -> r.2 = s)
  /\ ApiRoutes.update_item Legacy.database_is_active item_id d s
     = (ApiRoutes.internal_server_error, s).
Proof.
  cbv zeta. unfold ApiRoutes.update_item.
  assert (forall x : Store, (forall j, j <> item_id -> items x !! j = items x !! j)) as Hid
    by done.
  destruct (items s !! item_id) as [item|]; [|by repeat split].
  split; [|split; [|split; [|split; [|split; [|split; [|done]]]]]].
  all: destruct (is_active item) as [b|e]; try done.
  all: destruct (ApiRoutes.check_item (ApiRoutes.apply_patch d item)) eqn:Hc; try done.
  - intros j Hj. simpl. by rewrite lookup_insert_ne.
  - intros _. simpl. rewrite lookup_insert_eq. eexists. split; [done|].
    unfold ApiRoutes.check_item in Hc. apply andb_true_iff in Hc as [Hc _].
    by apply Z.ltb_lt.
Qed.

Lemma purchase_count_zero item_id (s : Store) k p :
  ApiRoutes.purchase_count item_id s = O ->
  purchases s !! k = Some p -> p_item_id p <> item_id.
Proof.
  unfold ApiRoutes.purchase_count. intros Hcount Hk Heq.
  apply length_zero_iff_nil in Hcount.
  assert (In (k, p) (List.filter (fun kv => p_item_id kv.2 =? item_id)
                       (map_to_list (purchases s)))) as Hin.
  { apply List.filter_In. split.
    - by apply list_elem_of_In, elem_of_map_to_list.
    - simpl. by apply Z.eqb_eq. }
  by rewrite Hcount in Hin.
Qed.

(** X21. [delete_item] never removes an item that a purchase refers to: the
    item of every purchase is after the call what it was before, the
    purchases themselves are untouched, and an item with purchase history is
    left exactly as it was, still available. *)
Theorem delete_item_keeps_purchased_items item_id (s : Store) :
  let r := ApiRoutes.delete_item item_id s in
  purchases r.2 = purchases s
  /\ (forall k p, purchases s !! k = Some p ->
        items r.2 !! p_item_id p = items s !! p_item_id p)
  /\ (forall j, j <> item_id -> items r.2 !! j = items s !! j)
  /\ ((0 < ApiRoutes.purchase_count item_id s)%nat -> r.2 = s).
Proof.
  cbv zeta. unfold ApiRoutes.delete_item.
  destruct (items s !! item_id) as [item|]; [|by repeat split].
  destruct (0 <? ApiRoutes.purchase_count item_id s)%nat eqn:Hc; [by repeat split|].
  apply Nat.ltb_ge in Hc. simpl. split; [done|]. split; [|split].
  - intros k p Hk. rewrite lookup_delete_ne; [done|].
    intros Heq. eapply (purchase_count_zero item_id s k p); [lia|done|done].
  - intros j Hj. by rewrite lookup_delete_ne.
  - lia.
Qed.

End ApiMore.


(** * Sequences of operations *)

Section Sequences.
Context {W : Type} (env : Env W) (is_active : Item -> outcome bool).

(** X22. The ledger invariants survive sequences of operations. From a store
    whose balances equal the ledger sums and are not negative, every sequence
    of earnings, buys and gifts of the slash bot and of adjustments of the
    API, each of which may succeed or be refused, ends in such a store; in
    particular every store these operations reach from the empty one is such
    a store. That no balance is negative survives the operations of the
    older bot as well, which never write a balance. *)
Theorem sequences_keep_the_ledger_sound (ops : list Operation) (s : Store) :
  ledger_consistent s -> non_negative s ->
  non_negative (run_all env is_active ops s)
  /\ non_negative (run_all env is_active ops empty_store)
  /\ (Forall (fun op => of_older_bot op = false) ops ->
      ledger_consistent (run_all env is_active ops s)
      /\ ledger_consistent (run_all env is_active ops empty_store)).
Proof.
  assert (forall s0, non_negative s0 -> non_negative (run_all env is_active ops s0))
    as Hgen.
  { unfold run_all. induction ops as [|op ops IH]; intros s0 Hn; [done|].
    simpl. apply IH. eapply checked_rows_non_negative; [|exact Hn].
    apply run_checked. }
  intros Hc Hn. split; [by apply Hgen|]. split.
  - apply Hgen. intros uid u Hu. simpl in Hu. by rewrite lookup_empty in Hu.
  - intros Hops. split; apply run_all_consistent; done.
Qed.

End Sequences.

(** * The older bot and the ledger *)

Section OlderBotLedger.
Context {W : Type} (env : Env W) (is_active : Item -> outcome bool).

Lemma ledger_sum_snoc (s s' : Store) t uid :
  transactions s' = transactions s ++ [t] ->
  ledger_sum s' uid
  = ledger_sum s uid + (if decide (t_user_id t = uid) then amount t else 0).
Proof.
  intros Hlog. unfold ledger_sum.
  rewrite Hlog, ledger_of_app, sum_amounts_app, ledger_of_single.
  destruct (decide (t_user_id t = uid)); simpl; lia.
Qed.

(** X26. The older bot writes no balance. Whatever [process_coin_earning]
    and [buy] of the older bot do, every user row that exists stays as it
    is, and a row that is added holds no coins; the ledger grows by at most
    one entry. When an entry is committed, the balance of its user is what
    it was while the sum of the user's entries has moved by the amount: the
    two part ways by every award and every buy. Outside an application
    context nothing is written at all. *)
Theorem older_bot_never_writes_a_balance (op : Operation) (s : Store) :
  of_older_bot op = true ->
  let s' := run env is_active op s in
  (forall k u, users s !! k = Some u -> users s' !! k = Some u)
  /\ (forall k u, users s' !! k = Some u -> users s !! k = Some u \/ coins u = 0)
  /\ (transactions s' = transactions s
      \/ exists t,
           transactions s' = transactions s ++ [t]
           /\ balance_of s' (t_user_id t) = balance_of s (t_user_id t)
           /\ ledger_sum s' (t_user_id t) = ledger_sum s (t_user_id t) + amount t)
  /\ (current_app env = false -> s' = s).
Proof.
  intros Hop s'.
  assert (forall author display_name,
            let s0 := (Legacy.get_or_create_user env author display_name s).2 in
            (forall k u, users s !! k = Some u -> users s0 !! k = Some u)
            /\ (forall k u, users s0 !! k = Some u -> users s !! k = Some u \/ coins u = 0)
            /\ transactions s0 = transactions s
            /\ (current_app env = false -> s0 = s)) as Hcreate.
  { intros author display_name.
    destruct (legacy_get_or_create_store env author display_name s)
      as (_ & _ & _ & _ & Hlog & Hkept & _).
    destruct (legacy_get_or_create_cases env author display_name s)
      as [(Hctx & _ & H)|[(Hctx & uid & u & _ & H)|(Hctx & _ & H)]]; cbv zeta in *;
      (split; [done|]); rewrite H; cbn [snd]; (split; [|split; [done|]]);
      try (intros k v Hk; by left); try done; try congruence.
    intros k v Hk. simpl in Hk.
    destruct (decide (k = next_key (users s))) as [->|Hne].
    - rewrite lookup_insert_eq in Hk. injection Hk as <-. by right.
    - rewrite lookup_insert_ne in Hk by done. by left. }
  assert (forall (s1 : Store) t,
            users s1 = users s -> transactions s1 = transactions s ++ [t] ->
            balance_of s1 (t_user_id t) = balance_of s (t_user_id t)
            /\ ledger_sum s1 (t_user_id t) = ledger_sum s (t_user_id t) + amount t)
    as Hentry.
  { intros s1 t Hus Hlog. split; [unfold balance_of; by rewrite Hus|].
    rewrite (ledger_sum_snoc s s1 t _ Hlog). by rewrite decide_True. }
  destruct op as [| | | |cfg ts now author display_name
                  |now author display_name item_id quantity];
    try discriminate Hop; subst s'; cbn [run].
  - destruct (Hcreate author display_name) as (H1 & H2 & H3 & H4).
    destruct (legacy_earning_cases env cfg now author display_name ts s)
      as [H|[H|(uid & u & amt & Hctx & _ & _ & _ & H)]]; cbv zeta in *; rewrite H.
    + split; [done|]. split; [by left|]. split; [by left|done].
    + split; [done|]. split; [done|]. split; [by left|done].
    + split; [done|]. split; [by left|]. split; [|congruence].
      right. eexists. split; [reflexivity|]. by apply Hentry.
  - destruct (Hcreate author display_name) as (H1 & H2 & H3 & H4).
    destruct (legacy_buy_cases env is_active now author display_name item_id quantity s)
      as [[H _]|(uid & u & item & pid & Hctx & _ & _ & _ & _ & _ & _ & Hus & _ & Hlog)];
      cbv zeta in *.
    + rewrite H. split; [done|]. split; [done|]. split; [by left|done].
    + split; [by rewrite Hus|]. split; [rewrite Hus; by left|].
      split; [|congruence]. right. eexists. split; [exact Hlog|]. by apply Hentry.
Qed.

End OlderBotLedger.


(** * More scenarios, evaluated *)

Section EvaluatedMore.

Import Scenarios MoreScenarios.

Lemma selected_purchases_are_settled_witness :
  exists row',
    purchases (db (slash_sweep Demo.rcon_down)) !! 1 = Some row'
    /\ (status row' = "fulfilled" \/ status row' = "failed").
Proof.
  apply (selected_purchases_are_settled Demo.rcon_down queue_booted 1 vip_purchase
           ltac:(reflexivity) ltac:(reflexivity) ltac:(reflexivity)).
Defined.

Lemma empty_recipe_is_fulfilled_witness :
  committed_status
    (purchases (db (Slash.process_purchase Demo.rcon_down (1, badge_purchase) badge_queue)))
    1 = Some "fulfilled".
Proof.
  apply (empty_recipe_is_fulfilled Demo.rcon_down 1 badge_purchase badge_purchase
           badge_queue badge Demo.alice
           ltac:(reflexivity) ltac:(reflexivity) ltac:(reflexivity)
           ltac:(reflexivity) ltac:(reflexivity)).
Defined.

Lemma flags_record_what_succeeded_witness :
  exists row',
    purchases (db (Slash.process_purchase Demo.rcon_down (1, vip_purchase) queue_booted))
      !! 1 = Some row'
    /\ discord_role_assigned row' = true
    /\ minecraft_command row' = None.
Proof.
  destruct (flags_record_what_succeeded Demo.rcon_down 1 vip_purchase vip_purchase
              queue_booted Demo.vip Demo.alice
              ltac:(reflexivity) ltac:(reflexivity) ltac:(reflexivity))
    as (row' & H1 & H2 & H3).
  exists row'. split; [exact H1|]. split; [exact H2|exact H3].
Defined.

Lemma legacy_found_purchases_are_settled_witness :
  exists row',
    purchases (db (legacy_sweep Demo.rcon_down)) !! 2 = Some row'
    /\ (status row' = "fulfilled" \/ status row' = "failed").
Proof.
  apply (legacy_found_purchases_are_settled Demo.rcon_down Demo.format_username
           queue_booted 2 (new_Purchase 1 1 1 50 "pending")
           ltac:(reflexivity) ltac:(reflexivity) ltac:(reflexivity)
           ltac:(by eexists) ltac:(by eexists)).
Defined.

(** Carol writes for the first time: the older bot adds her row and gets an
    expired object back, so her first message earns nothing; her second
    message finds the row and earns a coin that her row never sees. Outside
    an application context nothing happens at all. *)
Example carol_and_the_older_bot :
  let first := Legacy.process_coin_earning Demo.all_up legacy_defaults 5 "333" "Carol"
                 ∅ Demo.shop in
  let second := Legacy.process_coin_earning Demo.all_up legacy_defaults 90000000
                  "333" "Carol" first.1 first.2 in
  (Legacy.get_or_create_user Demo.all_up "333" "Carol" Demo.shop).1
  = Returned Legacy.Expired
  /\ users first.2 !! 3 = Some (new_User "333" "Carol")
  /\ transactions first.2 = transactions Demo.shop
  /\ first.1 !! "333" = Some 5
  /\ balance_of second.2 3 = 0 /\ ledger_sum second.2 3 = 1
  /\ Legacy.process_coin_earning outside_context legacy_defaults 5 "333" "Carol"
       ∅ Demo.shop = (<["333" := 5]> ∅, Demo.shop).
Proof. vm_compute. repeat split. Qed.

Lemma buy_debits_price_times_quantity_witness :
  exists uid user item,
    user_by_discord_id Demo.shop "111" = Some (uid, user)
    /\ items Demo.shop !! 1 = Some item
    /\ balance_of (Slash.buy_command Demo.all_up 5 "111" 1 2 Demo.shop).2 uid
       = balance_of Demo.shop uid - price item * 2.
Proof.
  destruct (buy_debits_price_times_quantity Demo.all_up 5 "111" 1 2 Demo.shop 0 1
              ltac:(vm_compute; reflexivity))
    as (uid & user & item & H1 & H2 & _ & _ & H5 & _).
  exists uid, user, item. split; [exact H1|]. split; [exact H2|exact H5].
Defined.

Lemma gift_moves_exactly_the_amount_witness :
  exists sid rid,
    sid <> rid
    /\ balance_of
         (Slash.gift_command Demo.all_up 5 "111" "A" "222" "B" false 30 None Demo.shop).2
         sid = balance_of Demo.shop sid - 30
    /\ balance_of
         (Slash.gift_command Demo.all_up 5 "111" "A" "222" "B" false 30 None Demo.shop).2
         rid = balance_of Demo.shop rid + 30.
Proof.
  destruct (gift_moves_exactly_the_amount Demo.all_up 5 "111" "A" "222" "B" false 30
              None Demo.shop 70 1 ltac:(vm_compute; reflexivity))
    as (_ & _ & _ & sid & rid & H1 & _ & H3 & H4 & _).
  exists sid, rid. split; [exact H1|]. split; [exact H3|exact H4].
Defined.

(** Alice writes again thirty seconds after her last award. *)
Lemma cooldown_blocks_earning_witness :
  Slash.process_coin_earning Demo.all_up defaults 1030000000 "111" "A" "general" chatty
  = chatty.
Proof.
  apply (cooldown_blocks_earning Demo.all_up defaults 1030000000 "111" "A" "general"
           chatty 1 Demo.alice first_earning
           ltac:(vm_compute; reflexivity) ltac:(left)
           ltac:(reflexivity) ltac:(vm_compute; reflexivity)).
Defined.

(** And a minute and a half after it. *)
Example earning_after_the_cooldown :
  let s' := Slash.process_coin_earning Demo.all_up defaults 1090000000 "111" "A"
              "general" chatty in
  balance_of s' 1 = 101 /\ List.map amount (transactions s') = [1; 1].
Proof. vm_compute. by split. Qed.

Lemma message_registers_author_witness :
  exists uid user',
    user_by_discord_id
      (Slash.process_coin_earning Demo.all_up defaults 5 "333" "Carol" "general" Demo.shop)
      "333" = Some (uid, user').
Proof.
  destruct (message_registers_author Demo.all_up defaults 5 "333" "Carol" "general"
              Demo.shop ltac:(reflexivity)) as (uid & user' & H & _).
  exists uid, user'. exact H.
Defined.

Example carol_is_registered_with_a_coin :
  let s' := Slash.process_coin_earning Demo.all_up defaults 5 "333" "Carol" "general"
              Demo.shop in
  (coins <$> users s' !! 3) = Some 1 /\ ledger_sum s' 3 = 1.
Proof. vm_compute. by split. Qed.

Lemma no_password_no_delivery_witness :
  committed_status
    (purchases (db (Slash.process_purchase no_password (1, vip_purchase) queue_booted)))
    1 = Some "failed".
Proof.
  apply (no_password_no_delivery no_password 1 vip_purchase vip_purchase queue_booted
           Demo.vip Demo.alice
           ltac:(reflexivity) ltac:(reflexivity) ltac:(reflexivity)
           ltac:(reflexivity) ltac:(reflexivity)).
Defined.

Lemma status_in_time_is_online_witness :
  (MinecraftIntegration.get_server_status Demo.all_up tt None (Some 0)).1
  = Returned (MinecraftIntegration.mkStatusDict true (Some 3) (Some 20)
                (Some "1.20.4") (Some 12) None "localhost" 25565).
Proof.
  apply (status_in_time_is_online Demo.all_up tt None (Some 0) 40%N
           (mkStatusResponse 3 20 "1.20.4" "demo" 12)
           ltac:(reflexivity) ltac:(reflexivity)
           ltac:(vm_compute; discriminate) ltac:(reflexivity)).
Defined.

Example three_commands_two_entries :
  (size <$> match (MinecraftHelpers.execute_multiple_commands Demo.all_up tt
                     ["list"; "say hi"; "list"] None None None).1 with
            | Returned results => Some results
            | Raised _ => None
            end) = Some 2%nat.
Proof. vm_compute. reflexivity. Qed.

Example a_failed_manual_fulfilment_leaves_pending :
  let r := ApiRoutes.fulfill_purchase Demo.rcon_down Demo.format_username 2 queue_booted in
  r.1 = (500, "Failed to execute Minecraft command")
  /\ committed_status (purchases (db r.2)) 2 = Some "pending"
  /\ external_calls (trace r.2) = [EvRcon 2 "give A diamond_sword 1"].
Proof. vm_compute. repeat split. Qed.

Lemma slash_missing_reference_fails_witness :
  committed_status (purchases (db (slash_sweep Demo.all_up))) 3 = Some "failed"
  /\ calls_about 3 (trace (slash_sweep Demo.all_up)) = [].
Proof.
  destruct (slash_missing_reference_fails Demo.all_up queue_booted 3 dangling_purchase
              ltac:(reflexivity) ltac:(reflexivity) ltac:(reflexivity)
              ltac:(left; reflexivity)) as (H1 & H2 & _).
  split; [exact H1|exact H2].
Defined.

(** The older bot as the repository starts it, outside an application
    context: the sweep and the buy stop at their first statement. Inside
    one, a buyer the bot has just created gets an error, because the object
    [get_or_create_user] returns for her is expired. *)
Example older_bot_outside_a_context :
  Legacy.process_pending_purchases outside_context Demo.format_username queue_booted
  = queue_booted
  /\ Legacy.buy outside_context (fun _ => Returned true) 5 "111" "A" 1 1 Demo.shop
     = (Legacy.ErrorOccurred, Demo.shop)
  /\ (Legacy.buy Demo.all_up (fun _ => Returned true) 5 "333" "Carol" 1 1 Demo.shop).1
     = Legacy.ErrorOccurred
  /\ users (Legacy.buy Demo.all_up (fun _ => Returned true) 5 "333" "Carol" 1 1
              Demo.shop).2 !! 3
     = Some (new_User "333" "Carol").
Proof. vm_compute. repeat split. Qed.

(** An adjustment whose amount does not fit an INTEGER column. *)
Example adjustment_outside_the_column :
  Api.update_user_coins 5 1 9223372036854775807 "bonus" Demo.shop
  = (Api.internal_server_error, Demo.shop)
  /\ (Api.update_user_coins 5 1 9223372036854775707 "bonus" Demo.shop).1
     = (200, Api.CoinsUpdated 9223372036854775807).
Proof. vm_compute. by split. Qed.

(** Alice's message and the older bot. *)
Lemma older_bot_never_writes_a_balance_witness :
  users (run Demo.all_up Legacy.database_is_active
           (LegacyEarn legacy_defaults ∅ 5 "111" "A") Demo.shop) !! 1
  = Some Demo.alice.
Proof.
  destruct (older_bot_never_writes_a_balance Demo.all_up Legacy.database_is_active
              (LegacyEarn legacy_defaults ∅ 5 "111" "A") Demo.shop ltac:(reflexivity))
    as (H & _).
  apply (H 1 Demo.alice). reflexivity.
Defined.

Lemma sequences_keep_the_ledger_sound_witness :
  ledger_consistent
    (run_all Demo.all_up Legacy.database_is_active
       [Buy 5 "111" 1 1; GiftTo 6 "111" "A" "222" "B" false 30 None;
        Adjust 7 2 (-100) "penalty"; Earn defaults 8 "333" "Carol" "general"]
       Demo.shop).
Proof.
  destruct (sequences_keep_the_ledger_sound Demo.all_up Legacy.database_is_active
              [Buy 5 "111" 1 1; GiftTo 6 "111" "A" "222" "B" false 30 None;
               Adjust 7 2 (-100) "penalty"; Earn defaults 8 "333" "Carol" "general"]
              Demo.shop shop_consistent shop_non_negative) as (_ & _ & H).
  destruct (H ltac:(repeat constructor)) as [Hc _]. exact Hc.
Defined.

Example a_week_in_the_shop :
  let s' := run_all Demo.all_up Legacy.database_is_active
              [Buy 5 "111" 1 1; GiftTo 6 "111" "A" "222" "B" false 30 None;
               Adjust 7 2 (-100) "penalty"; Earn defaults 8 "333" "Carol" "general"]
              Demo.shop in
  List.map (balance_of s') [1; 2; 3] = [20; 30; 1]
  /\ List.map (ledger_sum s') [1; 2; 3] = [20; 30; 1].
Proof. vm_compute. by split. Qed.

End EvaluatedMore.
